(** * TMPPy: the IR-low C++ emitter, the IR-low transformation framework and
    the front-end elaboration rules of [_py2tmp].

    The development follows the Python sources:
    - [_py2tmp/ir0.py]            the IR-low data model           (module [ir0]);
    - [_py2tmp/ir0_to_cpp.py]     the C++ emitter                 (module [ir0_to_cpp]);
    - [_py2tmp/transform_ir0.py]  the transformation framework    (module [transform_ir0]);
    - [_py2tmp/ast_to_ir3.py]     the front-end elaborator        (module [ast_to_ir3]).

    Python exceptions are values of [PyError]; every function that can raise
    returns a [Result].  Mutable writer objects are passed explicitly and
    returned updated. *)

From Stdlib Require Import ZArith String Ascii List Bool Lia DecimalString.
From stdpp Require Import gmap strings list.

#[local] Set Warnings "-register-all".

Open Scope Z_scope.
Open Scope string_scope.

(** ** Python exceptions and results *)

Inductive PyError : Type :=
| NotImplementedError (msg : string)
| KeyError
| AssertionError
| IndexError
| StopIteration
| ValueError
| RecursionError.

Inductive Result (E A : Type) : Type :=
| Ok (a : A)
| Raise (e : E).
Arguments Ok {E A} a.
Arguments Raise {E A} e.

(** Sequencing: an exception of the first computation skips the second.
    The notations [x ← m; k] and ['(x, y) ← m; k] are stdpp's. *)
#[global] Instance Result_bind {E : Type} : MBind (Result E) :=
  fun A B (k : A -> Result E B) (m : Result E A) =>
    match m with
    | Ok a => k a
    | Raise e => Raise e
    end.

Definition is_ok {E A : Type} (m : Result E A) : bool :=
  match m with Ok _ => true | Raise _ => false end.

(** [[f(x) for x in xs]]: elements are processed left to right and the first
    exception aborts the comprehension. *)
Fixpoint mapM {E A B : Type} (f : A -> Result E B) (xs : list A) : Result E (list B) :=
  match xs with
  | [] => Ok []
  | x :: xs' => y ← f x; ys ← mapM f xs'; Ok (y :: ys)
  end.

(** The same with a state threaded through the calls. *)
Fixpoint mapM_st {E S A B : Type} (f : A -> S -> Result E (B * S)) (xs : list A) (s : S)
  : Result E (list B * S) :=
  match xs with
  | [] => Ok ([], s)
  | x :: xs' =>
      '(y, s1) ← f x s;
      '(ys, s2) ← mapM_st f xs' s1;
      Ok (y :: ys, s2)
  end.

(** ** Text helpers *)

Definition nl : string := String "010"%char EmptyString.
Definition dquote : string := String "034"%char EmptyString.
Definition backslash : string := String "092"%char EmptyString.

(** [sep.join(xs)] *)
Definition join (sep : string) (xs : list string) : string := String.concat sep xs.

(** [str(n)] for a Python [int]. *)
Definition str_int (n : Z) : string := NilZero.string_of_int (Z.to_int n).

Fixpoint spaces (n : nat) : string :=
  match n with
  | O => EmptyString
  | S n' => String " "%char (spaces n')
  end.

(** [sorted(xs)] on strings. *)
Fixpoint sorted_insert (x : string) (xs : list string) : list string :=
  match xs with
  | [] => [x]
  | y :: ys => if String.ltb x y then x :: y :: ys else y :: sorted_insert x ys
  end.

Definition sorted (xs : list string) : list string :=
  fold_left (fun acc x => sorted_insert x acc) xs [].

(** ** Identifier generators

    An [identifier_generator] is a Python iterator of strings: [gen_items]
    lists what it yields (forever, or until [None]) and [gen_pos] is how many
    identifiers have been drawn. *)
Record IdentifierGenerator : Type := mkGen {
  gen_items : nat -> option string;
  gen_pos : nat
}.

(** [next(identifier_generator)] *)
Definition next (g : IdentifierGenerator) : Result PyError (string * IdentifierGenerator) :=
  match gen_items g (gen_pos g) with
  | Some s => Ok (s, mkGen (gen_items g) (S (gen_pos g)))
  | None => Raise StopIteration
  end.

(** * IR-low: [_py2tmp/ir0.py] *)
Module ir0.

Inductive ExprKind : Type := BOOL | INT64 | TYPE | TEMPLATE | VARIADIC_TYPE.

#[global] Instance ExprKind_eq_dec : EqDecision ExprKind.
Proof. solve_decision. Defined.

Inductive ExprType : Type :=
| BoolType
| Int64Type
| TypeType
| TemplateType (argtypes : list ExprType)
| VariadicType.

Definition kind (t : ExprType) : ExprKind :=
  match t with
  | BoolType => BOOL
  | Int64Type => INT64
  | TypeType => TYPE
  | TemplateType _ => TEMPLATE
  | VariadicType => VARIADIC_TYPE
  end.

(** [isinstance(t, ir0.TemplateType)] *)
Definition is_TemplateType (t : ExprType) : bool :=
  match t with TemplateType _ => true | _ => false end.

(** The value of a [Literal]: a Python [bool] or [int]. *)
Inductive LiteralValue : Type :=
| VBool (b : bool)
| VInt (n : Z).

Inductive Expr : Type :=
| Literal (value : LiteralValue)
| AtomicTypeLiteral (cpp_type : string) (is_local : bool)
    (is_metafunction_that_may_return_error : bool) (type : ExprType)
| PointerTypeExpr (type_expr : Expr)
| ReferenceTypeExpr (type_expr : Expr)
| RvalueReferenceTypeExpr (type_expr : Expr)
| ConstTypeExpr (type_expr : Expr)
| ArrayTypeExpr (type_expr : Expr)
| FunctionTypeExpr (return_type_expr : Expr) (arg_exprs : list Expr)
| ComparisonExpr (lhs rhs : Expr) (op : string)
| Int64BinaryOpExpr (lhs rhs : Expr) (op : string)
| TemplateInstantiation (template_expr : Expr) (args : list Expr)
    (instantiation_might_trigger_static_asserts : bool)
| ClassMemberAccess (expr : Expr) (member_name : string) (member_type : ExprType)
| NotExpr (expr : Expr)
| UnaryMinusExpr (expr : Expr)
| VariadicTypeExpansion (expr : Expr).

(** [expr.type], as each constructor's [__init__] sets it. *)
Definition type_of (e : Expr) : ExprType :=
  match e with
  | Literal (VBool _) => BoolType
  | Literal (VInt _) => Int64Type
  | AtomicTypeLiteral _ _ _ t => t
  | PointerTypeExpr _ | ReferenceTypeExpr _ | RvalueReferenceTypeExpr _
  | ConstTypeExpr _ | ArrayTypeExpr _ | FunctionTypeExpr _ _ => TypeType
  | ComparisonExpr _ _ _ => BoolType
  | Int64BinaryOpExpr _ _ _ => Int64Type
  | TemplateInstantiation _ _ _ => TypeType
  | ClassMemberAccess _ _ t => t
  | NotExpr _ => BoolType
  | UnaryMinusExpr _ => Int64Type
  | VariadicTypeExpansion _ => TypeType
  end.

(** [AtomicTypeLiteral.for_local] *)
Definition for_local (cpp_type : string) (type : ExprType) : Expr :=
  AtomicTypeLiteral cpp_type true (bool_decide (kind type = TEMPLATE)) type.

(** [expr.references_any_of(variables)] *)
Fixpoint references_any_of (e : Expr) (variables : gset string) : bool :=
  match e with
  | Literal _ => false
  | AtomicTypeLiteral cpp_type _ _ _ => bool_decide (cpp_type ∈ variables)
  | PointerTypeExpr t | ReferenceTypeExpr t | RvalueReferenceTypeExpr t
  | ConstTypeExpr t | ArrayTypeExpr t => references_any_of t variables
  | FunctionTypeExpr r args =>
      references_any_of r variables
      || existsb (fun a => references_any_of a variables) args
  | ComparisonExpr l r _ | Int64BinaryOpExpr l r _ =>
      references_any_of l variables || references_any_of r variables
  | TemplateInstantiation t args _ =>
      references_any_of t variables
      || existsb (fun a => references_any_of a variables) args
  | ClassMemberAccess x _ _ | NotExpr x | UnaryMinusExpr x | VariadicTypeExpansion x =>
      references_any_of x variables
  end.

Record TemplateArgDecl : Type := mkTemplateArgDecl {
  arg_type : ExprType;
  arg_name : string
}.

Record StaticAssert : Type := mkStaticAssert {
  sa_expr : Expr;
  sa_message : string
}.

Record ConstantDef : Type := mkConstantDef {
  cd_name : string;
  cd_expr : Expr
}.

Record Typedef : Type := mkTypedef {
  td_name : string;
  td_expr : Expr
}.

(** Template definitions nest: a specialization's body may hold further
    template definitions. *)
Inductive TemplateBodyElement : Type :=
| ElemStaticAssert (elem : StaticAssert)
| ElemConstantDef (elem : ConstantDef)
| ElemTypedef (elem : Typedef)
| ElemTemplateDefn (elem : TemplateDefn)
with TemplateDefn : Type :=
| mkTemplateDefn (args : list TemplateArgDecl)
    (main_definition : option TemplateSpecialization)
    (specializations : list TemplateSpecialization)
    (name : string) (description : string) (result_element_names : list string)
with TemplateSpecialization : Type :=
| mkTemplateSpecialization (args : list TemplateArgDecl)
    (patterns : option (list Expr))
    (body : list TemplateBodyElement).

(** [==] on expression types: [utils.ValueType] compares structurally. *)
Fixpoint ExprType_eqb (a b : ExprType) : bool :=
  match a, b with
  | BoolType, BoolType | Int64Type, Int64Type | TypeType, TypeType
  | VariadicType, VariadicType => true
  | TemplateType xs, TemplateType ys =>
      (fix go (xs ys : list ExprType) : bool :=
         match xs, ys with
         | [], [] => true
         | x :: xs', y :: ys' => ExprType_eqb x y && go xs' ys'
         | _, _ => false
         end) xs ys
  | _, _ => false
  end.

(** *** Constructors with the assertions of their [__init__]

    The inductive types above hold any tree; [X_init] is the Python
    constructor call [ir0.X(...)], which raises when an assertion of
    [__init__] fails. *)

Definition assert_ (b : bool) : Result PyError unit :=
  if b then Ok tt else Raise AssertionError.

Definition StaticAssert_init (expr : Expr) (message : string) : Result PyError StaticAssert :=
  _ ← assert_ (ExprType_eqb (type_of expr) BoolType);
  Ok (mkStaticAssert expr message).

Definition ConstantDef_init (name : string) (expr : Expr) : Result PyError ConstantDef :=
  _ ← assert_ (match type_of expr with BoolType | Int64Type => true | _ => false end);
  Ok (mkConstantDef name expr).

Definition Typedef_init (name : string) (expr : Expr) : Result PyError Typedef :=
  _ ← assert_ (match type_of expr with TypeType | TemplateType _ => true | _ => false end);
  Ok (mkTypedef name expr).

Definition contains_newline (s : string) : bool :=
  existsb (fun c => Ascii.eqb c "010"%char) (list_ascii_of_string s).

Definition TemplateDefn_init (args : list TemplateArgDecl)
    (main_definition : option TemplateSpecialization)
    (specializations : list TemplateSpecialization)
    (name description : string) (result_element_names : list string)
  : Result PyError TemplateDefn :=
  _ ← assert_ (match main_definition, specializations with
               | None, [] => false
               | _, _ => true
               end);
  _ ← assert_ (match main_definition with
               | Some (mkTemplateSpecialization _ (Some _) _) => false
               | _ => true
               end);
  _ ← assert_ (negb (contains_newline description));
  Ok (mkTemplateDefn args main_definition specializations name description
        (sorted result_element_names)).

Definition AtomicTypeLiteral_init (cpp_type : string) (is_local : bool)
    (is_metafunction_that_may_return_error : bool) (type : ExprType)
  : Result PyError Expr :=
  _ ← assert_ (negb (is_metafunction_that_may_return_error && negb (is_TemplateType type)));
  Ok (AtomicTypeLiteral cpp_type is_local is_metafunction_that_may_return_error type).

(** [PointerTypeExpr], [ReferenceTypeExpr], [RvalueReferenceTypeExpr],
    [ConstTypeExpr] and [ArrayTypeExpr] share one [__init__]. *)
Definition unary_type_expr_init (constructor : Expr -> Expr) (type_expr : Expr)
  : Result PyError Expr :=
  _ ← assert_ (ExprType_eqb (type_of type_expr) TypeType);
  Ok (constructor type_expr).

Definition FunctionTypeExpr_init (return_type_expr : Expr) (arg_exprs : list Expr)
  : Result PyError Expr :=
  _ ← assert_ (ExprType_eqb (type_of return_type_expr) TypeType);
  Ok (FunctionTypeExpr return_type_expr arg_exprs).

Definition op_in (op : string) (ops : list string) : bool :=
  existsb (String.eqb op) ops.

Definition ComparisonExpr_init (lhs rhs : Expr) (op : string) : Result PyError Expr :=
  _ ← assert_ (ExprType_eqb (type_of lhs) (type_of rhs));
  _ ← match type_of lhs with
      | BoolType => assert_ (String.eqb op "==")
      | Int64Type => assert_ (op_in op ["=="; "!="; "<"; ">"; "<="; ">="])
      | _ => Raise (NotImplementedError "Unexpected type")
      end;
  Ok (ComparisonExpr lhs rhs op).

Definition Int64BinaryOpExpr_init (lhs rhs : Expr) (op : string) : Result PyError Expr :=
  _ ← assert_ (match type_of lhs with Int64Type => true | _ => false end);
  _ ← assert_ (match type_of rhs with Int64Type => true | _ => false end);
  _ ← assert_ (op_in op ["+"; "-"; "*"; "/"; "%"]);
  Ok (Int64BinaryOpExpr lhs rhs op).

(** [zip(argtypes, args)] with the assertion on each pair. *)
Fixpoint check_arg_types (argtypes : list ExprType) (args : list Expr) : bool :=
  match argtypes, args with
  | arg_type :: argtypes', arg_expr :: args' =>
      ExprType_eqb (type_of arg_expr) arg_type && check_arg_types argtypes' args'
  | _, _ => true
  end.

Definition TemplateInstantiation_init (template_expr : Expr) (args : list Expr)
    (instantiation_might_trigger_static_asserts : bool) : Result PyError Expr :=
  match type_of template_expr with
  | TemplateType argtypes =>
      _ ← (if existsb (fun t => bool_decide (kind t = VARIADIC_TYPE))
                (argtypes ++ map type_of args)
           then Ok tt
           else
             _ ← assert_ (Nat.eqb (length argtypes) (length args));
             assert_ (check_arg_types argtypes args));
      Ok (TemplateInstantiation template_expr args
            instantiation_might_trigger_static_asserts)
  | _ => Raise AssertionError
  end.

(** [toplevel_content] is declared as a list of static asserts, constant
    definitions and typedefs; nothing in [Header.__init__] checks it, so its
    elements are body elements here. *)
Record Header : Type := mkHeader {
  template_defns : list TemplateDefn;
  toplevel_content : list TemplateBodyElement;
  public_names : gset string
}.

End ir0.

(** * The C++ emitter: [_py2tmp/ir0_to_cpp.py] *)
Module ir0_to_cpp.
Import ir0.

(** ** Writers *)

Record ToplevelWriter : Type := mkToplevelWriter {
  identifier_generator : IdentifierGenerator;
  toplevel_strings : list string
}.

(** The three writer classes.  A [TemplateElemWriter] and an [ExprWriter] hold a
    reference to the writer above them; here they hold its current state, and
    whoever created the child reads the parent's state back from it. *)
Inductive Writer : Type :=
| W_Toplevel (w : ToplevelWriter)
| W_TemplateElem (toplevel_writer : ToplevelWriter) (strings : list string)
| W_Expr (parent_writer : Writer) (strings : list string).

Definition toplevel_write (t : ToplevelWriter) (s : string) : ToplevelWriter :=
  mkToplevelWriter (identifier_generator t) (toplevel_strings t ++ [s]).

Definition toplevel_new_id (t : ToplevelWriter) : Result PyError (string * ToplevelWriter) :=
  '(s, g) ← next (identifier_generator t);
  Ok (s, mkToplevelWriter g (toplevel_strings t)).

Fixpoint new_id (w : Writer) : Result PyError (string * Writer) :=
  match w with
  | W_Toplevel t => '(s, t') ← toplevel_new_id t; Ok (s, W_Toplevel t')
  | W_TemplateElem t strs => '(s, t') ← toplevel_new_id t; Ok (s, W_TemplateElem t' strs)
  | W_Expr p strs => '(s, p') ← new_id p; Ok (s, W_Expr p' strs)
  end.

Fixpoint write_toplevel_elem (w : Writer) (s : string) : Writer :=
  match w with
  | W_Toplevel t => W_Toplevel (toplevel_write t s)
  | W_TemplateElem t strs => W_TemplateElem (toplevel_write t s) strs
  | W_Expr p strs => W_Expr (write_toplevel_elem p s) strs
  end.

Fixpoint write_template_body_elem (w : Writer) (s : string) : Writer :=
  match w with
  | W_Toplevel t => W_Toplevel (toplevel_write t s)
  | W_TemplateElem t strs => W_TemplateElem t (strs ++ [s])
  | W_Expr p strs => W_Expr (write_template_body_elem p s) strs
  end.

Definition write_expr_fragment (w : Writer) (s : string) : Writer :=
  match w with
  | W_Toplevel t => W_Toplevel (toplevel_write t s)
  | W_TemplateElem t strs => W_TemplateElem t (strs ++ [s])
  | W_Expr p strs => W_Expr p (strs ++ [s])
  end.

Definition create_child_writer (w : Writer) : Result PyError Writer :=
  match w with
  | W_Toplevel t => Ok (W_TemplateElem t [])
  | W_TemplateElem t _ => Ok (W_TemplateElem t [])
  | W_Expr _ _ => Raise (NotImplementedError "This is not supported at the expression level")
  end.

Fixpoint get_toplevel_writer (w : Writer) : ToplevelWriter :=
  match w with
  | W_Toplevel t => t
  | W_TemplateElem t _ => t
  | W_Expr p _ => get_toplevel_writer p
  end.

(** The toplevel writer is shared: after it was used through another writer,
    [w] sees its new state. *)
Fixpoint set_toplevel_writer (w : Writer) (t : ToplevelWriter) : Writer :=
  match w with
  | W_Toplevel _ => W_Toplevel t
  | W_TemplateElem _ strs => W_TemplateElem t strs
  | W_Expr p strs => W_Expr (set_toplevel_writer p t) strs
  end.

(** [writer.strings] *)
Definition writer_strings (w : Writer) : list string :=
  match w with
  | W_Toplevel t => toplevel_strings t
  | W_TemplateElem _ strs => strs
  | W_Expr _ strs => strs
  end.

(** What an [ExprWriter] leaves when [expr_to_cpp] is done with it: the joined
    fragments, and the writer it was created from. *)
Definition close_expr_writer (w : Writer) : string * Writer :=
  match w with
  | W_Expr p strs => (join EmptyString strs, p)
  | _ => (join EmptyString (writer_strings w), w)
  end.

(** ** Leaves of the emitter *)

Definition literal_to_cpp (value : LiteralValue) : string :=
  match value with
  | VBool true => "true"
  | VBool false => "false"
  | VInt n => str_int n +:+ "LL"
  end.

Fixpoint _type_to_template_param_declaration (type : ExprType) : string :=
  match type with
  | BoolType => "bool"
  | Int64Type => "int64_t"
  | TypeType => "typename"
  | TemplateType argtypes =>
      "template <" +:+ join ", " (map _type_to_template_param_declaration argtypes) +:+ "> class"
  | VariadicType => "typename..."
  end.

Definition template_arg_decl_to_cpp (arg_decl : TemplateArgDecl) : string :=
  _type_to_template_param_declaration (arg_type arg_decl) +:+ " " +:+ arg_name arg_decl.

Fixpoint _select_best_arg_decl_for_select1st_loop (args : list TemplateArgDecl)
  : option TemplateArgDecl :=
  match args with
  | [] => None
  | arg :: rest =>
      if negb (is_TemplateType (arg_type arg)) then Some arg
      else _select_best_arg_decl_for_select1st_loop rest
  end.

Definition _select_best_arg_decl_for_select1st (args : list TemplateArgDecl)
  : Result PyError TemplateArgDecl :=
  match _select_best_arg_decl_for_select1st_loop args with
  | Some arg => Ok arg
  | None => match args with
            | a0 :: _ => Ok a0
            | [] => Raise IndexError
            end
  end.

Fixpoint _select_best_arg_expr_index_for_select1st_loop (i : nat) (args : list Expr)
  : option nat :=
  match args with
  | [] => None
  | arg :: rest =>
      if negb (is_TemplateType (type_of arg)) then Some i
      else _select_best_arg_expr_index_for_select1st_loop (S i) rest
  end.

Definition _select_best_arg_expr_index_for_select1st (args : list Expr)
  : Result PyError nat :=
  match args with
  | [] => Raise AssertionError
  | _ => match _select_best_arg_expr_index_for_select1st_loop 0 args with
         | Some i => Ok i
         | None => Ok 0%nat
         end
  end.

(** The [select1st_variant] dictionary of [template_instantiation_to_cpp],
    keyed by (kind of the replaced argument, kind of the enclosing parameter);
    [None] is a [KeyError]. *)
Definition select1st_variant_table (k1 k2 : ExprKind) : option string :=
  match k1, k2 with
  | BOOL, BOOL => Some "Select1stBoolBool"
  | BOOL, INT64 => Some "Select1stBoolInt64"
  | BOOL, TYPE => Some "Select1stBoolType"
  | BOOL, VARIADIC_TYPE => Some "Select1stBoolType"
  | INT64, BOOL => Some "Select1stInt64Bool"
  | INT64, INT64 => Some "Select1stInt64Int64"
  | INT64, TYPE => Some "Select1stInt64Type"
  | INT64, VARIADIC_TYPE => Some "Select1stInt64TypeType"
  | TYPE, BOOL => Some "Select1stTypeBool"
  | TYPE, INT64 => Some "Select1stTypeInt64"
  | TYPE, TYPE => Some "Select1stTypeType"
  | TYPE, VARIADIC_TYPE => Some "Select1stTypeType"
  | _, _ => None
  end.

(** [_simplify_toplevel_references]: the [while] loop, then the rebuilt node. *)
Fixpoint _simplify_toplevel_references_loop (has_reference : bool) (expr : Expr)
  : bool * Expr :=
  match expr with
  | ReferenceTypeExpr type_expr =>
      _simplify_toplevel_references_loop (has_reference || true) type_expr
  | RvalueReferenceTypeExpr type_expr =>
      _simplify_toplevel_references_loop (has_reference || false) type_expr
  | _ => (has_reference, expr)
  end.

Definition _simplify_toplevel_references (expr : Expr) : Expr :=
  let '(has_reference, inner) := _simplify_toplevel_references_loop false expr in
  if has_reference then ReferenceTypeExpr inner else RvalueReferenceTypeExpr inner.

Definition atomic_type_literal_expr_to_cpp (cpp_type : string) : string := cpp_type.

(** ** The mutually recursive emitter

    The Python functions call each other on expressions they build on the way
    (the [Select1st] wrapper of [template_instantiation_to_cpp], the
    instantiation of [typedef_to_cpp]), so the recursion is not structural.
    Each function is written against the record [Emitters] of the functions it
    may call; [emitters depth] ties the knot, [depth] bounding the nesting of
    calls as the interpreter's recursion limit does. *)

(** A [write_prefix] or [write_suffix] closure: run later, on the writer it
    captured. *)
Definition Closure : Type := Writer -> Result PyError Writer.

Record Emitters : Type := mkEmitters {
  rec_expr_to_cpp :
    Expr -> list TemplateArgDecl -> Writer -> Result PyError (string * Writer);
  rec_type_expr_to_cpp_prefix_suffix :
    Expr -> list TemplateArgDecl -> Writer -> bool ->
    Result PyError (Closure * Closure * Writer);
  (* template_expr, args, instantiation_might_trigger_static_asserts, ..., omit_typename *)
  rec_template_instantiation_to_cpp :
    Expr -> list Expr -> bool -> list TemplateArgDecl -> Writer -> bool ->
    Result PyError (string * Writer);
  (* expr, member_name, member_type, ..., omit_typename, parent_expr_is_template_instantiation *)
  rec_class_member_access_to_cpp :
    Expr -> string -> ExprType -> list TemplateArgDecl -> Writer -> bool -> bool ->
    Result PyError (string * Writer)
}.

Section Bodies.
Variable rec : Emitters.

Definition type_expr_to_cpp (expr : Expr)
    (enclosing_function_defn_args : list TemplateArgDecl) (writer : Writer)
  : Result PyError Writer :=
  '(write_prefix, write_suffix, writer) ←
    rec_type_expr_to_cpp_prefix_suffix rec expr enclosing_function_defn_args writer false;
  writer ← write_prefix writer;
  write_suffix writer.

Definition comparison_expr_to_cpp (lhs rhs : Expr) (op : string)
    (enclosing_function_defn_args : list TemplateArgDecl) (writer : Writer)
  : Result PyError (string * Writer) :=
  '(l, writer) ← rec_expr_to_cpp rec lhs enclosing_function_defn_args writer;
  '(r, writer) ← rec_expr_to_cpp rec rhs enclosing_function_defn_args writer;
  Ok ("(" +:+ l +:+ ") " +:+ op +:+ " (" +:+ r +:+ ")", writer).

Definition int64_binary_op_expr_to_cpp (lhs rhs : Expr) (op : string)
    (enclosing_function_defn_args : list TemplateArgDecl) (writer : Writer)
  : Result PyError (string * Writer) :=
  '(l, writer) ← rec_expr_to_cpp rec lhs enclosing_function_defn_args writer;
  '(r, writer) ← rec_expr_to_cpp rec rhs enclosing_function_defn_args writer;
  Ok ("(" +:+ l +:+ ") " +:+ op +:+ " (" +:+ r +:+ ")", writer).

Definition not_expr_to_cpp (expr : Expr)
    (enclosing_function_defn_args : list TemplateArgDecl) (writer : Writer)
  : Result PyError (string * Writer) :=
  '(inner_expr, writer) ← rec_expr_to_cpp rec expr enclosing_function_defn_args writer;
  Ok ("!(" +:+ inner_expr +:+ ")", writer).

Definition unary_minus_expr_to_cpp (expr : Expr)
    (enclosing_function_defn_args : list TemplateArgDecl) (writer : Writer)
  : Result PyError (string * Writer) :=
  '(inner_expr, writer) ← rec_expr_to_cpp rec expr enclosing_function_defn_args writer;
  Ok ("-(" +:+ inner_expr +:+ ")", writer).

Definition variadic_type_expansion_to_cpp (expr : Expr)
    (enclosing_function_defn_args : list TemplateArgDecl) (writer : Writer)
  : Result PyError (string * Writer) :=
  '(s, writer) ← rec_expr_to_cpp rec expr enclosing_function_defn_args writer;
  Ok (s +:+ "...", writer).

Definition expr_to_cpp_def (expr : Expr)
    (enclosing_function_defn_args : list TemplateArgDecl) (writer : Writer)
  : Result PyError (string * Writer) :=
  match expr with
  | Literal value => Ok (literal_to_cpp value, writer)
  | ComparisonExpr lhs rhs op =>
      comparison_expr_to_cpp lhs rhs op enclosing_function_defn_args writer
  | NotExpr e => not_expr_to_cpp e enclosing_function_defn_args writer
  | UnaryMinusExpr e => unary_minus_expr_to_cpp e enclosing_function_defn_args writer
  | Int64BinaryOpExpr lhs rhs op =>
      int64_binary_op_expr_to_cpp lhs rhs op enclosing_function_defn_args writer
  | _ =>
      let writer := W_Expr writer [] in
      writer ← type_expr_to_cpp expr enclosing_function_defn_args writer;
      Ok (close_expr_writer writer)
  end.

Definition constant_def_to_cpp (constant_def : ConstantDef)
    (enclosing_function_defn_args : list TemplateArgDecl) (writer : Writer)
  : Result PyError Writer :=
  type_cpp ← match type_of (cd_expr constant_def) with
             | BoolType => Ok "bool"
             | Int64Type => Ok "int64_t"
             | _ => Raise (NotImplementedError "Unexpected expression type")
             end;
  let name := cd_name constant_def in
  '(cpp_meta_expr, writer) ←
    rec_expr_to_cpp rec (cd_expr constant_def) enclosing_function_defn_args writer;
  Ok (write_template_body_elem writer
        (spaces 8 +:+ "static constexpr " +:+ type_cpp +:+ " " +:+ name +:+ " = "
         +:+ cpp_meta_expr +:+ ";" +:+ nl +:+ spaces 8)).

(** [[ir0.TemplateArgDecl(type=arg_type, name=writer.new_id()) for arg_type in argtypes]] *)
Fixpoint fresh_template_args (argtypes : list ExprType) (writer : Writer)
  : Result PyError (list TemplateArgDecl * Writer) :=
  match argtypes with
  | [] => Ok ([], writer)
  | arg_type :: rest =>
      '(name, writer) ← new_id writer;
      '(decls, writer) ← fresh_template_args rest writer;
      Ok (mkTemplateArgDecl arg_type name :: decls, writer)
  end.

Definition typedef_to_cpp (typedef : Typedef)
    (enclosing_function_defn_args : list TemplateArgDecl) (writer : Writer)
  : Result PyError Writer :=
  let name := td_name typedef in
  match type_of (td_expr typedef) with
  | TypeType =>
      '(cpp_meta_expr, writer) ←
        rec_expr_to_cpp rec (td_expr typedef) enclosing_function_defn_args writer;
      Ok (write_template_body_elem writer
            (spaces 12 +:+ "using " +:+ name +:+ " = " +:+ cpp_meta_expr +:+ ";"
             +:+ nl +:+ spaces 12))
  | TemplateType argtypes =>
      '(template_args, writer) ← fresh_template_args argtypes writer;
      let template_args_decl := join ", " (map template_arg_decl_to_cpp template_args) in
      '(cpp_meta_expr, writer) ←
        rec_template_instantiation_to_cpp rec
          (td_expr typedef)
          (map (fun arg => for_local (arg_name arg) (arg_type arg)) template_args)
          true
          enclosing_function_defn_args writer false;
      Ok (write_template_body_elem writer
            (spaces 12 +:+ "template <" +:+ template_args_decl +:+ ">" +:+ nl
             +:+ spaces 12 +:+ "using " +:+ name +:+ " = " +:+ cpp_meta_expr +:+ ";"
             +:+ nl +:+ spaces 12))
  | _ => Raise (NotImplementedError "Unexpected expression type kind")
  end.

Definition template_instantiation_to_cpp_def
    (template_expr : Expr) (args : list Expr)
    (instantiation_might_trigger_static_asserts : bool)
    (enclosing_function_defn_args : list TemplateArgDecl) (writer : Writer)
    (omit_typename : bool)
  : Result PyError (string * Writer) :=
  let bound_variables : gset string :=
    list_to_set (map arg_name enclosing_function_defn_args) in
  '(args, writer) ←
    (if instantiation_might_trigger_static_asserts
        && negb (bool_decide (enclosing_function_defn_args = []))
        && negb (existsb (fun arg => references_any_of arg bound_variables) args)
     then
       arg_decl ← _select_best_arg_decl_for_select1st enclosing_function_defn_args;
       arg_index ← _select_best_arg_expr_index_for_select1st args;
       arg_to_replace ← match args !! arg_index with
                        | Some a => Ok a
                        | None => Raise IndexError
                        end;
       '(select1st_variant, writer) ←
         (if negb (bool_decide (kind (arg_type arg_decl) = TEMPLATE))
             && negb (bool_decide (kind (type_of arg_to_replace) = TEMPLATE))
          then
            match select1st_variant_table (kind (type_of arg_to_replace))
                                          (kind (arg_type arg_decl)) with
            | Some name => Ok (name, writer)
            | None => Raise KeyError
            end
          else
            '(select1st_variant, writer) ← new_id writer;
            '(forwarded_param_id, writer) ← new_id writer;
            let template_param_decl1 :=
              _type_to_template_param_declaration (type_of arg_to_replace) in
            let template_param_decl2 :=
              _type_to_template_param_declaration (arg_type arg_decl) in
            let select1st_variant_body_writer :=
              W_TemplateElem (get_toplevel_writer writer) [] in
            select1st_variant_body_writer ←
              (match kind (type_of arg_to_replace) with
               | BOOL | INT64 =>
                   constant_def_to_cpp
                     (mkConstantDef "value"
                        (for_local forwarded_param_id (type_of arg_to_replace)))
                     enclosing_function_defn_args select1st_variant_body_writer
               | _ =>
                   let replaced_type :=
                     match type_of arg_to_replace with
                     | VariadicType => TypeType
                     | t => t
                     end in
                   typedef_to_cpp
                     (mkTypedef "value" (for_local forwarded_param_id replaced_type))
                     enclosing_function_defn_args select1st_variant_body_writer
               end);
            let writer :=
              set_toplevel_writer writer
                (get_toplevel_writer select1st_variant_body_writer) in
            let select1st_variant_body_str :=
              join EmptyString (writer_strings select1st_variant_body_writer) in
            Ok (select1st_variant,
                write_template_body_elem writer
                  (nl +:+ spaces 20 +:+ "// Custom Select1st* template" +:+ nl
                   +:+ spaces 20 +:+ "template <" +:+ template_param_decl1 +:+ " "
                   +:+ forwarded_param_id +:+ ", " +:+ template_param_decl2 +:+ ">" +:+ nl
                   +:+ spaces 20 +:+ "struct " +:+ select1st_variant +:+ " {" +:+ nl
                   +:+ spaces 22 +:+ select1st_variant_body_str +:+ nl
                   +:+ spaces 20 +:+ "};" +:+ nl
                   +:+ spaces 20)));
       let select1st_type := TemplateType [type_of arg_to_replace; arg_type arg_decl] in
       let select1st_instantiation :=
         TemplateInstantiation
           (for_local select1st_variant select1st_type)
           [arg_to_replace; for_local (arg_name arg_decl) (arg_type arg_decl)]
           false in
       let new_arg :=
         ClassMemberAccess select1st_instantiation "value" (type_of arg_to_replace) in
       Ok ((take arg_index args ++ [new_arg] ++ drop (S arg_index) args)%list, writer)
     else Ok (args, writer));
  '(template_params, writer) ←
    mapM_st (fun arg w => rec_expr_to_cpp rec arg enclosing_function_defn_args w)
            args writer;
  let template_params := join ", " template_params in
  '(cpp_fun, writer) ←
    match template_expr with
    | ClassMemberAccess e member_name member_type =>
        rec_class_member_access_to_cpp rec e member_name member_type
          enclosing_function_defn_args writer omit_typename true
    | _ => rec_expr_to_cpp rec template_expr enclosing_function_defn_args writer
    end;
  Ok (cpp_fun +:+ "<" +:+ template_params +:+ ">", writer).

Definition class_member_access_to_cpp_def
    (expr : Expr) (member_name : string) (member_type : ExprType)
    (enclosing_function_defn_args : list TemplateArgDecl) (writer : Writer)
    (omit_typename : bool) (parent_expr_is_template_instantiation : bool)
  : Result PyError (string * Writer) :=
  '(cpp_fun, writer) ←
    match expr with
    | TemplateInstantiation t a f =>
        rec_template_instantiation_to_cpp rec t a f
          enclosing_function_defn_args writer true
    | ClassMemberAccess e n ty =>
        rec_class_member_access_to_cpp rec e n ty
          enclosing_function_defn_args writer true false
    | _ => rec_expr_to_cpp rec expr enclosing_function_defn_args writer
    end;
  match member_type with
  | BoolType | Int64Type => Ok (cpp_fun +:+ "::" +:+ member_name, writer)
  | TypeType | TemplateType _ =>
      let maybe_typename :=
        if omit_typename
           || (is_TemplateType member_type && negb parent_expr_is_template_instantiation)
        then EmptyString else "typename " in
      let maybe_template :=
        if is_TemplateType member_type then "template " else EmptyString in
      Ok (maybe_typename +:+ cpp_fun +:+ "::" +:+ maybe_template +:+ member_name, writer)
  | VariadicType => Raise (NotImplementedError "Member type: VariadicType")
  end.

Definition unary_modifier_type_expr_to_cpp_prefix_suffix
    (modifier_str : string) (sub_expr : Expr)
    (enclosing_function_defn_args : list TemplateArgDecl) (writer : Writer)
  : Result PyError (Closure * Closure * Writer) :=
  '(write_subexpr_prefix, write_subexpr_suffix, writer) ←
    rec_type_expr_to_cpp_prefix_suffix rec sub_expr enclosing_function_defn_args writer true;
  let write_prefix : Closure := fun writer =>
    writer ← write_subexpr_prefix writer;
    Ok (write_expr_fragment writer modifier_str) in
  Ok (write_prefix, write_subexpr_suffix, writer).

(** The [for i, arg in enumerate(expr.arg_exprs)] loop of [write_suffix]. *)
Fixpoint write_function_args (i : nat) (arg_exprs : list Expr)
    (enclosing_function_defn_args : list TemplateArgDecl) (writer : Writer)
  : Result PyError Writer :=
  match arg_exprs with
  | [] => Ok writer
  | arg :: rest =>
      let writer := if negb (Nat.eqb i 0) then write_expr_fragment writer ", " else writer in
      writer ← type_expr_to_cpp arg enclosing_function_defn_args writer;
      write_function_args (S i) rest enclosing_function_defn_args writer
  end.

Definition function_type_expr_to_cpp_prefix_suffix
    (return_type_expr : Expr) (arg_exprs : list Expr)
    (enclosing_function_defn_args : list TemplateArgDecl) (writer : Writer)
    (has_modifiers : bool)
  : Result PyError (Closure * Closure * Writer) :=
  '(return_type_write_prefix, return_type_write_suffix, writer) ←
    rec_type_expr_to_cpp_prefix_suffix rec return_type_expr
      enclosing_function_defn_args writer false;
  let write_prefix : Closure := fun writer =>
    writer ← return_type_write_prefix writer;
    Ok (if has_modifiers then write_expr_fragment writer "(" else writer) in
  let write_suffix : Closure := fun writer =>
    let writer := if has_modifiers then write_expr_fragment writer ")" else writer in
    let writer := write_expr_fragment writer " (" in
    writer ← write_function_args 0 arg_exprs enclosing_function_defn_args writer;
    let writer := write_expr_fragment writer ")" in
    return_type_write_suffix writer in
  Ok (write_prefix, write_suffix, writer).

Definition type_expr_to_cpp_prefix_suffix_def (expr : Expr)
    (enclosing_function_defn_args : list TemplateArgDecl) (writer : Writer)
    (has_modifiers : bool)
  : Result PyError (Closure * Closure * Writer) :=
  let expr :=
    match expr with
    | RvalueReferenceTypeExpr _ | ReferenceTypeExpr _ => _simplify_toplevel_references expr
    | _ => expr
    end in
  let leaf (r : Result PyError (string * Writer)) :=
    '(expr_cpp_code, writer) ← r;
    let write_prefix : Closure := fun writer => Ok (write_expr_fragment writer expr_cpp_code) in
    let write_suffix : Closure := fun writer => Ok writer in
    Ok (write_prefix, write_suffix, writer) in
  match expr with
  | FunctionTypeExpr return_type_expr arg_exprs =>
      function_type_expr_to_cpp_prefix_suffix return_type_expr arg_exprs
        enclosing_function_defn_args writer has_modifiers
  | PointerTypeExpr type_expr =>
      unary_modifier_type_expr_to_cpp_prefix_suffix "*" type_expr
        enclosing_function_defn_args writer
  | ReferenceTypeExpr type_expr =>
      unary_modifier_type_expr_to_cpp_prefix_suffix " &" type_expr
        enclosing_function_defn_args writer
  | RvalueReferenceTypeExpr type_expr =>
      unary_modifier_type_expr_to_cpp_prefix_suffix " &&" type_expr
        enclosing_function_defn_args writer
  | ConstTypeExpr type_expr =>
      unary_modifier_type_expr_to_cpp_prefix_suffix " const " type_expr
        enclosing_function_defn_args writer
  | ArrayTypeExpr type_expr =>
      unary_modifier_type_expr_to_cpp_prefix_suffix "[]" type_expr
        enclosing_function_defn_args writer
  | AtomicTypeLiteral cpp_type _ _ _ =>
      leaf (Ok (atomic_type_literal_expr_to_cpp cpp_type, writer))
  | TemplateInstantiation t a f =>
      leaf (rec_template_instantiation_to_cpp rec t a f
              enclosing_function_defn_args writer false)
  | ClassMemberAccess e n ty =>
      leaf (rec_class_member_access_to_cpp rec e n ty
              enclosing_function_defn_args writer false false)
  | VariadicTypeExpansion e =>
      leaf (variadic_type_expansion_to_cpp e enclosing_function_defn_args writer)
  | _ => Raise (NotImplementedError "Unexpected type expr")
  end.

End Bodies.

Definition out_of_depth : Emitters :=
  {| rec_expr_to_cpp := fun _ _ _ => Raise RecursionError;
     rec_type_expr_to_cpp_prefix_suffix := fun _ _ _ _ => Raise RecursionError;
     rec_template_instantiation_to_cpp := fun _ _ _ _ _ _ => Raise RecursionError;
     rec_class_member_access_to_cpp := fun _ _ _ _ _ _ _ => Raise RecursionError |}.

Fixpoint emitters (depth : nat) : Emitters :=
  match depth with
  | O => out_of_depth
  | S d =>
      let rec := emitters d in
      {| rec_expr_to_cpp := expr_to_cpp_def rec;
         rec_type_expr_to_cpp_prefix_suffix := type_expr_to_cpp_prefix_suffix_def rec;
         rec_template_instantiation_to_cpp := template_instantiation_to_cpp_def rec;
         rec_class_member_access_to_cpp := class_member_access_to_cpp_def rec |}
  end.

Definition expr_to_cpp (depth : nat) := rec_expr_to_cpp (emitters depth).
Definition type_expr_to_cpp_prefix_suffix (depth : nat) :=
  rec_type_expr_to_cpp_prefix_suffix (emitters depth).
Definition template_instantiation_to_cpp (depth : nat) :=
  rec_template_instantiation_to_cpp (emitters depth).
Definition class_member_access_to_cpp (depth : nat) :=
  rec_class_member_access_to_cpp (emitters depth).

(** ** Static asserts *)

(** The [for arg_decl in enclosing_function_defn_args] loop of
    [static_assert_to_cpp]: the text written by the first parameter of kind
    [BOOL], [INT64] or [TYPE], if there is one. *)
Fixpoint static_assert_guard (args : list TemplateArgDecl)
    (cpp_meta_expr message : string) : option string :=
  match args with
  | [] => None
  | arg_decl :: rest =>
      let bound_var := arg_name arg_decl in
      match kind (arg_type arg_decl) with
      | BOOL =>
          Some ("static_assert(AlwaysTrueFromBool<" +:+ bound_var +:+ ">::value && "
                +:+ cpp_meta_expr +:+ ", " +:+ dquote +:+ message +:+ dquote +:+ ");")
      | INT64 =>
          Some ("static_assert(AlwaysTrueFromInt64<" +:+ bound_var +:+ ">::value && "
                +:+ cpp_meta_expr +:+ ", " +:+ dquote +:+ message +:+ dquote +:+ ");")
      | TYPE =>
          Some ("static_assert(AlwaysTrueFromType<" +:+ bound_var +:+ ">::value && "
                +:+ cpp_meta_expr +:+ ", " +:+ dquote +:+ message +:+ dquote +:+ ");")
      | _ => static_assert_guard rest cpp_meta_expr message
      end
  end.

Definition static_assert_to_cpp (depth : nat) (assert_stmt : StaticAssert)
    (enclosing_function_defn_args : list TemplateArgDecl) (writer : Writer)
  : Result PyError Writer :=
  let bound_variables : gset string :=
    list_to_set (map arg_name enclosing_function_defn_args) in
  '(cpp_meta_expr, writer) ←
    expr_to_cpp depth (sa_expr assert_stmt) enclosing_function_defn_args writer;
  let message := sa_message assert_stmt in
  if bool_decide (enclosing_function_defn_args = [])
     || references_any_of (sa_expr assert_stmt) bound_variables
  then
    Ok (write_template_body_elem writer
          ("static_assert(" +:+ cpp_meta_expr +:+ ", " +:+ dquote +:+ message +:+ dquote +:+ ");"))
  else
    match static_assert_guard enclosing_function_defn_args cpp_meta_expr message with
    | Some text => Ok (write_template_body_elem writer text)
    | None =>
        '(always_true_id, writer) ← new_id writer;
        param0 ← match enclosing_function_defn_args with
                 | a :: _ => Ok a
                 | [] => Raise IndexError
                 end;
        let template_param_decl := _type_to_template_param_declaration (arg_type param0) in
        let template_param := arg_name param0 in
        Ok (write_template_body_elem writer
              (spaces 12 +:+ "// Custom AlwaysTrueFor* template" +:+ nl
               +:+ spaces 12 +:+ "template <" +:+ template_param_decl +:+ ">" +:+ nl
               +:+ spaces 12 +:+ "struct " +:+ always_true_id +:+ " {" +:+ nl
               +:+ spaces 14 +:+ "static constexpr bool value = true;" +:+ nl
               +:+ spaces 12 +:+ "};" +:+ nl
               +:+ spaces 12 +:+ "static_assert(" +:+ always_true_id +:+ "<" +:+ template_param
               +:+ ">::value && " +:+ cpp_meta_expr +:+ ", " +:+ dquote +:+ message
               +:+ dquote +:+ ");" +:+ nl
               +:+ spaces 12))
    end.

End ir0_to_cpp.

(** * The transformation framework: [_py2tmp/transform_ir0.py] *)
Module transform_ir0.
Import ir0.

Record ToplevelWriter : Type := mkToplevelWriter {
  identifier_generator : IdentifierGenerator;
  template_defns : list TemplateDefn;
  toplevel_elems : list TemplateBodyElement;
  allow_toplevel_elems : bool;
  allow_template_defns : bool
}.

(** [ToplevelWriter(identifier_generator)], with the default flags. *)
Definition ToplevelWriter_init (identifier_generator : IdentifierGenerator) : ToplevelWriter :=
  mkToplevelWriter identifier_generator [] [] true true.

Inductive Writer : Type :=
| W_Toplevel (w : ToplevelWriter)
| W_TemplateBody (toplevel_writer : ToplevelWriter) (elems : list TemplateBodyElement).

Definition toplevel_write (t : ToplevelWriter) (elem : TemplateBodyElement)
  : Result PyError ToplevelWriter :=
  match elem with
  | ElemTemplateDefn d =>
      _ ← assert_ (allow_template_defns t);
      Ok (mkToplevelWriter (identifier_generator t) (template_defns t ++ [d])
            (toplevel_elems t) (allow_toplevel_elems t) (allow_template_defns t))
  | _ =>
      _ ← assert_ (allow_toplevel_elems t);
      Ok (mkToplevelWriter (identifier_generator t) (template_defns t)
            (toplevel_elems t ++ [elem]) (allow_toplevel_elems t) (allow_template_defns t))
  end.

Definition write (w : Writer) (elem : TemplateBodyElement) : Result PyError Writer :=
  match w with
  | W_Toplevel t => t' ← toplevel_write t elem; Ok (W_Toplevel t')
  | W_TemplateBody t elems => Ok (W_TemplateBody t (elems ++ [elem]))
  end.

(** [ToplevelWriter] inherits the empty [write_toplevel_elem] of [Writer]. *)
Definition write_toplevel_elem (w : Writer) (elem : TemplateBodyElement)
  : Result PyError Writer :=
  match w with
  | W_Toplevel t => Ok (W_Toplevel t)
  | W_TemplateBody t elems => t' ← toplevel_write t elem; Ok (W_TemplateBody t' elems)
  end.

Definition toplevel_new_id (t : ToplevelWriter) : Result PyError (string * ToplevelWriter) :=
  '(s, g) ← next (identifier_generator t);
  Ok (s, mkToplevelWriter g (template_defns t) (toplevel_elems t)
           (allow_toplevel_elems t) (allow_template_defns t)).

Definition new_id (w : Writer) : Result PyError (string * Writer) :=
  match w with
  | W_Toplevel t => '(s, t') ← toplevel_new_id t; Ok (s, W_Toplevel t')
  | W_TemplateBody t elems => '(s, t') ← toplevel_new_id t; Ok (s, W_TemplateBody t' elems)
  end.

Definition get_toplevel_writer (w : Writer) : ToplevelWriter :=
  match w with
  | W_Toplevel t => t
  | W_TemplateBody t _ => t
  end.

(** The toplevel writer is shared: [w] after it was used through another
    reference. *)
Definition set_toplevel_writer (w : Writer) (t : ToplevelWriter) : Writer :=
  match w with
  | W_Toplevel _ => W_Toplevel t
  | W_TemplateBody _ elems => W_TemplateBody t elems
  end.

Definition new_constant_or_typedef (w : Writer) (expr : Expr)
  : Result PyError (Expr * Writer) :=
  '(id, w) ← new_id w;
  w ← match kind (type_of expr) with
      | BOOL | INT64 => c ← ConstantDef_init id expr; write w (ElemConstantDef c)
      | TYPE | TEMPLATE => t ← Typedef_init id expr; write w (ElemTypedef t)
      | VARIADIC_TYPE => Raise (NotImplementedError "Unexpected kind")
      end;
  Ok (for_local id (type_of expr), w).

(** ** The methods of [Transformation], as the base class defines them *)

Definition transform_template_arg_decl (arg_decl : TemplateArgDecl) : TemplateArgDecl :=
  arg_decl.

Definition transform_literal (literal : Expr) (writer : Writer) : Result PyError Expr :=
  Ok literal.

Definition _transform_type_literal_default_impl (cpp_type : string) (is_local : bool)
    (is_metafunction_that_may_return_error : bool) (type : ExprType) (writer : Writer)
  : Result PyError Expr :=
  AtomicTypeLiteral_init cpp_type is_local is_metafunction_that_may_return_error type.

Fixpoint transform_expr (expr : Expr) (writer : Writer) {struct expr} : Result PyError Expr :=
  match expr with
  | Literal _ => transform_literal expr writer
  | AtomicTypeLiteral cpp_type is_local may_error type =>
      _transform_type_literal_default_impl cpp_type is_local may_error type writer
  | ClassMemberAccess e member_name member_type =>
      e' ← transform_expr e writer;
      Ok (ClassMemberAccess e' member_name member_type)
  | NotExpr e => e' ← transform_expr e writer; Ok (NotExpr e')
  | UnaryMinusExpr e => e' ← transform_expr e writer; Ok (UnaryMinusExpr e')
  | ComparisonExpr lhs rhs op =>
      lhs' ← transform_expr lhs writer;
      rhs' ← transform_expr rhs writer;
      ComparisonExpr_init lhs' rhs' op
  | Int64BinaryOpExpr lhs rhs op =>
      lhs' ← transform_expr lhs writer;
      rhs' ← transform_expr rhs writer;
      Int64BinaryOpExpr_init lhs' rhs' op
  | TemplateInstantiation template_expr args flag =>
      template_expr' ← transform_expr template_expr writer;
      args' ← mapM (fun arg => transform_expr arg writer) args;
      TemplateInstantiation_init template_expr' args' flag
  | PointerTypeExpr e =>
      e' ← transform_expr e writer; unary_type_expr_init PointerTypeExpr e'
  | ReferenceTypeExpr e =>
      e' ← transform_expr e writer; unary_type_expr_init ReferenceTypeExpr e'
  | RvalueReferenceTypeExpr e =>
      e' ← transform_expr e writer; unary_type_expr_init RvalueReferenceTypeExpr e'
  | ConstTypeExpr e =>
      e' ← transform_expr e writer; unary_type_expr_init ConstTypeExpr e'
  | ArrayTypeExpr e =>
      e' ← transform_expr e writer; unary_type_expr_init ArrayTypeExpr e'
  | FunctionTypeExpr return_type_expr arg_exprs =>
      return_type_expr' ← transform_expr return_type_expr writer;
      arg_exprs' ← mapM (fun arg_expr => transform_expr arg_expr writer) arg_exprs;
      FunctionTypeExpr_init return_type_expr' arg_exprs'
  | VariadicTypeExpansion e =>
      e' ← transform_expr e writer; Ok (VariadicTypeExpansion e')
  end.

Definition transform_pattern (expr : Expr) (writer : Writer) : Result PyError Expr :=
  transform_expr expr writer.

Definition transform_static_assert (static_assert : StaticAssert) (writer : Writer)
  : Result PyError Writer :=
  expr ← transform_expr (sa_expr static_assert) writer;
  elem ← StaticAssert_init expr (sa_message static_assert);
  write writer (ElemStaticAssert elem).

Definition transform_constant_def (constant_def : ConstantDef) (writer : Writer)
  : Result PyError Writer :=
  expr ← transform_expr (cd_expr constant_def) writer;
  elem ← ConstantDef_init (cd_name constant_def) expr;
  write writer (ElemConstantDef elem).

Definition transform_typedef (typedef : Typedef) (writer : Writer)
  : Result PyError Writer :=
  expr ← transform_expr (td_expr typedef) writer;
  elem ← Typedef_init (td_name typedef) expr;
  write writer (ElemTypedef elem).

(** A [for] loop calling [f] on each element with the same writer. *)
Fixpoint for_each {A : Type} (f : A -> Writer -> Result PyError Writer)
    (xs : list A) (writer : Writer) : Result PyError Writer :=
  match xs with
  | [] => Ok writer
  | x :: xs' => writer ← f x writer; for_each f xs' writer
  end.

(** [transform_template_defn], [transform_template_specialization] (with
    [transform_template_body_elems] inside it) and
    [transform_template_body_elem] call each other along the nesting of
    template definitions. *)
Fixpoint transform_template_defn (template_defn : TemplateDefn) (writer : Writer)
    {struct template_defn} : Result PyError Writer :=
  match template_defn with
  | mkTemplateDefn args main_definition specializations name description
      result_element_names =>
      let args' := map transform_template_arg_decl args in
      '(main_definition', writer) ←
        match main_definition with
        | Some m =>
            '(m', writer) ← transform_template_specialization m writer;
            Ok (Some m', writer)
        | None => Ok (None, writer)
        end;
      '(specializations', writer) ←
        mapM_st transform_template_specialization specializations writer;
      defn ← TemplateDefn_init args' main_definition' specializations' name description
               result_element_names;
      write writer (ElemTemplateDefn defn)
  end
with transform_template_specialization (specialization : TemplateSpecialization)
    (writer : Writer) {struct specialization}
  : Result PyError (TemplateSpecialization * Writer) :=
  match specialization with
  | mkTemplateSpecialization args patterns body =>
      let toplevel_writer := get_toplevel_writer writer in
      patterns' ←
        match patterns with
        | Some ps => ps' ← mapM (fun pattern => transform_pattern pattern writer) ps;
                     Ok (Some ps')
        | None => Ok None
        end;
      let args' := map transform_template_arg_decl args in
      (* transform_template_body_elems(specialization.body, toplevel_writer) *)
      let body_writer := W_TemplateBody toplevel_writer [] in
      body_writer ← for_each transform_template_body_elem body body_writer;
      let body' := match body_writer with
                   | W_TemplateBody _ elems => elems
                   | W_Toplevel _ => []
                   end in
      Ok (mkTemplateSpecialization args' patterns' body',
          set_toplevel_writer writer (get_toplevel_writer body_writer))
  end
with transform_template_body_elem (elem : TemplateBodyElement) (writer : Writer)
    {struct elem} : Result PyError Writer :=
  match elem with
  | ElemTemplateDefn d => transform_template_defn d writer
  | ElemStaticAssert a => transform_static_assert a writer
  | ElemConstantDef c => transform_constant_def c writer
  | ElemTypedef t => transform_typedef t writer
  end.

Definition transform_toplevel_elem (elem : TemplateBodyElement) (writer : Writer)
  : Result PyError Writer :=
  match elem with
  | ElemStaticAssert a => transform_static_assert a writer
  | ElemConstantDef c => transform_constant_def c writer
  | ElemTypedef t => transform_typedef t writer
  | ElemTemplateDefn _ => Raise (NotImplementedError "Unexpected elem: TemplateDefn")
  end.

(** ** [Transformation] and its subclasses

    [transform_header] reaches the rest of a transformation through
    [self.transform_template_defn] and [self.transform_toplevel_elem].  A
    subclass may override any method, so these two are arbitrary functions of
    the element and the writer; [Self] is whatever state the subclass keeps in
    its instance. *)
Record Transformation (Self : Type) : Type := mkTransformation {
  self_transform_template_defn :
    Self -> TemplateDefn -> Writer -> Result PyError (Self * Writer);
  self_transform_toplevel_elem :
    Self -> TemplateBodyElement -> Writer -> Result PyError (Self * Writer)
}.
Arguments self_transform_template_defn {Self}.
Arguments self_transform_toplevel_elem {Self}.
Arguments mkTransformation {Self}.

(** The base class, with no method overridden and no state. *)
Definition base_Transformation : Transformation unit :=
  mkTransformation
    (fun self d w => w' ← transform_template_defn d w; Ok (self, w'))
    (fun self e w => w' ← transform_toplevel_elem e w; Ok (self, w')).

(** A [for] loop over [xs] calling a method of [self]. *)
Fixpoint for_each_self {Self A : Type}
    (f : Self -> A -> Writer -> Result PyError (Self * Writer))
    (xs : list A) (self : Self) (writer : Writer) : Result PyError (Self * Writer) :=
  match xs with
  | [] => Ok (self, writer)
  | x :: xs' => '(self, writer) ← f self x writer; for_each_self f xs' self writer
  end.

Definition transform_header {Self : Type} (T : Transformation Self) (self : Self)
    (header : Header) (identifier_generator : IdentifierGenerator)
  : Result PyError (Header * Self) :=
  let writer := W_Toplevel (ToplevelWriter_init identifier_generator) in
  '(self, writer) ←
    for_each_self (self_transform_template_defn T) (ir0.template_defns header) self writer;
  '(self, writer) ←
    for_each_self (self_transform_toplevel_elem T) (toplevel_content header) self writer;
  let w := get_toplevel_writer writer in
  Ok (mkHeader (template_defns w) (toplevel_elems w) (public_names header), self).

End transform_ir0.

(** * IR-high: what [ast_to_ir3.py] uses of [_py2tmp/ir3.py] *)
Module ir3.

(** Modelled from the spec: the module [ir3] is not among the sources.  The
    IR-high types are the sum type of the specification (section 3.1), under
    the class names [ast_to_ir3.py] uses: [Bool], [Int], [TypeRef], [Bottom],
    [List], [Set], [Function(args, ret)] and
    [Custom(name, fields, is_exception, message)]; equality is structural. *)
Inductive ExprType : Type :=
| BoolType
| IntType
| TypeType
| BottomType
| ListType (elem_type : ExprType)
| SetType (elem_type : ExprType)
| FunctionType (argtypes : list ExprType) (returns : ExprType)
| CustomType (name : string) (arg_types : list CustomTypeArgDecl)
    (is_exception_class : bool) (exception_message : option string)
with CustomTypeArgDecl : Type :=
| mkCustomTypeArgDecl (name : string) (type : ExprType).

Definition decl_name (d : CustomTypeArgDecl) : string :=
  match d with mkCustomTypeArgDecl name _ => name end.

Definition decl_type (d : CustomTypeArgDecl) : ExprType :=
  match d with mkCustomTypeArgDecl _ type => type end.

(** [isinstance(type, ir3.FunctionType)] *)
Definition is_FunctionType (t : ExprType) : bool :=
  match t with FunctionType _ _ => true | _ => false end.

Definition option_string_eqb (a b : option string) : bool :=
  match a, b with
  | Some x, Some y => String.eqb x y
  | None, None => true
  | _, _ => false
  end.

(** [t1 == t2] *)
Fixpoint ExprType_eqb (a b : ExprType) {struct a} : bool :=
  match a, b with
  | BoolType, BoolType | IntType, IntType | TypeType, TypeType
  | BottomType, BottomType => true
  | ListType x, ListType y => ExprType_eqb x y
  | SetType x, SetType y => ExprType_eqb x y
  | FunctionType xs x, FunctionType ys y =>
      (fix go (xs ys : list ExprType) {struct xs} : bool :=
         match xs, ys with
         | [], [] => true
         | x :: xs', y :: ys' => ExprType_eqb x y && go xs' ys'
         | _, _ => false
         end) xs ys
      && ExprType_eqb x y
  | CustomType n1 ds1 e1 m1, CustomType n2 ds2 e2 m2 =>
      String.eqb n1 n2
      && (fix go (xs ys : list CustomTypeArgDecl) {struct xs} : bool :=
            match xs, ys with
            | [], [] => true
            | mkCustomTypeArgDecl nx tx :: xs', mkCustomTypeArgDecl ny ty :: ys' =>
                String.eqb nx ny && ExprType_eqb tx ty && go xs' ys'
            | _, _ => false
            end) ds1 ds2
      && Bool.eqb e1 e2
      && option_string_eqb m1 m2
  | _, _ => false
  end.

(** [ir3.ReturnTypeInfo] *)
Record ReturnTypeInfo : Type := mkReturnTypeInfo {
  return_type : option ExprType;
  always_returns : bool
}.

(** The expression and statement nodes of [ir3.py], which is not among the
    sources: the elaborator only builds them, reads the type of an expression
    and the free variables of a pattern, and asks a statement whether it always
    returns.  They are an interface here, and every result below holds for
    every implementation of it. *)
Class Nodes : Type := {
  Expr : Type;
  Stmt : Type;
  MatchCase : Type;
  (** [expr.type] *)
  type_of : Expr -> ExprType;
  (** the names of the variables [expr.get_free_variables()] yields, in order *)
  get_free_variables : Expr -> list string;
  (** [stmt.get_return_type()] *)
  get_return_type : Stmt -> ReturnTypeInfo;
  (** [str(type)] *)
  str_type : ExprType -> string;
  IntLiteral : Z -> Expr;
  EqualityComparison : Expr -> Expr -> Expr;
  NotExpr : Expr -> Expr;
  ListExpr : ExprType -> list Expr -> Expr;
  (** [ir3.MatchCase(matched_var_names, type_patterns, expr)] *)
  MatchCase_init : gset string -> list Expr -> Expr -> MatchCase;
  is_main_definition : MatchCase -> bool;
  MatchExpr : list Expr -> list MatchCase -> Expr;
  Assert : Expr -> string -> Stmt
}.

End ir3.

(** * The input syntax trees: what [ast_to_ir3.py] reads of [typed_ast.ast3] *)
Module ast.

Inductive expr_context : Type := Load | Store.

(** [ast.Num.n]: a Python [int], [float] or [complex].  No arithmetic is done
    on floats, which are kept as their IEEE-754 bits. *)
Inductive number : Type :=
| PyInt (n : Z)
| PyFloat (bits : Z)
| PyComplex (real_bits imag_bits : Z).

Inductive AST : Type :=
| Name (id : string) (ctx : expr_context)
| Num (n : number)
| Str (s : string)
| List (elts : list AST) (ctx : expr_context)
| Tuple (elts : list AST) (ctx : expr_context)
| Dict (keys : list AST) (values : list AST)
| Lambda (args : arguments) (body : AST)
| Call (func : AST) (args : list AST) (keywords : list keyword)
| Assert (test : AST) (msg : option AST) (lineno : Z)
| arg (arg_name : string)
| Other (label : string)
with arguments : Type :=
| mk_arguments (args : list AST) (vararg : option AST) (kwonlyargs : list AST)
    (kw_defaults : list AST) (defaults : list AST)
with keyword : Type :=
| mk_keyword (keyword_arg : string) (value : AST).

Definition keyword_value (k : keyword) : AST :=
  match k with mk_keyword _ v => v end.

(** [node.arg] of an [ast.arg] and [node.id] of an [ast.Name]. *)
Definition arg_of (node : AST) : string :=
  match node with arg a => a | _ => EmptyString end.

Definition id_of (node : AST) : string :=
  match node with Name id _ => id | _ => EmptyString end.

End ast.

(** * The front-end elaborator: [_py2tmp/ast_to_ir3.py] *)
Module ast_to_ir3.
Import ast.

(** ** Errors

    [CompilationError(compilation_context, ast_node, error_message, notes)]:
    the node, the message and the notes it was raised with (the context only
    serves to render them with the source line).  Any other exception is an
    internal error. *)
Inductive Error : Type :=
| CompilationError (ast_node : AST) (error_message : string) (notes : list (AST * string))
| InternalError (e : PyError).

Definition is_CompilationError {A : Type} (r : Result Error A) : bool :=
  match r with
  | Raise (CompilationError _ _ _) => true
  | _ => false
  end.

Definition assert_ (b : bool) : Result Error unit :=
  if b then Ok tt else Raise (InternalError AssertionError).

(** ** Symbols and symbol tables *)

Record Symbol : Type := mkSymbol {
  Symbol_type : ir3.ExprType;
  Symbol_name : string;
  is_function_that_may_throw : bool
}.

Definition Symbol_init (name : string) (type : ir3.ExprType)
    (is_function_that_may_throw : bool) : Result Error Symbol :=
  _ ← (if is_function_that_may_throw then assert_ (ir3.is_FunctionType type) else Ok tt);
  Ok (mkSymbol type name is_function_that_may_throw).

(** A scope and, through [parent], the scopes around it. *)
Inductive SymbolTable : Type :=
| mkSymbolTable (symbols_by_name : gmap string (Symbol * AST * bool))
    (parent : option SymbolTable).

Definition symbols_by_name (t : SymbolTable) : gmap string (Symbol * AST * bool) :=
  match t with mkSymbolTable m _ => m end.

Definition parent (t : SymbolTable) : option SymbolTable :=
  match t with mkSymbolTable _ p => p end.

Record SymbolLookupResult : Type := mkSymbolLookupResult {
  lookup_symbol : Symbol;
  lookup_ast_node : AST;
  is_only_partially_defined : bool;
  lookup_symbol_table : SymbolTable
}.

Fixpoint SymbolTable_get_symbol_definition (t : SymbolTable) (name : string)
  : option SymbolLookupResult :=
  match t with
  | mkSymbolTable m p =>
      match m !! name with
      | Some (symbol, ast_node, partially) =>
          Some (mkSymbolLookupResult symbol ast_node partially t)
      | None =>
          match p with
          | Some t' => SymbolTable_get_symbol_definition t' name
          | None => None
          end
      end
  end.

Definition SymbolTable_add_symbol (t : SymbolTable) (name : string)
    (type : ir3.ExprType) (definition_ast_node : AST)
    (is_only_partially_defined : bool) (is_function_that_may_throw : bool)
  : Result Error SymbolTable :=
  _ ← (if is_function_that_may_throw then assert_ (ir3.is_FunctionType type) else Ok tt);
  symbol ← Symbol_init name type is_function_that_may_throw;
  Ok (mkSymbolTable
        (<[name := (symbol, definition_ast_node, is_only_partially_defined)]>
           (symbols_by_name t))
        (parent t)).

(** ** Compilation contexts *)

Record CompilationContext : Type := mkCompilationContext {
  symbol_table : SymbolTable;
  custom_types_symbol_table : SymbolTable;
  partially_typechecked_function_definitions_by_name : gmap string AST;
  filename : string;
  source_lines : list string;
  current_function_name : option string
}.

(** [function_name or self.current_function_name]: [None] and the empty
    string are both false. *)
Definition or_function_name (function_name current : option string) : option string :=
  match function_name with
  | Some EmptyString | None => current
  | Some _ => function_name
  end.

Definition create_child_context (self : CompilationContext) (function_name : option string)
  : CompilationContext :=
  mkCompilationContext
    (mkSymbolTable ∅ (Some (symbol_table self)))
    (custom_types_symbol_table self)
    (partially_typechecked_function_definitions_by_name self)
    (filename self)
    (source_lines self)
    (or_function_name function_name (current_function_name self)).

Definition get_symbol_definition (self : CompilationContext) (name : string)
  : option SymbolLookupResult :=
  SymbolTable_get_symbol_definition (symbol_table self) name.

Definition get_type_symbol_definition (self : CompilationContext) (name : string)
  : option SymbolLookupResult :=
  SymbolTable_get_symbol_definition (custom_types_symbol_table self) name.

Definition _check_not_already_defined (self : CompilationContext) (name : string)
    (definition_ast_node : AST) : Result Error unit :=
  let symbol_lookup_result :=
    match SymbolTable_get_symbol_definition (symbol_table self) name with
    | Some r => Some r
    | None => SymbolTable_get_symbol_definition (custom_types_symbol_table self) name
    end in
  let '(is_only_partially_defined, previous_definition_ast_node) :=
    match symbol_lookup_result with
    | Some r => (is_only_partially_defined r, Some (lookup_ast_node r))
    | None =>
        match partially_typechecked_function_definitions_by_name self !! name with
        | Some node => (false, Some node)
        | None => (false, None)
        end
    end in
  match previous_definition_ast_node with
  | Some previous =>
      if is_only_partially_defined then
        Raise (CompilationError definition_ast_node
                 (name +:+ " could be already initialized at this point.")
                 [(previous, "It might have been initialized here (depending on which branch is taken).")])
      else
        Raise (CompilationError definition_ast_node
                 (name +:+ " was already defined in this scope.")
                 [(previous, "The previous declaration was here.")])
  | None => Ok tt
  end.

Definition add_symbol (self : CompilationContext) (name : string)
    (type : ir3.ExprType) (definition_ast_node : AST)
    (is_only_partially_defined : bool) (is_function_that_may_throw : bool)
  : Result Error CompilationContext :=
  _ ← (if is_function_that_may_throw then assert_ (ir3.is_FunctionType type) else Ok tt);
  _ ← _check_not_already_defined self name definition_ast_node;
  t ← SymbolTable_add_symbol (symbol_table self) name type definition_ast_node
        is_only_partially_defined is_function_that_may_throw;
  Ok (mkCompilationContext t
        (custom_types_symbol_table self)
        (partially_typechecked_function_definitions_by_name self)
        (filename self) (source_lines self) (current_function_name self)).

(** ** Python helpers *)

(** [xs[i]] for a Python list: a negative index counts from the end. *)
Definition py_index {A : Type} (xs : list A) (i : Z) : Result Error A :=
  let n := Z.of_nat (length xs) in
  let j := if Z.ltb i 0 then i + n else i in
  if Z.ltb j 0 || Z.leb n j then Raise (InternalError IndexError)
  else match xs !! Z.to_nat j with
       | Some x => Ok x
       | None => Raise (InternalError IndexError)
       end.

(** [s.replace(old, new)] when [old] is a single character. *)
Fixpoint replace_char (old : ascii) (new : string) (s : string) : string :=
  match s with
  | EmptyString => EmptyString
  | String c s' =>
      if Ascii.eqb c old then new +:+ replace_char old new s'
      else String c (replace_char old new s')
  end.

(** [max(xs, key=key)]: the first element, in iteration order, whose key is
    the largest. *)
Definition max_by_key (key : string -> nat) (xs : list string) : option string :=
  fold_left (fun best x =>
               match best with
               | None => Some x
               | Some b => if Nat.ltb (key b) (key x) then Some x else Some b
               end) xs None.

(** A [for] loop with an accumulator that stops at the first exception. *)
Fixpoint foldM {E A S : Type} (f : S -> A -> Result E S) (xs : list A) (s : S)
  : Result E S :=
  match xs with
  | [] => Ok s
  | x :: xs' => s' ← f s x; foldM f xs' s'
  end.

(** [zip(xs, ys)] *)
Fixpoint zip {A B : Type} (xs : list A) (ys : list B) : list (A * B) :=
  match xs, ys with
  | x :: xs', y :: ys' => (x, y) :: zip xs' ys'
  | _, _ => []
  end.

Section Elaborator.

Context {N : ir3.Nodes}.

(** The order in which Python iterates over a set of strings; it depends on
    the hashes of the strings. *)
Variable set_iteration_order : gset string -> list string.

(** A [check_var_reference] callback. *)
Definition VarReferenceCheck : Type := AST -> Result Error unit.

(** [expression_ast_to_ir3], the dispatcher that the functions below call on
    their sub-expressions (and that calls them back). *)
Variable expression_ast_to_ir3 :
  AST -> CompilationContext -> bool -> VarReferenceCheck -> Result Error ir3.Expr.

(** ** Branch merge *)

(** [branch_stmts[-1].get_return_type()] *)
Definition last_return_info (stmts : list ir3.Stmt) : Result Error ir3.ReturnTypeInfo :=
  match last stmts with
  | Some s => Ok (ir3.get_return_type s)
  | None => Raise (InternalError IndexError)
  end.

(** What the loop of [_join_definitions_in_branches] reads of one branch for
    [symbol_name]: [None] stands for the three [None]s of the source. *)
Definition branch_symbol (branch_return_info : ir3.ReturnTypeInfo)
    (branch_context : CompilationContext) (symbol_name : string)
  : option (Symbol * AST * bool) :=
  if ir3.always_returns branch_return_info
     || negb (bool_decide (symbol_name ∈ dom (symbols_by_name (symbol_table branch_context))))
  then None
  else symbols_by_name (symbol_table branch_context) !! symbol_name.

(** The body of the loop over [symbol_names]. *)
Definition join_symbol
    (branch1_return_info : ir3.ReturnTypeInfo) (branch1_context : CompilationContext)
    (branch2_return_info : ir3.ReturnTypeInfo) (branch2_context : CompilationContext)
    (parent_context : CompilationContext) (symbol_name : string)
  : Result Error CompilationContext :=
  '(symbol, definition_ast_node, is_only_partially_defined) ←
    match branch_symbol branch1_return_info branch1_context symbol_name,
          branch_symbol branch2_return_info branch2_context symbol_name with
    | Some (branch1_symbol, branch1_definition_ast_node, branch1_partially),
      Some (branch2_symbol, branch2_definition_ast_node, branch2_partially) =>
        if negb (ir3.ExprType_eqb (Symbol_type branch1_symbol) (Symbol_type branch2_symbol))
        then
          Raise (CompilationError branch2_definition_ast_node
                   ("The variable " +:+ symbol_name +:+ " is defined with type "
                    +:+ ir3.str_type (Symbol_type branch2_symbol)
                    +:+ " here, but it was previously defined with type "
                    +:+ ir3.str_type (Symbol_type branch1_symbol)
                    +:+ " in another branch.")
                   [(branch1_definition_ast_node,
                     "A previous definition with type "
                     +:+ ir3.str_type (Symbol_type branch1_symbol) +:+ " was here.")])
        else
          Ok (branch1_symbol, branch1_definition_ast_node,
              branch1_partially || branch2_partially)
    | Some (branch1_symbol, branch1_definition_ast_node, branch1_partially), None =>
        Ok (branch1_symbol, branch1_definition_ast_node,
            if ir3.always_returns branch2_return_info then branch1_partially else true)
    | None, Some (branch2_symbol, branch2_definition_ast_node, branch2_partially) =>
        Ok (branch2_symbol, branch2_definition_ast_node,
            if ir3.always_returns branch1_return_info then branch2_partially else true)
    | None, None => Raise (InternalError AssertionError)
    end;
  add_symbol parent_context (Symbol_name symbol) (Symbol_type symbol)
    definition_ast_node is_only_partially_defined
    (ir3.is_FunctionType (Symbol_type symbol)).

Definition _join_definitions_in_branches
    (parent_context : CompilationContext)
    (branch1_context : CompilationContext) (branch1_stmts : list ir3.Stmt)
    (branch2_context : CompilationContext) (branch2_stmts : list ir3.Stmt)
  : Result Error CompilationContext :=
  branch1_return_info ← last_return_info branch1_stmts;
  branch2_return_info ←
    match branch2_stmts with
    | [] => Ok (ir3.mkReturnTypeInfo None false)
    | _ => last_return_info branch2_stmts
    end;
  let symbol_names : gset string := ∅ in
  let symbol_names :=
    if negb (ir3.always_returns branch1_return_info)
    then symbol_names ∪ dom (symbols_by_name (symbol_table branch1_context))
    else symbol_names in
  let symbol_names :=
    if negb (ir3.always_returns branch2_return_info)
    then symbol_names ∪ dom (symbols_by_name (symbol_table branch2_context))
    else symbol_names in
  foldM (join_symbol branch1_return_info branch1_context
                     branch2_return_info branch2_context)
        (set_iteration_order symbol_names) parent_context.

(** ** Match expressions *)

(** The state of the loop over the branches of a [match]. *)
Record MatchLoopState : Type := mkMatchLoopState {
  unused_lambda_arg_names : gset string;
  main_definition : option ir3.MatchCase;
  main_definition_key_expr_ast : option AST;
  last_result_expr_type : option ir3.ExprType;
  last_result_expr_ast_node : option AST;
  match_cases : list ir3.MatchCase
}.

(** [{var.name for pattern_expr in pattern_exprs
              for var in pattern_expr.get_free_variables()
              if var.name in lambda_arg_names}] *)
Definition lambda_args_used_in (lambda_arg_names : gset string)
    (pattern_exprs : list ir3.Expr) : gset string :=
  list_to_set
    (filter (fun name => name ∈ lambda_arg_names)
            (concat (map ir3.get_free_variables pattern_exprs))).

(** [check_var_reference_in_result_expr], defined inside the loop. *)
Definition check_var_reference_in_result_expr
    (check_var_reference : VarReferenceCheck)
    (lambda_arg_names lambda_args_used_in_pattern : gset string)
  : VarReferenceCheck :=
  fun ast_node =>
    _ ← check_var_reference ast_node;
    if bool_decide (id_of ast_node ∈ lambda_arg_names)
       && negb (bool_decide (id_of ast_node ∈ lambda_args_used_in_pattern))
    then
      Raise (CompilationError ast_node
               (id_of ast_node
                +:+ " was used in the result of this match branch but not in any of its patterns")
               [])
    else Ok tt.

(** One iteration of [for key_expr_ast, value_expr_ast in zip(keys, values)]. *)
Definition match_branch
    (func : AST) (matched_exprs : list ir3.Expr) (lambda_arg_names : gset string)
    (lambda_body_compilation_context : CompilationContext)
    (in_match_pattern : bool) (check_var_reference : VarReferenceCheck)
    (st : MatchLoopState) (branch : AST * AST) : Result Error MatchLoopState :=
  let '(key_expr_ast, value_expr_ast) := branch in
  let pattern_ast_nodes :=
    match key_expr_ast with
    | Tuple elts _ => elts
    | _ => [key_expr_ast]
    end in
  _ ← (if negb (Nat.eqb (length pattern_ast_nodes) (length matched_exprs)) then
         Raise (CompilationError key_expr_ast
                  (str_int (Z.of_nat (length pattern_ast_nodes))
                   +:+ " type patterns were provided, while "
                   +:+ str_int (Z.of_nat (length matched_exprs)) +:+ " were expected")
                  [(func, "The corresponding match() was here")])
       else Ok tt);
  pattern_exprs ←
    mapM (fun pattern_ast_node =>
            pattern_expr ← expression_ast_to_ir3 pattern_ast_node
                             lambda_body_compilation_context true check_var_reference;
            if negb (ir3.ExprType_eqb (ir3.type_of pattern_expr) ir3.TypeType) then
              Raise (CompilationError pattern_ast_node
                       ("Type patterns must have type Type but this pattern has type "
                        +:+ ir3.str_type (ir3.type_of pattern_expr))
                       [(func, "The corresponding match() was here")])
            else Ok pattern_expr)
         pattern_ast_nodes;
  let lambda_args_used_in_pattern := lambda_args_used_in lambda_arg_names pattern_exprs in
  let unused := unused_lambda_arg_names st ∖ lambda_args_used_in_pattern in
  result_expr ←
    expression_ast_to_ir3 value_expr_ast lambda_body_compilation_context in_match_pattern
      (check_var_reference_in_result_expr check_var_reference lambda_arg_names
         lambda_args_used_in_pattern);
  _ ← match last_result_expr_type st, last_result_expr_ast_node st with
      | Some previous_type, Some previous_node =>
          if negb (ir3.ExprType_eqb (ir3.type_of result_expr) previous_type) then
            Raise (CompilationError value_expr_ast
                     ("All branches in a match() must return the same type, but this branch returns a "
                      +:+ ir3.str_type (ir3.type_of result_expr)
                      +:+ " while a previous branch in this match expression returns a "
                      +:+ ir3.str_type previous_type)
                     [(previous_node,
                       "A previous branch returning a " +:+ ir3.str_type previous_type
                       +:+ " was here.")])
          else Ok tt
      | _, _ => Ok tt
      end;
  let match_case :=
    ir3.MatchCase_init lambda_args_used_in_pattern pattern_exprs result_expr in
  let cases := (match_cases st ++ [match_case])%list in
  if ir3.is_main_definition match_case then
    match main_definition st, main_definition_key_expr_ast st with
    | Some _, Some previous_key =>
        Raise (CompilationError key_expr_ast
                 "Found multiple specializations that specialize nothing"
                 [(previous_key, "A previous specialization that specializes nothing was here")])
    | Some _, None => Raise (InternalError AssertionError)
    | None, _ =>
        Ok (mkMatchLoopState unused (Some match_case) (Some key_expr_ast)
              (Some (ir3.type_of result_expr)) (Some value_expr_ast) cases)
    end
  else
    Ok (mkMatchLoopState unused (main_definition st) (main_definition_key_expr_ast st)
          (Some (ir3.type_of result_expr)) (Some value_expr_ast) cases).

(** [{arg.arg: i for i, arg in enumerate(lambda_args.args)}] *)
Fixpoint index_by_name (i : nat) (args : list AST) (m : gmap string nat) : gmap string nat :=
  match args with
  | [] => m
  | a :: rest => index_by_name (S i) rest (<[arg_of a := i]> m)
  end.

(** [{arg.arg: arg for arg in lambda_args.args}] *)
Definition ast_node_by_name (args : list AST) : gmap string AST :=
  fold_left (fun m a => <[arg_of a := a]> m) args ∅.

(** The final check of [match_expression_ast_to_ir3]. *)
Definition check_unused_lambda_args
    (lambda_args : list AST) (unused_lambda_arg_names : gset string)
  : Result Error unit :=
  let lambda_arg_ast_node_by_name := ast_node_by_name lambda_args in
  let lambda_arg_index_by_name := index_by_name 0 lambda_args ∅ in
  if negb (bool_decide (unused_lambda_arg_names = ∅)) then
    match max_by_key (fun arg_name => lambda_arg_index_by_name !!! arg_name)
                     (set_iteration_order unused_lambda_arg_names) with
    | Some unused_arg_name =>
        match lambda_arg_ast_node_by_name !! unused_arg_name with
        | Some unused_arg_ast_node =>
            Raise (CompilationError unused_arg_ast_node
                     ("The lambda argument " +:+ unused_arg_name
                      +:+ " was not used in any pattern, it should be removed.")
                     [])
        | None => Raise (InternalError KeyError)
        end
    | None => Raise (InternalError ValueError)
    end
  else Ok tt.

Definition match_expression_ast_to_ir3 (ast_node : AST)
    (compilation_context : CompilationContext) (in_match_pattern : bool)
    (check_var_reference : VarReferenceCheck) : Result Error ir3.Expr :=
  match ast_node with
  | Call (Call _ func_args func_keywords as func) args keywords =>
      _ ← match keywords with
          | k :: _ => Raise (CompilationError (keyword_value k)
                               "Keyword arguments are not allowed in match()" [])
          | [] => Ok tt
          end;
      _ ← match func_keywords with
          | k :: _ => Raise (CompilationError (keyword_value k)
                               "Keyword arguments are not allowed in match()" [])
          | [] => Ok tt
          end;
      _ ← match func_args with
          | [] => Raise (CompilationError func
                           "Found match() with no arguments; it must have at least 1 argument." [])
          | _ => Ok tt
          end;
      matched_exprs ←
        mapM (fun expr_ast =>
                expr ← expression_ast_to_ir3 expr_ast compilation_context in_match_pattern
                         check_var_reference;
                if negb (ir3.ExprType_eqb (ir3.type_of expr) ir3.TypeType) then
                  Raise (CompilationError expr_ast
                           ("All arguments passed to match must have type Type, but an argument with type "
                            +:+ ir3.str_type (ir3.type_of expr) +:+ " was specified.")
                           [])
                else Ok expr)
             func_args;
      match args with
      | [Lambda (mk_arguments lambda_args vararg kwonlyargs kw_defaults defaults) body] =>
          _ ← match vararg with
              | Some v => Raise (CompilationError v
                                   "Malformed match(): vararg lambda arguments are not supported" [])
              | None => Ok tt
              end;
          _ ← assert_ (bool_decide (kwonlyargs = []));
          _ ← assert_ (bool_decide (kw_defaults = []));
          _ ← assert_ (bool_decide (defaults = []));
          let lambda_arg_names : gset string := list_to_set (map arg_of lambda_args) in
          let unused : gset string := list_to_set (map arg_of lambda_args) in
          let lambda_body_compilation_context :=
            create_child_context compilation_context None in
          lambda_body_compilation_context ←
            foldM (fun ctx a => add_symbol ctx (arg_of a) ir3.TypeType a false false)
                  lambda_args lambda_body_compilation_context;
          match body with
          | Dict keys values =>
              _ ← match keys with
                  | [] => Raise (CompilationError body
                                   "An empty mapping dict was passed to match(), but at least 1 mapping is required." [])
                  | _ => Ok tt
                  end;
              _ ← assert_ (match current_function_name compilation_context with
                           | Some EmptyString | None => false
                           | Some _ => true
                           end);
              st ← foldM (match_branch func matched_exprs lambda_arg_names
                            lambda_body_compilation_context in_match_pattern
                            check_var_reference)
                         (zip keys values)
                         (mkMatchLoopState unused None None None None []);
              _ ← check_unused_lambda_args lambda_args (unused_lambda_arg_names st);
              Ok (ir3.MatchExpr matched_exprs (match_cases st))
          | _ => Raise (CompilationError ast_node "Malformed match()" [])
          end
      | _ => Raise (CompilationError ast_node "Malformed match()" [])
      end
  | _ => Raise (InternalError AssertionError)
  end.

(** ** Assertions *)

Definition assert_ast_to_ir3 (ast_node : AST) (compilation_context : CompilationContext)
  : Result Error ir3.Stmt :=
  match ast_node with
  | Assert test msg lineno =>
      expr ← expression_ast_to_ir3 test compilation_context false (fun _ => Ok tt);
      _ ← match ir3.type_of expr with
          | ir3.BoolType => Ok tt
          | t => Raise (CompilationError test
                          ("The value passed to assert must have type bool, but got a value with type "
                           +:+ ir3.str_type t +:+ ".")
                          [])
          end;
      message ← match msg with
                | Some (Str s) => Ok s
                | Some _ => Raise (InternalError AssertionError)
                | None => Ok EmptyString
                end;
      let first_line_number := lineno in
      line ← py_index (source_lines compilation_context) (first_line_number - 1);
      let message :=
        "TMPPy assertion failed: " +:+ message +:+ nl
        +:+ filename compilation_context +:+ ":" +:+ str_int first_line_number +:+ ": "
        +:+ line in
      (* The three chained [replace] calls, innermost first.  The second one
         replaces a double quote by the Python literal written backslash,
         double quote, which denotes the one-character string made of a double
         quote. *)
      let message :=
        replace_char "010"%char (backslash +:+ "n")
          (replace_char "034"%char dquote
             (replace_char "092"%char (backslash +:+ backslash) message)) in
      Ok (ir3.Assert expr message)
  | _ => Raise (InternalError AssertionError)
  end.

(** ** Number literals *)

Definition number_literal_expression_ast_to_ir3 (ast_node : AST)
    (compilation_context : CompilationContext) (in_match_pattern : bool)
    (check_var_reference : VarReferenceCheck) (positive : bool)
  : Result Error ir3.Expr :=
  match ast_node with
  | Num (PyFloat _) =>
      Raise (CompilationError ast_node "Floating-point values are not supported." [])
  | Num (PyComplex _ _) =>
      Raise (CompilationError ast_node "Complex values are not supported." [])
  | Num (PyInt n) =>
      let n := if negb positive then - n else n in
      if Z.leb n (- 2 ^ 63) then
        Raise (CompilationError ast_node
                 "int value out of bounds: values lower than -2^63+1 are not supported." [])
      else if Z.leb (2 ^ 63) n then
        Raise (CompilationError ast_node
                 "int value out of bounds: values greater than 2^63-1 are not supported." [])
      else Ok (ir3.IntLiteral n)
  | _ => Raise (InternalError AssertionError)
  end.

(** ** Equality *)

Fixpoint _is_structural_equality_check_supported_for_type (type : ir3.ExprType)
  : Result Error bool :=
  match type with
  | ir3.BoolType => Ok true
  | ir3.IntType => Ok true
  | ir3.TypeType => Ok true
  | ir3.FunctionType _ _ => Ok false
  | ir3.ListType elem_type => _is_structural_equality_check_supported_for_type elem_type
  | ir3.SetType _ => Ok false
  | ir3.CustomType _ arg_types _ _ =>
      (* all(... for arg_type in type.arg_types): stops at the first False *)
      (fix all_ (arg_types : list ir3.CustomTypeArgDecl) : Result Error bool :=
         match arg_types with
         | [] => Ok true
         | ir3.mkCustomTypeArgDecl _ arg_type :: rest =>
             match _is_structural_equality_check_supported_for_type arg_type with
             | Ok true => all_ rest
             | Ok false => Ok false
             | Raise e => Raise e
             end
         end) arg_types
  | ir3.BottomType => Raise (InternalError (NotImplementedError "Unexpected type: BottomType"))
  end.

Definition _is_equality_check_supported_for_type (type : ir3.ExprType)
  : Result Error bool :=
  match type with
  | ir3.SetType elem_type => _is_structural_equality_check_supported_for_type elem_type
  | _ => _is_structural_equality_check_supported_for_type type
  end.

Definition eq_ast_to_ir3 (lhs_node rhs_node : AST)
    (compilation_context : CompilationContext) (in_match_pattern : bool)
    (check_var_reference : VarReferenceCheck) : Result Error ir3.Expr :=
  _ ← assert_ (negb in_match_pattern);
  lhs ← expression_ast_to_ir3 lhs_node compilation_context in_match_pattern check_var_reference;
  rhs ← expression_ast_to_ir3 rhs_node compilation_context in_match_pattern check_var_reference;
  if negb (ir3.ExprType_eqb (ir3.type_of lhs) (ir3.type_of rhs)) then
    Raise (CompilationError lhs_node
             ("Type mismatch in ==: " +:+ ir3.str_type (ir3.type_of lhs) +:+ " vs "
              +:+ ir3.str_type (ir3.type_of rhs)) [])
  else
    supported ← _is_equality_check_supported_for_type (ir3.type_of lhs);
    if negb supported then
      Raise (CompilationError lhs_node
               ("Type not supported in equality comparison: "
                +:+ ir3.str_type (ir3.type_of lhs)) [])
    else Ok (ir3.EqualityComparison lhs rhs).

Definition not_eq_ast_to_ir3 (lhs_node rhs_node : AST)
    (compilation_context : CompilationContext) (in_match_pattern : bool)
    (check_var_reference : VarReferenceCheck) : Result Error ir3.Expr :=
  _ ← assert_ (negb in_match_pattern);
  lhs ← expression_ast_to_ir3 lhs_node compilation_context in_match_pattern check_var_reference;
  rhs ← expression_ast_to_ir3 rhs_node compilation_context in_match_pattern check_var_reference;
  if negb (ir3.ExprType_eqb (ir3.type_of lhs) (ir3.type_of rhs)) then
    Raise (CompilationError lhs_node
             ("Type mismatch in !=: " +:+ ir3.str_type (ir3.type_of lhs) +:+ " vs "
              +:+ ir3.str_type (ir3.type_of rhs)) [])
  else
    supported ← _is_equality_check_supported_for_type (ir3.type_of lhs);
    if negb supported then
      Raise (CompilationError lhs_node
               ("Type not supported in equality comparison: "
                +:+ ir3.str_type (ir3.type_of lhs)) [])
    else Ok (ir3.NotExpr (ir3.EqualityComparison lhs rhs)).

(** ** List displays *)

Definition untyped_empty_list_message : string :=
  "Untyped empty lists are not supported. Please import empty_list from pytmp and then write e.g. empty_list(int) to create an empty list of ints.".

Definition list_expression_ast_to_ir3 (ast_node : AST)
    (compilation_context : CompilationContext) (in_match_pattern : bool)
    (check_var_reference : VarReferenceCheck) : Result Error ir3.Expr :=
  match ast_node with
  | List elts _ =>
      elem_exprs ←
        mapM (fun elem_expr_node =>
                expression_ast_to_ir3 elem_expr_node compilation_context in_match_pattern
                  check_var_reference)
             elts;
      match elem_exprs, elts with
      | [], _ => Raise (CompilationError ast_node untyped_empty_list_message [])
                 : Result Error ir3.Expr
      | _, [] => Raise (InternalError IndexError)
      | first :: _, first_node :: _ =>
          let elem_type := ir3.type_of first in
          _ ← foldM (fun (_ : unit) '(elem_expr, elem_expr_ast_node) =>
                       if negb (ir3.ExprType_eqb (ir3.type_of elem_expr) elem_type) then
                         Raise (CompilationError elem_expr_ast_node
                                  ("Found different types in list elements, this is not supported. The type of this element was "
                                   +:+ ir3.str_type (ir3.type_of elem_expr) +:+ " instead of "
                                   +:+ ir3.str_type elem_type)
                                  [(first_node,
                                    "A previous list element with type "
                                    +:+ ir3.str_type elem_type +:+ " was here.")])
                       else Ok tt)
                    (zip elem_exprs elts) tt;
          if ir3.is_FunctionType elem_type then
            Raise (CompilationError ast_node
                     ("Creating lists of functions is not supported. The elements of this list have type: "
                      +:+ ir3.str_type elem_type) [])
          else Ok (ir3.ListExpr elem_type elem_exprs)
      end
  | _ => Raise (InternalError AssertionError)
  end.

End Elaborator.

End ast_to_ir3.

(** * IR-low, continued: the identifiers an expression refers to *)
Module ir0_identifiers.
Import ir0.

(** [expr.get_referenced_identifiers()]: what the generator yields, in order. *)
Fixpoint get_referenced_identifiers (e : Expr) : list string :=
  match e with
  | Literal _ => []
  | AtomicTypeLiteral cpp_type _ _ _ => [cpp_type]
  | PointerTypeExpr t | ReferenceTypeExpr t | RvalueReferenceTypeExpr t
  | ConstTypeExpr t | ArrayTypeExpr t => get_referenced_identifiers t
  | FunctionTypeExpr r args =>
      get_referenced_identifiers r ++ concat (map get_referenced_identifiers args)
  | ComparisonExpr l r _ | Int64BinaryOpExpr l r _ =>
      get_referenced_identifiers l ++ get_referenced_identifiers r
  | TemplateInstantiation t args _ =>
      get_referenced_identifiers t ++ concat (map get_referenced_identifiers args)
  | ClassMemberAccess x _ _ | NotExpr x | UnaryMinusExpr x | VariadicTypeExpansion x =>
      get_referenced_identifiers x
  end.

(** [AtomicTypeLiteral.for_nonlocal], [for_nonlocal_type],
    [for_nonlocal_template] and [from_nonlocal_template_defn]. *)
Definition for_nonlocal (cpp_type : string) (type : ExprType)
    (is_metafunction_that_may_return_error : bool) : Result PyError Expr :=
  AtomicTypeLiteral_init cpp_type false is_metafunction_that_may_return_error type.

Definition for_nonlocal_type (cpp_type : string) : Result PyError Expr :=
  for_nonlocal cpp_type TypeType false.

Definition for_nonlocal_template (cpp_type : string) (arg_types : list ExprType)
    (is_metafunction_that_may_return_error : bool) : Result PyError Expr :=
  for_nonlocal cpp_type (TemplateType arg_types) is_metafunction_that_may_return_error.

Definition from_nonlocal_template_defn (template_defn : TemplateDefn)
    (is_metafunction_that_may_return_error : bool) : Result PyError Expr :=
  match template_defn with
  | mkTemplateDefn args _ _ name _ _ =>
      for_nonlocal_template name (map arg_type args) is_metafunction_that_may_return_error
  end.

End ir0_identifiers.

(** * The C++ emitter, continued: template definitions and headers *)
Module ir0_to_cpp_header.
Import ir0 ir0_to_cpp.

(** A [for] loop calling [f] on each element, threading the writer. *)
Fixpoint for_each {A : Type} (f : A -> Writer -> Result PyError Writer)
    (xs : list A) (writer : Writer) : Result PyError Writer :=
  match xs with
  | [] => Ok writer
  | x :: xs' => writer ← f x writer; for_each f xs' writer
  end.

Definition template_defn_to_cpp_forward_decl (template_defn : TemplateDefn)
    (enclosing_function_defn_args : list TemplateArgDecl) (writer : Writer) : Writer :=
  match template_defn with
  | mkTemplateDefn args _ _ template_name _ _ =>
      let template_args := join ", " (map template_arg_decl_to_cpp args) in
      write_toplevel_elem writer
        (spaces 8 +:+ "template <" +:+ template_args +:+ ">" +:+ nl
         +:+ spaces 8 +:+ "struct " +:+ template_name +:+ ";" +:+ nl
         +:+ spaces 8)
  end.

(** The text [template_specialization_to_cpp] writes once the body is
    emitted; [patterns_str] is [None] for a main definition. *)
Definition specialization_text (template_args cxx_name : string)
    (patterns_str : option string) (asserts_and_assignments_str : string) : string :=
  spaces 12 +:+ "template <" +:+ template_args +:+ ">" +:+ nl
  +:+ spaces 12 +:+ "struct " +:+ cxx_name
  +:+ match patterns_str with
      | Some patterns_str => "<" +:+ patterns_str +:+ ">"
      | None => EmptyString
      end
  +:+ " {" +:+ nl
  +:+ spaces 14 +:+ asserts_and_assignments_str +:+ nl
  +:+ spaces 12 +:+ "};" +:+ nl
  +:+ spaces 12.

(** [template_defn_to_cpp] and [template_specialization_to_cpp] call each
    other along the nesting of template definitions; [depth] bounds the
    nesting of calls inside the expressions they emit. *)
Fixpoint template_defn_to_cpp (depth : nat) (template_defn : TemplateDefn)
    (enclosing_function_defn_args : list TemplateArgDecl) (writer : Writer)
    {struct template_defn} : Result PyError Writer :=
  match template_defn with
  | mkTemplateDefn _ main_definition specializations template_name description _ =>
      let write_description (writer : Writer) : Writer :=
        if negb (String.eqb description EmptyString)
        then write_toplevel_elem writer ("// " +:+ description +:+ nl)
        else writer in
      writer ←
        match main_definition with
        | Some main_definition =>
            template_specialization_to_cpp depth main_definition template_name
              enclosing_function_defn_args (write_description writer)
        | None => Ok writer
        end;
      for_each (fun specialization writer =>
                  template_specialization_to_cpp depth specialization template_name
                    enclosing_function_defn_args (write_description writer))
               specializations writer
  end
with template_specialization_to_cpp (depth : nat) (specialization : TemplateSpecialization)
    (cxx_name : string) (enclosing_function_defn_args : list TemplateArgDecl)
    (writer : Writer) {struct specialization} : Result PyError Writer :=
  match specialization with
  | mkTemplateSpecialization args patterns body =>
      template_elem_writer ← create_child_writer writer;
      template_elem_writer ←
        for_each (fun elem template_elem_writer =>
                    match elem with
                    | ElemStaticAssert elem =>
                        static_assert_to_cpp depth elem args template_elem_writer
                    | ElemConstantDef elem =>
                        constant_def_to_cpp (emitters depth) elem args template_elem_writer
                    | ElemTypedef elem =>
                        typedef_to_cpp (emitters depth) elem args template_elem_writer
                    | ElemTemplateDefn elem =>
                        template_defn_to_cpp depth elem args template_elem_writer
                    end)
                 body template_elem_writer;
      (* the toplevel writer is shared with [template_elem_writer] *)
      let writer := set_toplevel_writer writer (get_toplevel_writer template_elem_writer) in
      let asserts_and_assignments_str :=
        join EmptyString (writer_strings template_elem_writer) in
      let template_args := join ", " (map template_arg_decl_to_cpp args) in
      match patterns with
      | Some patterns =>
          '(patterns_strs, writer) ←
            mapM_st (fun pattern writer =>
                       expr_to_cpp depth pattern enclosing_function_defn_args writer)
                    patterns writer;
          let patterns_str := join ", " patterns_strs in
          Ok (write_template_body_elem writer
                (specialization_text template_args cxx_name (Some patterns_str)
                   asserts_and_assignments_str))
      | None =>
          Ok (write_template_body_elem writer
                (specialization_text template_args cxx_name None
                   asserts_and_assignments_str))
      end
  end.

Definition toplevel_elem_to_cpp (depth : nat) (elem : TemplateBodyElement)
    (writer : Writer) : Result PyError Writer :=
  match elem with
  | ElemStaticAssert elem => static_assert_to_cpp depth elem [] writer
  | ElemConstantDef elem => constant_def_to_cpp (emitters depth) elem [] writer
  | ElemTypedef elem => typedef_to_cpp (emitters depth) elem [] writer
  | ElemTemplateDefn _ =>
      Raise (NotImplementedError "Unexpected toplevel element: TemplateDefn")
  end.

(** The two [#include] lines every header starts with. *)
Definition header_preamble : string :=
  spaces 8 +:+ "#include <tmppy/tmppy.h>" +:+ nl
  +:+ spaces 8 +:+ "#include <type_traits>" +:+ nl
  +:+ spaces 8.

Definition header_to_cpp (depth : nat) (header : Header)
    (identifier_generator : IdentifierGenerator) : Result PyError string :=
  let writer := W_Toplevel (mkToplevelWriter identifier_generator []) in
  let writer := write_toplevel_elem writer header_preamble in
  let writer :=
    fold_left (fun writer elem => template_defn_to_cpp_forward_decl elem [] writer)
              (template_defns header) writer in
  writer ← for_each (fun elem writer => template_defn_to_cpp depth elem [] writer)
             (template_defns header) writer;
  writer ← for_each (toplevel_elem_to_cpp depth) (toplevel_content header) writer;
  Ok (join EmptyString (writer_strings writer)).

End ir0_to_cpp_header.

(** * Regular expressions: what the sources use of Python's [re] *)
Module re.

(** The patterns of the sources are built from character classes,
    concatenation and [*]. *)
Inductive regex : Type :=
| Nothing
| Epsilon
| Chars (class : ascii -> bool)
| Seq (r s : regex)
| Alt (r s : regex)
| Star (r : regex).

Fixpoint nullable (r : regex) : bool :=
  match r with
  | Nothing => false
  | Epsilon => true
  | Chars _ => false
  | Seq r s => nullable r && nullable s
  | Alt r s => nullable r || nullable s
  | Star _ => true
  end.

(** What is left of [r] to match once the character [c] is read. *)
Fixpoint derivative (c : ascii) (r : regex) : regex :=
  match r with
  | Nothing => Nothing
  | Epsilon => Nothing
  | Chars class => if class c then Epsilon else Nothing
  | Seq r s =>
      if nullable r then Alt (Seq (derivative c r) s) (derivative c s)
      else Seq (derivative c r) s
  | Alt r s => Alt (derivative c r) (derivative c s)
  | Star r => Seq (derivative c r) (Star r)
  end.

(** [pattern.fullmatch(s)] as a truth value: the whole string matches. *)
Fixpoint fullmatch (r : regex) (s : string) : bool :=
  match s with
  | EmptyString => nullable r
  | String c s' => fullmatch (derivative c r) s'
  end.

(** The character classes [[a-z]], [[A-Z]], [[0-9]] and a single character. *)
Definition in_range (lo hi : ascii) (c : ascii) : bool :=
  (nat_of_ascii lo <=? nat_of_ascii c)%nat && (nat_of_ascii c <=? nat_of_ascii hi)%nat.

Definition char (a : ascii) : regex := Chars (Ascii.eqb a).

End re.

(** * The front-end elaborator, continued: contexts *)
Module ast_to_ir3_context.
Import ast ast_to_ir3.

(** [add_custom_type_symbol(custom_type, definition_ast_node)], for the
    custom type with the given name, fields, exception flag and message: the
    constructor of the type goes to the symbol table, the type to the table of
    custom types. *)
Definition add_custom_type_symbol (self : CompilationContext)
    (name : string) (arg_types : list ir3.CustomTypeArgDecl)
    (is_exception_class : bool) (exception_message : option string)
    (definition_ast_node : AST) : Result Error CompilationContext :=
  let custom_type := ir3.CustomType name arg_types is_exception_class exception_message in
  self ← add_symbol self name
           (ir3.FunctionType (map ir3.decl_type arg_types) custom_type)
           definition_ast_node false false;
  t ← SymbolTable_add_symbol (custom_types_symbol_table self) name custom_type
        definition_ast_node false false;
  Ok (mkCompilationContext (symbol_table self) t
        (partially_typechecked_function_definitions_by_name self)
        (filename self) (source_lines self) (current_function_name self)).

Definition add_symbol_for_function_with_unknown_return_type (self : CompilationContext)
    (name : string) (definition_ast_node : AST) : Result Error CompilationContext :=
  _ ← _check_not_already_defined self name definition_ast_node;
  Ok (mkCompilationContext (symbol_table self) (custom_types_symbol_table self)
        (<[name := definition_ast_node]>
           (partially_typechecked_function_definitions_by_name self))
        (filename self) (source_lines self) (current_function_name self)).

Definition get_partial_function_definition (self : CompilationContext) (name : string)
  : option AST :=
  partially_typechecked_function_definitions_by_name self !! name.

(** What [set_function_type] can raise: an assertion, or the [AttributeError]
    of [None.symbol] when the function is defined nowhere. *)
Inductive SetFunctionTypeError : Type :=
| FailedAssertion
| AttributeError.

Definition set_function_type (self : CompilationContext) (name : string)
    (type : ir3.ExprType) : Result SetFunctionTypeError CompilationContext :=
  match partially_typechecked_function_definitions_by_name self !! name with
  | Some ast_node =>
      match SymbolTable_add_symbol (symbol_table self) name type ast_node false true with
      | Ok t =>
          Ok (mkCompilationContext t (custom_types_symbol_table self)
                (delete name (partially_typechecked_function_definitions_by_name self))
                (filename self) (source_lines self) (current_function_name self))
      | Raise _ => Raise FailedAssertion
      end
  | None =>
      match get_symbol_definition self name with
      | Some lookup_result =>
          if ir3.ExprType_eqb (Symbol_type (lookup_symbol lookup_result)) type
          then Ok self
          else Raise FailedAssertion
      | None => Raise AttributeError
      end
  end.

End ast_to_ir3_context.

(** * The front-end elaborator, continued: names and atomic types *)
Module ast_to_ir3_names.
Import ast ast_to_ir3 ast_to_ir3_context re.

(** The nodes of [ir3.py] that the functions below build. *)
Class NameNodes {N : ir3.Nodes} : Type := {
  (** [ir3.VarReference(type, name, is_global_function, is_function_that_may_throw)] *)
  VarReference : ir3.ExprType -> string -> bool -> bool -> ir3.Expr;
  (** [ir3.AtomicTypeLiteral(cpp_type)] *)
  AtomicTypeLiteral : string -> ir3.Expr
}.

Definition letter_or_underscore (c : ascii) : bool :=
  in_range "A" "Z" c || in_range "a" "z" c || Ascii.eqb c "_"%char.

Definition letter_digit_or_underscore (c : ascii) : bool :=
  in_range "A" "Z" c || in_range "a" "z" c || in_range "0" "9" c || Ascii.eqb c "_"%char.

(** The pattern of [_cxx_identifier_regex]: a letter or an underscore, then
    any number of letters, digits and underscores. *)
Definition _cxx_identifier_regex : regex :=
  Seq (Chars letter_or_underscore) (Star (Chars letter_digit_or_underscore)).

(** The pattern of [_check_atomic_type_regex]: an identifier as above, then
    any number of times two colons and an identifier. *)
Definition _check_atomic_type_regex : regex :=
  Seq (Chars letter_or_underscore)
    (Seq (Star (Chars letter_digit_or_underscore))
       (Star (Seq (char ":")
                (Seq (char ":")
                   (Seq (Chars letter_or_underscore)
                      (Star (Chars letter_digit_or_underscore))))))).

Definition invalid_atomic_type_message : string :=
  "Invalid atomic type. Atomic types should be C++ identifiers (possibly namespace-qualified).".

(** [ast_node] is the [ast.Str] whose string is checked. *)
Definition _check_atomic_type (ast_node : AST) (compilation_context : CompilationContext)
  : Result Error unit :=
  match ast_node with
  | Str s =>
      if negb (fullmatch _check_atomic_type_regex s)
      then Raise (CompilationError ast_node invalid_atomic_type_message [])
      else Ok tt
  | _ => Raise (InternalError AssertionError)
  end.

Section Names.
Context {N : ir3.Nodes} {NN : NameNodes}.

Definition atomic_type_literal_ast_to_ir3 (ast_node : AST)
    (compilation_context : CompilationContext) (in_match_pattern : bool)
    (check_var_reference : AST -> Result Error unit) : Result Error ir3.Expr :=
  match ast_node with
  | Call _ args keywords =>
      _ ← match keywords with
          | k :: _ => Raise (CompilationError (keyword_value k)
                               "Keyword arguments are not supported in Type()" [])
          | [] => Ok tt
          end;
      match args with
      | [arg_node] =>
          match arg_node with
          | Str s =>
              _ ← _check_atomic_type arg_node compilation_context;
              Ok (AtomicTypeLiteral s)
          | _ => Raise (CompilationError arg_node
                          "The argument passed to Type should be a string constant." [])
          end
      | _ => Raise (CompilationError ast_node
                      ("Type() takes 1 argument. Got: "
                       +:+ str_int (Z.of_nat (length args))) [])
      end
  | _ => Raise (InternalError AssertionError)
  end.

Definition var_reference_ast_to_ir3 (ast_node : AST)
    (compilation_context : CompilationContext) (in_match_pattern : bool)
    (check_var_reference : AST -> Result Error unit) : Result Error ir3.Expr :=
  match ast_node with
  | Name id Load =>
      match get_symbol_definition compilation_context id with
      | Some lookup_result =>
          if is_only_partially_defined lookup_result then
            Raise (CompilationError ast_node
                     "Reference to a variable that may or may not have been initialized (depending on which branch was taken)"
                     [(lookup_ast_node lookup_result,
                       id +:+ " might have been initialized here")])
          else
            _ ← check_var_reference ast_node;
            Ok (VarReference
                  (Symbol_type (lookup_symbol lookup_result))
                  (Symbol_name (lookup_symbol lookup_result))
                  (match parent (lookup_symbol_table lookup_result) with
                   | None => true
                   | Some _ => false
                   end)
                  (ir3.is_FunctionType (Symbol_type (lookup_symbol lookup_result))
                   && is_function_that_may_throw (lookup_symbol lookup_result)))
      | None =>
          match get_partial_function_definition compilation_context id with
          | Some definition_ast_node =>
              if bool_decide (current_function_name compilation_context = Some id) then
                Raise (CompilationError ast_node
                         "Recursive function references are only allowed if the return type is declared explicitly."
                         [(definition_ast_node, id +:+ " was defined here")])
              else
                Raise (CompilationError ast_node
                         ("Reference to a function whose return type hasn't been determined yet. Please add a return type declaration in "
                          +:+ id +:+ " or move its declaration before its use.")
                         [(definition_ast_node, id +:+ " was defined here")])
          | None =>
              Raise (CompilationError ast_node "Reference to undefined variable/function" [])
          end
      end
  | _ => Raise (InternalError AssertionError)
  end.

End Names.

End ast_to_ir3_names.

(** * Sequencing *)

Lemma bind_Ok {E A B : Type} (a : A) (k : A -> Result E B) : (Ok a ≫= k) = k a.
Proof. reflexivity. Qed.

Lemma bind_Raise {E A B : Type} (e : E) (k : A -> Result E B) :
  (Raise e ≫= k) = Raise e.
Proof. reflexivity. Qed.

(** * Properties of the emitter *)
Module ir0_to_cpp_properties.
Import ir0 ir0_to_cpp.

Lemma string_app_cons (ch : ascii) (a b : string) :
  String ch a +:+ b = String ch (a +:+ b).
Proof. reflexivity. Qed.

Lemma string_app_nil_l (b : string) : EmptyString +:+ b = b.
Proof. reflexivity. Qed.

Lemma string_app_assoc (a b c : string) : (a +:+ b) +:+ c = a +:+ (b +:+ c).
Proof.
  induction a as [|ch a IH]; [reflexivity|].
  rewrite !string_app_cons. f_equal. exact IH.
Qed.

(** Two texts built from the same pieces are equal whatever the grouping. *)
Ltac same_text :=
  repeat (progress (rewrite ?string_app_assoc, ?string_app_cons, ?string_app_nil_l));
  reflexivity.

(** ** Reference collapsing *)

(** A chain of reference ([true]) and rvalue-reference ([false]) constructors
    around [inner], outermost link first. *)
Fixpoint reference_chain (links : list bool) (inner : Expr) : Expr :=
  match links with
  | [] => inner
  | true :: rest => ReferenceTypeExpr (reference_chain rest inner)
  | false :: rest => RvalueReferenceTypeExpr (reference_chain rest inner)
  end.

Definition is_reference_node (e : Expr) : bool :=
  match e with
  | ReferenceTypeExpr _ | RvalueReferenceTypeExpr _ => true
  | _ => false
  end.

(** The modifier of a collapsed chain: [" &"] if some link is a reference,
    [" &&"] otherwise. *)
Definition collapsed_modifier (links : list bool) : string :=
  if existsb id links then " &" else " &&".

(** A writer with nothing written and a generator that yields [id0], [id1], ... *)
Definition numbered_ids : IdentifierGenerator :=
  mkGen (fun n => Some ("id" +:+ str_int (Z.of_nat n))) 0.

Definition empty_body_writer : Writer :=
  W_TemplateElem (mkToplevelWriter numbered_ids []) [].

Definition int_type : Expr := AtomicTypeLiteral "int" false false TypeType.

Lemma simplify_loop_chain links : forall has_reference inner,
  is_reference_node inner = false ->
  _simplify_toplevel_references_loop has_reference (reference_chain links inner)
  = (has_reference || existsb id links, inner).
Proof.
  induction links as [|b links IH]; intros h inner Hinner; simpl.
  - rewrite orb_false_r. destruct inner; simpl in *; try reflexivity; discriminate.
  - destruct b; simpl; rewrite IH by assumption.
    + rewrite orb_true_r. reflexivity.
    + rewrite orb_false_r. reflexivity.
Qed.

Lemma simplify_chain links inner :
  is_reference_node inner = false ->
  _simplify_toplevel_references (reference_chain links inner)
  = if existsb id links then ReferenceTypeExpr inner else RvalueReferenceTypeExpr inner.
Proof.
  intros Hinner. unfold _simplify_toplevel_references.
  rewrite simplify_loop_chain by assumption. reflexivity.
Qed.

Lemma chain_prefix_suffix links inner depth args writer has_modifiers :
  links <> [] -> is_reference_node inner = false ->
  type_expr_to_cpp_prefix_suffix (S depth) (reference_chain links inner) args writer
    has_modifiers
  = unary_modifier_type_expr_to_cpp_prefix_suffix (emitters depth)
      (collapsed_modifier links) inner args writer.
Proof.
  intros Hne Hinner.
  unfold type_expr_to_cpp_prefix_suffix. simpl.
  unfold type_expr_to_cpp_prefix_suffix_def.
  destruct links as [|b links]; [congruence|].
  pose proof (simplify_chain (b :: links) inner Hinner) as E.
  destruct b; simpl reference_chain in *; cbv beta iota; rewrite E;
    unfold collapsed_modifier; destruct (existsb id _); reflexivity.
Qed.

(** C7.  A chain of reference and rvalue-reference constructors around an
    inner type expression is collapsed before it is emitted:
    [_simplify_toplevel_references] returns a single reference around the inner
    expression if some link is a reference and a single rvalue reference
    otherwise; the prefix and suffix closures of the chain are those of the
    single modifier [" &"], respectively [" &&"], on the inner expression; and
    the text [expr_to_cpp] returns is the prefix of the inner expression, the
    modifier once, and the suffix of the inner expression. *)
Theorem reference_chain_collapses links inner depth args writer has_modifiers :
  links <> [] -> is_reference_node inner = false ->
  _simplify_toplevel_references (reference_chain links inner)
    = (if existsb id links then ReferenceTypeExpr inner
       else RvalueReferenceTypeExpr inner)
  /\ type_expr_to_cpp_prefix_suffix (S depth) (reference_chain links inner) args writer
       has_modifiers
     = unary_modifier_type_expr_to_cpp_prefix_suffix (emitters depth)
         (collapsed_modifier links) inner args writer
  /\ (forall write_prefix write_suffix w1 w2 w3,
        type_expr_to_cpp_prefix_suffix depth inner args (W_Expr writer []) true
          = Ok (write_prefix, write_suffix, w1) ->
        write_prefix w1 = Ok w2 ->
        write_suffix (write_expr_fragment w2 (collapsed_modifier links)) = Ok w3 ->
        expr_to_cpp (S (S depth)) (reference_chain links inner) args writer
          = Ok (close_expr_writer w3)).
Proof.
  intros Hne Hinner. split; [apply simplify_chain; assumption|].
  split; [apply chain_prefix_suffix; assumption|].
  intros wp ws w1 w2 w3 Hps Hp Hs.
  assert (Hexpr : expr_to_cpp (S (S depth)) (reference_chain links inner) args writer
                  = (w ← type_expr_to_cpp (emitters (S depth)) (reference_chain links inner)
                          args (W_Expr writer []);
                     Ok (close_expr_writer w))).
  { destruct links as [|[] links]; [congruence| |]; reflexivity. }
  rewrite Hexpr. unfold type_expr_to_cpp.
  change (rec_type_expr_to_cpp_prefix_suffix (emitters (S depth)))
    with (type_expr_to_cpp_prefix_suffix (S depth)).
  rewrite chain_prefix_suffix by assumption.
  unfold unary_modifier_type_expr_to_cpp_prefix_suffix.
  change (rec_type_expr_to_cpp_prefix_suffix (emitters depth))
    with (type_expr_to_cpp_prefix_suffix depth).
  rewrite Hps. simpl. rewrite Hp. simpl. rewrite Hs. reflexivity.
Qed.

(** The two chains of the specification, on the type [int]:
    [ref(ref(rref(int)))] is emitted with one [&]. *)
Lemma reference_chain_collapses_witness :
  expr_to_cpp 3 (ReferenceTypeExpr (ReferenceTypeExpr (RvalueReferenceTypeExpr int_type)))
    [] empty_body_writer
  = Ok ("int &", empty_body_writer).
Proof.
  destruct (reference_chain_collapses [true; true; false] int_type 1 [] empty_body_writer
              false) as (_ & _ & H).
  - discriminate.
  - reflexivity.
  - apply (H (fun w => Ok (write_expr_fragment w "int")) (fun w => Ok w)
             (W_Expr empty_body_writer [])
             (W_Expr empty_body_writer ["int"])
             (W_Expr empty_body_writer ["int"; " &"])); reflexivity.
Defined.

(** [rref(rref(int))] is emitted with [&&]. *)
Example rvalue_reference_chain_emits_rvalue_reference :
  expr_to_cpp 3 (RvalueReferenceTypeExpr (RvalueReferenceTypeExpr int_type))
    [] empty_body_writer
  = Ok ("int &&", empty_body_writer).
Proof. reflexivity. Qed.

(** A pointer to a chain keeps the collapsed modifier inside the declarator. *)
Example pointer_to_function_of_references :
  expr_to_cpp 5
    (PointerTypeExpr
       (FunctionTypeExpr int_type
          [ReferenceTypeExpr (RvalueReferenceTypeExpr int_type)]))
    [] empty_body_writer
  = Ok ("int(*) (int &)", empty_body_writer).
Proof. reflexivity. Qed.

(** ** Static asserts *)

(** The predefined wrapper for a parameter of kind [k], if [tmppy.h] has one. *)
Definition always_true_wrapper (k : ExprKind) : option string :=
  match k with
  | BOOL => Some "AlwaysTrueFromBool"
  | INT64 => Some "AlwaysTrueFromInt64"
  | TYPE => Some "AlwaysTrueFromType"
  | TEMPLATE | VARIADIC_TYPE => None
  end.

(** The first enclosing parameter of kind [BOOL], [INT64] or [TYPE]. *)
Definition first_guard_parameter (args : list TemplateArgDecl) : option TemplateArgDecl :=
  List.find (fun arg_decl =>
               match always_true_wrapper (kind (arg_type arg_decl)) with
               | Some _ => true
               | None => false
               end) args.

(** [static_assert(<expr>, "<message>");] *)
Definition plain_static_assert (cpp_meta_expr message : string) : string :=
  "static_assert(" +:+ cpp_meta_expr +:+ ", " +:+ dquote +:+ message +:+ dquote +:+ ");".

(** [static_assert(<wrapper><<p>>::value && <expr>, "<message>");] *)
Definition guarded_static_assert (wrapper p cpp_meta_expr message : string) : string :=
  "static_assert(" +:+ wrapper +:+ "<" +:+ p +:+ ">::value && " +:+ cpp_meta_expr
  +:+ ", " +:+ dquote +:+ message +:+ dquote +:+ ");".

(** The definition of a fresh always-true template [always_true_id] over a
    parameter declared as [template_param_decl], followed by the static assert
    guarded by its instance on [p]. *)
Definition custom_guarded_static_assert
    (always_true_id template_param_decl p cpp_meta_expr message : string) : string :=
  spaces 12 +:+ "// Custom AlwaysTrueFor* template" +:+ nl
  +:+ spaces 12 +:+ "template <" +:+ template_param_decl +:+ ">" +:+ nl
  +:+ spaces 12 +:+ "struct " +:+ always_true_id +:+ " {" +:+ nl
  +:+ spaces 14 +:+ "static constexpr bool value = true;" +:+ nl
  +:+ spaces 12 +:+ "};" +:+ nl
  +:+ spaces 12 +:+ guarded_static_assert always_true_id p cpp_meta_expr message +:+ nl
  +:+ spaces 12.

Lemma static_assert_guard_first args cpp_meta_expr message :
  static_assert_guard args cpp_meta_expr message
  = match first_guard_parameter args with
    | Some p =>
        match always_true_wrapper (kind (arg_type p)) with
        | Some wrapper =>
            Some (guarded_static_assert wrapper (arg_name p) cpp_meta_expr message)
        | None => None
        end
    | None => None
    end.
Proof.
  induction args as [|a args IH]; [reflexivity|].
  unfold first_guard_parameter in *. simpl.
  destruct (kind (arg_type a)) eqn:K; simpl; rewrite ?K; simpl;
    solve [reflexivity | exact IH].
Qed.

Lemma first_guard_parameter_wrapper args p :
  first_guard_parameter args = Some p ->
  exists wrapper, always_true_wrapper (kind (arg_type p)) = Some wrapper.
Proof.
  unfold first_guard_parameter. intros H. apply find_some in H as [_ H].
  destruct (always_true_wrapper (kind (arg_type p))); [eauto|discriminate].
Qed.

Lemma first_guard_parameter_none args :
  first_guard_parameter args = None ->
  forall p, In p args -> always_true_wrapper (kind (arg_type p)) = None.
Proof.
  unfold first_guard_parameter. intros H p Hin.
  pose proof (find_none _ _ H p Hin) as Hp. simpl in Hp.
  destruct (always_true_wrapper (kind (arg_type p))); [discriminate|reflexivity].
Qed.

(** C1.  Inside a template with a non-empty argument list, the text
    [static_assert_to_cpp] writes for a static assert whose expression was
    emitted as [cpp_meta_expr] is one of three: the plain static assert, when
    the expression references an enclosing parameter; the static assert guarded
    by [AlwaysTrueFromBool<p>::value &&], [AlwaysTrueFromInt64<p>::value &&] or
    [AlwaysTrueFromType<p>::value &&], for the first enclosing parameter [p] of
    kind [BOOL], [INT64] or [TYPE] and according to its kind; or, when no
    enclosing parameter has one of these kinds, the definition of a template
    named by a fresh identifier, always true, followed by the static assert
    guarded by its instance on the first enclosing parameter. *)
Theorem static_assert_is_guarded depth assert_stmt args writer cpp_meta_expr w1 :
  args <> [] ->
  expr_to_cpp depth (sa_expr assert_stmt) args writer = Ok (cpp_meta_expr, w1) ->
  let bound_variables : gset string := list_to_set (map arg_name args) in
  let message := sa_message assert_stmt in
  (references_any_of (sa_expr assert_stmt) bound_variables = true
   /\ static_assert_to_cpp depth assert_stmt args writer
      = Ok (write_template_body_elem w1 (plain_static_assert cpp_meta_expr message)))
  \/ (references_any_of (sa_expr assert_stmt) bound_variables = false
      /\ exists p wrapper,
           first_guard_parameter args = Some p
           /\ always_true_wrapper (kind (arg_type p)) = Some wrapper
           /\ static_assert_to_cpp depth assert_stmt args writer
              = Ok (write_template_body_elem w1
                      (guarded_static_assert wrapper (arg_name p) cpp_meta_expr message)))
  \/ (references_any_of (sa_expr assert_stmt) bound_variables = false
      /\ (forall p, In p args -> always_true_wrapper (kind (arg_type p)) = None)
      /\ exists p0 rest,
           args = p0 :: rest
           /\ static_assert_to_cpp depth assert_stmt args writer
              = ('(always_true_id, w2) ← new_id w1;
                 Ok (write_template_body_elem w2
                       (custom_guarded_static_assert always_true_id
                          (_type_to_template_param_declaration (arg_type p0))
                          (arg_name p0) cpp_meta_expr message)))).
Proof.
  intros Hne Hexpr bound_variables message.
  unfold static_assert_to_cpp. rewrite Hexpr. simpl.
  rewrite bool_decide_eq_false_2 by assumption. simpl.
  fold bound_variables. fold message.
  destruct (references_any_of (sa_expr assert_stmt) bound_variables) eqn:Href.
  - left. split; reflexivity.
  - right. rewrite static_assert_guard_first.
    destruct (first_guard_parameter args) as [p|] eqn:Hfirst.
    + left. split; [reflexivity|].
      destruct (first_guard_parameter_wrapper _ _ Hfirst) as [wrapper Hw].
      exists p, wrapper. rewrite Hw. repeat split; reflexivity.
    + right. split; [reflexivity|].
      split; [apply first_guard_parameter_none; assumption|].
      destruct args as [|p0 rest]; [congruence|].
      exists p0, rest. split; [reflexivity|].
      destruct (new_id w1) as [[always_true_id w2]|e]; [|reflexivity].
      simpl. do 2 f_equal.
      unfold custom_guarded_static_assert, guarded_static_assert. same_text.
Qed.

Definition template_param (name : string) : TemplateArgDecl :=
  mkTemplateArgDecl (TemplateType [TypeType]) name.

(** A constant assertion inside [template <template <typename> class G, typename U>]:
    the guard is on [U], the first parameter that is not a template. *)
Lemma static_assert_is_guarded_witness :
  static_assert_to_cpp 1 (mkStaticAssert (Literal (VBool false)) "never")
    [template_param "G"; mkTemplateArgDecl TypeType "U"] empty_body_writer
  = Ok (write_template_body_elem empty_body_writer
          (guarded_static_assert "AlwaysTrueFromType" "U" "false" "never")).
Proof.
  destruct (static_assert_is_guarded 1 (mkStaticAssert (Literal (VBool false)) "never")
              [template_param "G"; mkTemplateArgDecl TypeType "U"]
              empty_body_writer "false" empty_body_writer)
    as [[H _]|[(_ & p & wrapper & Hp & Hw & H)|(_ & Hnone & _)]].
  - discriminate.
  - reflexivity.
  - vm_compute in H. discriminate.
  - injection Hp as <-. injection Hw as <-. exact H.
  - specialize (Hnone (mkTemplateArgDecl TypeType "U")).
    simpl in Hnone. discriminate Hnone. right. left. reflexivity.
Defined.

(** When every enclosing parameter is a template, a fresh always-true template
    is defined for the first one. *)
Example static_assert_custom_guard :
  static_assert_to_cpp 1 (mkStaticAssert (Literal (VBool false)) "never")
    [template_param "G"] empty_body_writer
  = Ok (W_TemplateElem (mkToplevelWriter (mkGen (gen_items numbered_ids) 1) [])
          [custom_guarded_static_assert "id0" "template <typename> class" "G" "false"
             "never"]).
Proof. reflexivity. Qed.

(** ** Select1st wrappers *)

(** The tag of a kind in the name of a [Select1st] template; the variadic
    kind is tagged as [Type], and templates have no predefined template. *)
Definition select1st_kind_tag (k : ExprKind) : option string :=
  match k with
  | BOOL => Some "Bool"
  | INT64 => Some "Int64"
  | TYPE | VARIADIC_TYPE => Some "Type"
  | TEMPLATE => None
  end.

(** [Select1stXY] for the kind [k1] of the replaced argument and the kind
    [k2] of the enclosing parameter. *)
Definition select1st_name (k1 k2 : ExprKind) : option string :=
  match select1st_kind_tag k1, select1st_kind_tag k2 with
  | Some x, Some y => Some ("Select1st" +:+ x +:+ y)
  | _, _ => None
  end.

(** The nine templates of [tmppy/tmppy.h]. *)
Definition predefined_select1st_names : list string :=
  [ "Select1stBoolBool"; "Select1stBoolInt64"; "Select1stBoolType";
    "Select1stInt64Bool"; "Select1stInt64Int64"; "Select1stInt64Type";
    "Select1stTypeBool"; "Select1stTypeInt64"; "Select1stTypeType" ].

(** The dictionary agrees with [Select1stXY] for an argument of kind [BOOL],
    [INT64] or [TYPE], except on the entry for an [INT64] argument under a
    variadic parameter. *)
Lemma select1st_variant_table_other_entries k1 k2 :
  k1 <> TEMPLATE -> k2 <> TEMPLATE -> k1 <> VARIADIC_TYPE ->
  (k1, k2) <> (INT64, VARIADIC_TYPE) ->
  select1st_variant_table k1 k2 = select1st_name k1 k2
  /\ exists name, select1st_name k1 k2 = Some name /\ In name predefined_select1st_names.
Proof.
  intros H1 H2 H3 H4.
  destruct k1, k2; try congruence; (split; [reflexivity|]);
    eexists; (split; [reflexivity|]); simpl; tauto.
Qed.

(** The dictionary has no entry for a variadic argument: the lookup raises
    [KeyError]. *)
Lemma select1st_variant_table_variadic_argument k2 :
  select1st_variant_table VARIADIC_TYPE k2 = None.
Proof. destruct k2; reflexivity. Qed.

Definition metafunction_F : Expr :=
  AtomicTypeLiteral "F" false true (TemplateType [Int64Type]).

(** C2, at the input where the code departs from it.  The instantiation
    [F<5>], flagged as possibly triggering static asserts, inside
    [template <typename... Args>]: the replaced argument has kind [INT64], the
    selected parameter the variadic kind, neither is a template, and the
    wrapper the emitter names is [Select1stInt64TypeType], which is not
    [Select1stInt64Type] and is none of the nine predefined templates. *)
Theorem select1st_int64_variadic_name :
  expr_to_cpp 10 (TemplateInstantiation metafunction_F [Literal (VInt 5)] true)
    [mkTemplateArgDecl VariadicType "Args"] empty_body_writer
  = Ok ("F<Select1stInt64TypeType<5LL, Args>::value>", empty_body_writer)
  /\ select1st_variant_table INT64 VARIADIC_TYPE = Some "Select1stInt64TypeType"
  /\ select1st_name INT64 VARIADIC_TYPE = Some "Select1stInt64Type"
  /\ ~ In "Select1stInt64TypeType" predefined_select1st_names.
Proof.
  split; [reflexivity|]. split; [reflexivity|]. split; [reflexivity|].
  simpl. intros H. repeat (destruct H as [H|H]; [discriminate H|]). exact H.
Qed.

(** The same instantiation under a parameter of kind [TYPE] gets the
    predefined wrapper. *)
Example select1st_int64_type_name :
  expr_to_cpp 10 (TemplateInstantiation metafunction_F [Literal (VInt 5)] true)
    [mkTemplateArgDecl TypeType "T"] empty_body_writer
  = Ok ("F<Select1stInt64Type<5LL, T>::value>", empty_body_writer).
Proof. reflexivity. Qed.

End ir0_to_cpp_properties.

(** * Properties of the transformation framework *)
Module transform_ir0_properties.
Import ir0 transform_ir0.

(** C9.  Whatever a transformation does to the template definitions and to
    the toplevel content, and whatever it writes besides, the header that
    [transform_header] returns has the [public_names] of the header it was
    given. *)
Theorem transform_header_preserves_public_names
    {Self : Type} (T : Transformation Self) (self self' : Self)
    (header header' : Header) (identifier_generator : IdentifierGenerator) :
  transform_header T self header identifier_generator = Ok (header', self') ->
  public_names header' = public_names header.
Proof.
  unfold transform_header. intros H.
  destruct (for_each_self _ (ir0.template_defns header) self _) as [[s1 w1]|e]; simpl in H;
    [|discriminate].
  destruct (for_each_self _ (toplevel_content header) s1 w1) as [[s2 w2]|e]; simpl in H;
    [|discriminate].
  injection H as <- _. reflexivity.
Qed.

(** [template <bool b> struct negate { static constexpr bool value = !(b); };]
    and a toplevel static assert, with [negate] public. *)
Definition negate_header : Header :=
  let b := AtomicTypeLiteral "b" true false BoolType in
  mkHeader
    [mkTemplateDefn [mkTemplateArgDecl BoolType "b"]
       (Some (mkTemplateSpecialization [mkTemplateArgDecl BoolType "b"] None
                [ElemConstantDef (mkConstantDef "value" (NotExpr b))]))
       [] "negate" "" ["value"]]
    [ElemStaticAssert (mkStaticAssert (Literal (VBool true)) "ok")]
    {["negate"]}.

Definition no_ids : IdentifierGenerator := mkGen (fun _ => None) 0.

(** The base class rebuilds the header it is given. *)
Lemma base_Transformation_negate_header :
  transform_header base_Transformation tt negate_header no_ids = Ok (negate_header, tt).
Proof. reflexivity. Qed.

(** A subclass that overrides both entry points: it drops the template
    definitions, counting them in its instance, and hoists the expression of a
    toplevel static assert into a constant with a fresh name. *)
Definition hoisting_Transformation : Transformation nat :=
  mkTransformation
    (fun dropped _ w => Ok (S dropped, w))
    (fun dropped elem w =>
       match elem with
       | ElemStaticAssert a =>
           '(constant, w) ← new_constant_or_typedef w (sa_expr a);
           w ← write w (ElemStaticAssert (mkStaticAssert constant (sa_message a)));
           Ok (dropped, w)
       | _ => w ← write w elem; Ok (dropped, w)
       end).

Definition numbered_ids : IdentifierGenerator :=
  mkGen (fun n => Some ("id" +:+ str_int (Z.of_nat n))) 0.

Definition hoisted_header : Header :=
  mkHeader []
    [ElemConstantDef (mkConstantDef "id0" (Literal (VBool true)));
     ElemStaticAssert (mkStaticAssert (AtomicTypeLiteral "id0" true false BoolType) "ok")]
    {["negate"]}.

Lemma transform_header_preserves_public_names_witness :
  transform_header hoisting_Transformation 0%nat negate_header numbered_ids
    = Ok (hoisted_header, 1%nat)
  /\ public_names hoisted_header = public_names negate_header.
Proof.
  assert (H : transform_header hoisting_Transformation 0%nat negate_header numbered_ids
              = Ok (hoisted_header, 1%nat)) by reflexivity.
  split; [exact H|].
  exact (transform_header_preserves_public_names hoisting_Transformation 0%nat 1%nat
           negate_header hoisted_header numbered_ids H).
Defined.

End transform_ir0_properties.

(** * A tree implementation of the IR-high nodes

    The examples below need expressions and statements to run the elaborator
    on.  [ir3_tree] implements the interface [ir3.Nodes] with plain trees. *)
Module ir3_tree.
Import ir3.

Inductive Tree : Type :=
| BoolLiteral (value : bool)
| IntLiteral (value : Z)
| AtomicTypeLiteral (cpp_type : string)
| VarReference (type : ExprType) (name : string) (is_global_function : bool)
    (is_function_that_may_throw : bool)
| PointerTypeExpr (type_expr : Tree)
| EqualityComparison (lhs rhs : Tree)
| NotExpr (expr : Tree)
| ListExpr (elem_type : ExprType) (elem_exprs : list Tree)
| MatchExpr (matched_exprs : list Tree)
    (match_cases : list (list string * list Tree * Tree)).

Definition Case : Type := (list string * list Tree * Tree)%type.

Fixpoint type_of (e : Tree) : ExprType :=
  match e with
  | BoolLiteral _ => BoolType
  | IntLiteral _ => IntType
  | AtomicTypeLiteral _ => TypeType
  | VarReference type _ _ _ => type
  | PointerTypeExpr _ => TypeType
  | EqualityComparison _ _ => BoolType
  | NotExpr _ => BoolType
  | ListExpr elem_type _ => ListType elem_type
  | MatchExpr _ cases =>
      match cases with
      | (_, _, result) :: _ => type_of result
      | [] => BottomType
      end
  end.

Fixpoint get_free_variables (e : Tree) : list string :=
  match e with
  | BoolLiteral _ | IntLiteral _ | AtomicTypeLiteral _ => []
  | VarReference _ name is_global_function _ =>
      if is_global_function then [] else [name]
  | PointerTypeExpr t => get_free_variables t
  | EqualityComparison l r => get_free_variables l ++ get_free_variables r
  | NotExpr x => get_free_variables x
  | ListExpr _ elems => concat (map get_free_variables elems)
  | MatchExpr matched _ => concat (map get_free_variables matched)
  end.

Definition is_var (e : Tree) : bool :=
  match e with VarReference _ _ _ _ => true | _ => false end.

Inductive Statement : Type :=
| AssertStmt (expr : Tree) (message : string)
| ReturnStmt (expr : Tree)
| Assignment (name : string) (rhs : Tree)
| IfStmt (cond : Tree) (if_stmts else_stmts : list Statement).

(** A [return] always returns; an [if] always returns when both its branches
    end in a statement that does; the other statements never return. *)
Fixpoint get_return_type (s : Statement) : ReturnTypeInfo :=
  match s with
  | ReturnStmt e => mkReturnTypeInfo (Some (type_of e)) true
  | IfStmt _ if_stmts else_stmts =>
      let of_last :=
        fix of_last (stmts : list Statement) : ReturnTypeInfo :=
          match stmts with
          | [] => mkReturnTypeInfo None false
          | [stmt] => get_return_type stmt
          | _ :: rest => of_last rest
          end in
      let if_info := of_last if_stmts in
      let else_info := of_last else_stmts in
      mkReturnTypeInfo
        (match return_type if_info with
         | Some t => Some t
         | None => return_type else_info
         end)
        (always_returns if_info && always_returns else_info)
  | AssertStmt _ _ | Assignment _ _ => mkReturnTypeInfo None false
  end.

Fixpoint str_type (t : ExprType) : string :=
  match t with
  | BoolType => "bool"
  | IntType => "int"
  | TypeType => "Type"
  | BottomType => "BottomType"
  | ListType e => "List[" +:+ str_type e +:+ "]"
  | SetType e => "Set[" +:+ str_type e +:+ "]"
  | FunctionType _ _ => "Callable"
  | CustomType name _ _ _ => name
  end.

#[global] Instance nodes : Nodes := {|
  Expr := Tree;
  Stmt := Statement;
  MatchCase := Case;
  ir3.type_of := type_of;
  ir3.get_free_variables := get_free_variables;
  ir3.get_return_type := get_return_type;
  ir3.str_type := str_type;
  ir3.IntLiteral := IntLiteral;
  ir3.EqualityComparison := EqualityComparison;
  ir3.NotExpr := NotExpr;
  ir3.ListExpr := ListExpr;
  MatchCase_init := fun names patterns result => (elements names, patterns, result);
  is_main_definition := fun c => forallb is_var (snd (fst c));
  ir3.MatchExpr := MatchExpr;
  Assert := AssertStmt
|}.

End ir3_tree.

(** * Properties of the IR-high types *)
Module ir3_properties.
Import ir3.

(** Induction on types that reaches the argument types of a function and the
    field types of a custom type. *)
Fixpoint ExprType_nested_ind (P : ExprType -> Prop)
    (HBool : P BoolType) (HInt : P IntType) (HType : P TypeType)
    (HBottom : P BottomType)
    (HList : forall e, P e -> P (ListType e))
    (HSet : forall e, P e -> P (SetType e))
    (HFun : forall args ret, Forall P args -> P ret -> P (FunctionType args ret))
    (HCustom : forall name fields exc msg,
        Forall (fun d => P (decl_type d)) fields -> P (CustomType name fields exc msg))
    (t : ExprType) {struct t} : P t :=
  let rec := ExprType_nested_ind P HBool HInt HType HBottom HList HSet HFun HCustom in
  match t with
  | BoolType => HBool
  | IntType => HInt
  | TypeType => HType
  | BottomType => HBottom
  | ListType e => HList e (rec e)
  | SetType e => HSet e (rec e)
  | FunctionType args ret =>
      HFun args ret
        ((fix all (l : list ExprType) : Forall P l :=
            match l with
            | [] => @Stdlib.Lists.List.Forall_nil _ P
            | x :: l' => @Stdlib.Lists.List.Forall_cons _ P x l' (rec x) (all l')
            end) args)
        (rec ret)
  | CustomType name fields exc msg =>
      HCustom name fields exc msg
        ((fix all (l : list CustomTypeArgDecl) : Forall (fun d => P (decl_type d)) l :=
            match l with
            | [] => @Stdlib.Lists.List.Forall_nil _ _
            | d :: l' =>
                @Stdlib.Lists.List.Forall_cons _ (fun d => P (decl_type d)) d l'
                  (match d return P (decl_type d) with
                   | mkCustomTypeArgDecl _ ty => rec ty
                   end)
                  (all l')
            end) fields)
  end.

Lemma option_string_eqb_spec a b : option_string_eqb a b = true <-> a = b.
Proof.
  destruct a as [x|], b as [y|]; simpl; try (split; congruence).
  rewrite String.eqb_eq. split; congruence.
Qed.

(** [==] on types is structural equality. *)
Lemma ExprType_eqb_spec a : forall b, ExprType_eqb a b = true <-> a = b.
Proof.
  induction a using ExprType_nested_ind; intros b; destruct b; simpl;
    try (split; [discriminate|discriminate]); try (split; reflexivity).
  - rewrite IHa. split; congruence.
  - rewrite IHa. split; congruence.
  - rewrite andb_true_iff, IHa.
    assert (Hargs : forall ys,
      (fix go (xs ys : list ExprType) {struct xs} : bool :=
         match xs, ys with
         | [], [] => true
         | x :: xs', y :: ys' => ExprType_eqb x y && go xs' ys'
         | _, _ => false
         end) args ys = true <-> args = ys).
    { induction H as [|x xs Hx _ IHxs]; intros [|y ys]; simpl;
        try (split; [discriminate|discriminate]); try (split; reflexivity).
      rewrite andb_true_iff, Hx, IHxs. split; [intros [-> ->]; reflexivity|].
      intros E; injection E; auto. }
    rewrite Hargs. split; [intros [-> ->]; reflexivity|].
    intros E; injection E; auto.
  - rewrite !andb_true_iff, String.eqb_eq, Bool.eqb_true_iff, option_string_eqb_spec.
    assert (Hfields : forall ys,
      (fix go (xs ys : list CustomTypeArgDecl) {struct xs} : bool :=
         match xs, ys with
         | [], [] => true
         | mkCustomTypeArgDecl nx tx :: xs', mkCustomTypeArgDecl ny ty :: ys' =>
             String.eqb nx ny && ExprType_eqb tx ty && go xs' ys'
         | _, _ => false
         end) fields ys = true <-> fields = ys).
    { induction H as [|[nx tx] xs Hx _ IHxs]; intros [|[ny ty] ys]; simpl;
        try (split; [discriminate|discriminate]); try (split; reflexivity).
      simpl in Hx.
      rewrite !andb_true_iff, String.eqb_eq, Hx, IHxs.
      split; [intros [[-> ->] ->]; reflexivity|].
      intros E; injection E; auto. }
    rewrite Hfields. split; [intros [[[-> ->] ->] ->]; reflexivity|].
    intros E; injection E; auto.
Qed.

Lemma ExprType_eqb_refl a : ExprType_eqb a a = true.
Proof. apply ExprType_eqb_spec. reflexivity. Qed.

Lemma ExprType_eqb_neq a b : ExprType_eqb a b = false <-> a <> b.
Proof.
  rewrite <- ExprType_eqb_spec. destruct (ExprType_eqb a b); split; congruence.
Qed.

End ir3_properties.

(** * Properties of the front-end elaborator *)
Module ast_to_ir3_properties.
Import ast ast_to_ir3.

(** A context for the examples: one source line, no symbol. *)
Definition example_context (line : string) (function_name : option string)
  : CompilationContext :=
  mkCompilationContext (mkSymbolTable ∅ None) (mkSymbolTable ∅ None) ∅
    "example.py" [line] function_name.

Definition no_check : VarReferenceCheck := fun _ => Ok tt.

(** ** Integer literals *)

(** The value of the literal: [n], or [-n] under a unary minus. *)
Definition literal_value (n : Z) (positive : bool) : Z :=
  if positive then n else - n.

(** C4, as the code has it.  An integer literal elaborates to the
    [IntLiteral] of its value exactly when the value lies between
    [-(2^63-1)] and [2^63-1], both bounds included, and raises a compilation
    error otherwise; every floating-point and every complex literal raises a
    compilation error. *)
Theorem number_literal_range {N : ir3.Nodes} (n : Z)
    (compilation_context : CompilationContext) (in_match_pattern : bool)
    (check_var_reference : VarReferenceCheck) (positive : bool) :
  let v := literal_value n positive in
  let elaborate node :=
    number_literal_expression_ast_to_ir3 node compilation_context in_match_pattern
      check_var_reference positive in
  (elaborate (Num (PyInt n)) = Ok (ir3.IntLiteral v)
   <-> - (2 ^ 63 - 1) <= v <= 2 ^ 63 - 1)
  /\ (~ (- (2 ^ 63 - 1) <= v <= 2 ^ 63 - 1) ->
      exists message,
        elaborate (Num (PyInt n)) = Raise (CompilationError (Num (PyInt n)) message []))
  /\ (forall bits,
        exists message,
          elaborate (Num (PyFloat bits))
          = Raise (CompilationError (Num (PyFloat bits)) message []))
  /\ (forall re im,
        exists message,
          elaborate (Num (PyComplex re im))
          = Raise (CompilationError (Num (PyComplex re im)) message [])).
Proof.
  intros v elaborate. subst elaborate. unfold number_literal_expression_ast_to_ir3.
  assert (Hv : (if negb positive then - n else n) = v)
    by (unfold v, literal_value; destruct positive; reflexivity).
  cbv zeta. rewrite Hv. change (2 ^ 63) with 9223372036854775808.
  split; [|split; [|split]].
  - destruct (Z.leb_spec v (Z.opp 9223372036854775808));
      [split; [intros E; discriminate E|lia]|].
    destruct (Z.leb_spec 9223372036854775808 v);
      [split; [intros E; discriminate E|lia]|].
    split; [lia|reflexivity].
  - intros Hout.
    destruct (Z.leb_spec v (Z.opp 9223372036854775808)); [eexists; reflexivity|].
    destruct (Z.leb_spec 9223372036854775808 v); [eexists; reflexivity|]. lia.
  - intros bits. eexists; reflexivity.
  - intros re im. eexists; reflexivity.
Qed.

(** C4, as stated, fails at both ends of the interval: [2^63-1] and
    [-(2^63-1)] are not strictly inside [[-(2^63-1), 2^63-1]], and both
    elaborate to an [IntLiteral]. *)
Lemma number_literal_accepts_interval_ends :
  number_literal_expression_ast_to_ir3 (N := ir3_tree.nodes)
    (Num (PyInt (2 ^ 63 - 1))) (example_context "x = 9223372036854775807" None)
    false no_check true
  = Ok (ir3_tree.IntLiteral (2 ^ 63 - 1))
  /\ number_literal_expression_ast_to_ir3 (N := ir3_tree.nodes)
       (Num (PyInt (2 ^ 63 - 1))) (example_context "x = -9223372036854775807" None)
       false no_check false
     = Ok (ir3_tree.IntLiteral (- (2 ^ 63 - 1)))
  /\ ~ (- (2 ^ 63 - 1) < 2 ^ 63 - 1 < 2 ^ 63 - 1)
  /\ ~ (- (2 ^ 63 - 1) < - (2 ^ 63 - 1) < 2 ^ 63 - 1).
Proof. repeat split; try reflexivity; lia. Qed.

(** The values next to the interval are rejected. *)
Example number_literal_rejects_int64_min :
  is_CompilationError
    (number_literal_expression_ast_to_ir3 (N := ir3_tree.nodes)
       (Num (PyInt (2 ^ 63))) (example_context "x = -9223372036854775808" None)
       false no_check false) = true
  /\ is_CompilationError
       (number_literal_expression_ast_to_ir3 (N := ir3_tree.nodes)
          (Num (PyInt (2 ^ 63))) (example_context "x = 9223372036854775808" None)
          false no_check true) = true.
Proof. split; reflexivity. Qed.

(** ** Assertion messages *)

(** The second [replace] of [assert_ast_to_ir3] changes nothing. *)
Lemma replace_dquote_by_dquote (s : string) : replace_char "034"%char dquote s = s.
Proof.
  induction s as [|c s IH]; [reflexivity|]. simpl.
  destruct (Ascii.eqb c "034"%char) eqn:E.
  - apply Ascii.eqb_eq in E. subst c. unfold dquote.
    change (String "034"%char (replace_char "034"%char (String "034"%char EmptyString) s)
            = String "034"%char s).
    f_equal. exact IH.
  - f_equal. exact IH.
Qed.

(** Whether the text has a double quote that no backslash escapes. *)
Fixpoint has_unescaped_dquote (s : string) : bool :=
  match s with
  | EmptyString => false
  | String c rest =>
      if Ascii.eqb c "092"%char then
        match rest with
        | EmptyString => false
        | String _ rest' => has_unescaped_dquote rest'
        end
      else if Ascii.eqb c "034"%char then true
      else has_unescaped_dquote rest
  end.

(** The message [say "hi"]. *)
Definition say_hi : string := "say " +:+ dquote +:+ "hi" +:+ dquote.

(** The source line [assert ok, 'say "hi"']. *)
Definition assert_say_hi_line : string := "assert ok, 'say " +:+ dquote +:+ "hi" +:+ dquote +:+ "'".

Definition ok_is_bool : AST -> CompilationContext -> bool -> VarReferenceCheck
                        -> Result Error ir3_tree.Tree :=
  fun _ _ _ _ => Ok (ir3_tree.VarReference ir3.BoolType "ok" false false).

(** C5, at an input where the code departs from it.  For the statement
    [assert ok, 'say "hi"'] on line 1, the message of the elaborated [Assert]
    has its newline escaped and its double quotes left as they are. *)
Theorem assert_message_keeps_double_quotes :
  assert_ast_to_ir3 (N := ir3_tree.nodes) ok_is_bool
    (Assert (Name "ok" Load) (Some (Str say_hi)) 1)
    (example_context assert_say_hi_line (Some "f"))
  = Ok (ir3_tree.AssertStmt (ir3_tree.VarReference ir3.BoolType "ok" false false)
          ("TMPPy assertion failed: say " +:+ dquote +:+ "hi" +:+ dquote
           +:+ backslash +:+ "nexample.py:1: assert ok, 'say "
           +:+ dquote +:+ "hi" +:+ dquote +:+ "'"))
  /\ has_unescaped_dquote
       ("TMPPy assertion failed: say " +:+ dquote +:+ "hi" +:+ dquote
        +:+ backslash +:+ "nexample.py:1: assert ok, 'say "
        +:+ dquote +:+ "hi" +:+ dquote +:+ "'") = true.
Proof. split; reflexivity. Qed.

(** Backslashes and newlines are escaped. *)
Example assert_message_escapes_backslash_and_newline :
  assert_ast_to_ir3 (N := ir3_tree.nodes) ok_is_bool
    (Assert (Name "ok" Load) (Some (Str ("a" +:+ backslash +:+ "b" +:+ nl +:+ "c"))) 1)
    (example_context "assert ok, 'a\\b\nc'" (Some "f"))
  = Ok (ir3_tree.AssertStmt (ir3_tree.VarReference ir3.BoolType "ok" false false)
          ("TMPPy assertion failed: a" +:+ backslash +:+ backslash +:+ "b"
           +:+ backslash +:+ "nc" +:+ backslash
           +:+ "nexample.py:1: assert ok, 'a" +:+ backslash +:+ backslash
           +:+ backslash +:+ backslash +:+ "b" +:+ backslash +:+ backslash +:+ "nc'")).
Proof. reflexivity. Qed.

(** ** Equality *)

Section Equality.
Context {N : ir3.Nodes}.
Variable expression_ast_to_ir3 :
  AST -> CompilationContext -> bool -> VarReferenceCheck -> Result Error ir3.Expr.

(** Every field type is structural-equality-supported. *)
Definition all_fields_structural (fields : list ir3.CustomTypeArgDecl) : Prop :=
  Forall (fun d => _is_structural_equality_check_supported_for_type (ir3.decl_type d)
                   = Ok true) fields.

Lemma structural_custom_fields name fields exc msg :
  _is_structural_equality_check_supported_for_type (ir3.CustomType name fields exc msg)
    = Ok true
  <-> all_fields_structural fields.
Proof.
  unfold all_fields_structural. simpl.
  induction fields as [|[n t] fields IH].
  - split; [constructor|reflexivity].
  - destruct (_is_structural_equality_check_supported_for_type t) as [[]|e] eqn:E.
    + rewrite IH. split.
      * intros H. constructor; [exact E|exact H].
      * intros H. inversion H; assumption.
    + split; [discriminate|]. intros H. inversion H as [|? ? Hd _]. simpl in Hd. congruence.
    + split; [discriminate|]. intros H. inversion H as [|? ? Hd _]. simpl in Hd. congruence.
Qed.

(** C6, as the code has it.  For operands of one type, [==] and [!=]
    elaborate exactly when [_is_equality_check_supported_for_type] returns
    [True] for it.  [Bool], [Int] and [Type] are supported; a list is supported
    exactly when its element type is structural-equality-supported, and so is
    a set; no set is structural-equality-supported, so neither a set of sets
    nor a list of sets is supported; a custom type is supported exactly when
    every field type is structural-equality-supported; a function type never
    is. *)
Theorem equality_supported_types (lhs_node rhs_node : AST)
    (compilation_context : CompilationContext) (check_var_reference : VarReferenceCheck)
    (lhs rhs : ir3.Expr) :
  expression_ast_to_ir3 lhs_node compilation_context false check_var_reference = Ok lhs ->
  expression_ast_to_ir3 rhs_node compilation_context false check_var_reference = Ok rhs ->
  ir3.type_of lhs = ir3.type_of rhs ->
  let supported := _is_equality_check_supported_for_type in
  let structural := _is_structural_equality_check_supported_for_type in
  (eq_ast_to_ir3 expression_ast_to_ir3 lhs_node rhs_node compilation_context false
     check_var_reference = Ok (ir3.EqualityComparison lhs rhs)
   <-> supported (ir3.type_of lhs) = Ok true)
  /\ (not_eq_ast_to_ir3 expression_ast_to_ir3 lhs_node rhs_node compilation_context false
        check_var_reference = Ok (ir3.NotExpr (ir3.EqualityComparison lhs rhs))
      <-> supported (ir3.type_of lhs) = Ok true)
  /\ (supported (ir3.type_of lhs) <> Ok true ->
      is_ok (eq_ast_to_ir3 expression_ast_to_ir3 lhs_node rhs_node compilation_context
               false check_var_reference) = false
      /\ is_ok (not_eq_ast_to_ir3 expression_ast_to_ir3 lhs_node rhs_node
                  compilation_context false check_var_reference) = false)
  /\ supported ir3.BoolType = Ok true
  /\ supported ir3.IntType = Ok true
  /\ supported ir3.TypeType = Ok true
  /\ (forall elem_type, supported (ir3.ListType elem_type) = structural elem_type)
  /\ (forall elem_type, supported (ir3.SetType elem_type) = structural elem_type)
  /\ (forall elem_type, structural (ir3.SetType elem_type) = Ok false)
  /\ (forall elem_type, supported (ir3.SetType (ir3.SetType elem_type)) = Ok false)
  /\ (forall elem_type, supported (ir3.ListType (ir3.SetType elem_type)) = Ok false)
  /\ (forall name fields exc msg,
        supported (ir3.CustomType name fields exc msg) = Ok true
        <-> all_fields_structural fields)
  /\ (forall argtypes returns, supported (ir3.FunctionType argtypes returns) = Ok false).
Proof.
  intros Hl Hr Hty supported structural.
  assert (Heq : eq_ast_to_ir3 expression_ast_to_ir3 lhs_node rhs_node compilation_context
                  false check_var_reference
                = match supported (ir3.type_of lhs) with
                  | Ok true => Ok (ir3.EqualityComparison lhs rhs)
                  | Ok false =>
                      Raise (CompilationError lhs_node
                               ("Type not supported in equality comparison: "
                                +:+ ir3.str_type (ir3.type_of lhs)) [])
                  | Raise e => Raise e
                  end).
  { unfold eq_ast_to_ir3. simpl. rewrite Hl, Hr. simpl.
    rewrite <- Hty, ir3_properties.ExprType_eqb_refl. simpl.
    subst supported. destruct (_is_equality_check_supported_for_type _) as [[]|];
      reflexivity. }
  assert (Hne : not_eq_ast_to_ir3 expression_ast_to_ir3 lhs_node rhs_node
                  compilation_context false check_var_reference
                = match supported (ir3.type_of lhs) with
                  | Ok true => Ok (ir3.NotExpr (ir3.EqualityComparison lhs rhs))
                  | Ok false =>
                      Raise (CompilationError lhs_node
                               ("Type not supported in equality comparison: "
                                +:+ ir3.str_type (ir3.type_of lhs)) [])
                  | Raise e => Raise e
                  end).
  { unfold not_eq_ast_to_ir3. simpl. rewrite Hl, Hr. simpl.
    rewrite <- Hty, ir3_properties.ExprType_eqb_refl. simpl.
    subst supported. destruct (_is_equality_check_supported_for_type _) as [[]|];
      reflexivity. }
  rewrite Heq, Hne.
  split; [|split; [|split]].
  - destruct (supported (ir3.type_of lhs)) as [[]|]; split; congruence.
  - destruct (supported (ir3.type_of lhs)) as [[]|]; split; congruence.
  - destruct (supported (ir3.type_of lhs)) as [[]|]; intros H; try congruence;
      split; reflexivity.
  - repeat split; try reflexivity.
    + apply structural_custom_fields.
    + apply structural_custom_fields.
Qed.

End Equality.

Definition int_operand : AST -> CompilationContext -> bool -> VarReferenceCheck
                         -> Result Error ir3_tree.Tree :=
  fun _ _ _ _ => Ok (ir3_tree.IntLiteral 1).

(** [1 == 1] elaborates. *)
Lemma equality_supported_types_witness :
  eq_ast_to_ir3 (N := ir3_tree.nodes) int_operand (Num (PyInt 1)) (Num (PyInt 1))
    (example_context "assert 1 == 1" None) false no_check
  = Ok (ir3_tree.EqualityComparison (ir3_tree.IntLiteral 1) (ir3_tree.IntLiteral 1)).
Proof.
  apply (equality_supported_types (N := ir3_tree.nodes) int_operand
           (Num (PyInt 1)) (Num (PyInt 1)) (example_context "assert 1 == 1" None)
           no_check (ir3_tree.IntLiteral 1) (ir3_tree.IntLiteral 1)
           eq_refl eq_refl eq_refl).
  reflexivity.
Defined.

(** C6, as stated, fails on lists of sets: [Set[int]] is supported for
    equality, and [List[Set[int]]], a list of a supported element type, is
    not. *)
Lemma list_of_sets_is_not_supported :
  _is_equality_check_supported_for_type (ir3.SetType ir3.IntType) = Ok true
  /\ _is_equality_check_supported_for_type (ir3.ListType (ir3.SetType ir3.IntType))
     = Ok false.
Proof. split; reflexivity. Qed.

Definition list_of_sets_operand : AST -> CompilationContext -> bool -> VarReferenceCheck
                                  -> Result Error ir3_tree.Tree :=
  fun _ _ _ _ =>
    Ok (ir3_tree.VarReference (ir3.ListType (ir3.SetType ir3.IntType)) "xs" false false).

(** Comparing two such lists is a compilation error. *)
Example list_of_sets_comparison_is_rejected :
  is_CompilationError
    (eq_ast_to_ir3 (N := ir3_tree.nodes) list_of_sets_operand (Name "xs" Load)
       (Name "xs" Load) (example_context "return xs == xs" (Some "f")) false no_check)
  = true.
Proof. reflexivity. Qed.

(** ** List displays *)

Section ListDisplay.
Context {N : ir3.Nodes}.
Variable expression_ast_to_ir3 :
  AST -> CompilationContext -> bool -> VarReferenceCheck -> Result Error ir3.Expr.

Lemma mapM_length {E A B : Type} (f : A -> Result E B) (xs : list A) (ys : list B) :
  mapM f xs = Ok ys -> length ys = length xs.
Proof.
  revert ys. induction xs as [|x xs IH]; intros ys H; simpl in H.
  - injection H as <-. reflexivity.
  - destruct (f x) as [y|e]; simpl in H; [|discriminate].
    destruct (mapM f xs) as [ys'|e]; simpl in H; [|discriminate].
    injection H as <-. simpl. f_equal. apply IH. reflexivity.
Qed.

(** The three ways elaboration of a non-empty list display ends once its
    elements are elaborated. *)
Inductive after_empty_check (ast_node : AST) (elem_exprs : list ir3.Expr)
  : Result Error ir3.Expr -> Prop :=
| list_built elem_type :
    after_empty_check ast_node elem_exprs (Ok (ir3.ListExpr elem_type elem_exprs))
| element_types_differ node message notes :
    String.get 0 message = Some "F"%char ->
    after_empty_check ast_node elem_exprs (Raise (CompilationError node message notes))
| list_of_functions message :
    String.get 0 message = Some "C"%char ->
    after_empty_check ast_node elem_exprs (Raise (CompilationError ast_node message [])).

Lemma foldM_unit_result {A : Type} (f : unit -> A -> Result Error unit) (xs : list A)
    (P : Error -> Prop) :
  (forall x e, f tt x = Raise e -> P e) ->
  match foldM f xs tt with
  | Ok _ => True
  | Raise e => P e
  end.
Proof.
  intros Hf. induction xs as [|x xs IH]; simpl; [exact I|].
  destruct (f tt x) as [[]|e] eqn:E; simpl; [exact IH|]. exact (Hf x e E).
Qed.

(** C10.  A list display with no element raises the compilation error that
    points to [empty_list], whatever the context; a list display with at least
    one element either passes on the exception of one of its elements, or gets
    past the emptiness check: it then builds the list, or raises one of the two
    later errors (element types differ, list of functions), whose messages
    start differently from that of the empty list. *)
Theorem empty_list_display_is_rejected
    (compilation_context : CompilationContext) (in_match_pattern : bool)
    (check_var_reference : VarReferenceCheck) (ctx : expr_context) :
  let elaborate node :=
    list_expression_ast_to_ir3 expression_ast_to_ir3 node compilation_context
      in_match_pattern check_var_reference in
  let elements elts :=
    mapM (fun node => expression_ast_to_ir3 node compilation_context in_match_pattern
                        check_var_reference) elts in
  elaborate (List [] ctx)
    = Raise (CompilationError (List [] ctx) untyped_empty_list_message [])
  /\ String.get 0 untyped_empty_list_message = Some "U"%char
  /\ forall first rest,
       (exists e, elements (first :: rest) = Raise e
                  /\ elaborate (List (first :: rest) ctx) = Raise e)
       \/ (exists elem_exprs,
             elements (first :: rest) = Ok elem_exprs
             /\ length elem_exprs = S (length rest)
             /\ after_empty_check (List (first :: rest) ctx) elem_exprs
                  (elaborate (List (first :: rest) ctx))).
Proof.
  intros elaborate elements. split; [reflexivity|]. split; [reflexivity|].
  intros first rest. subst elaborate. unfold list_expression_ast_to_ir3.
  fold (elements (first :: rest)).
  destruct (elements (first :: rest)) as [elem_exprs|e] eqn:E.
  - right. exists elem_exprs. split; [reflexivity|].
    pose proof (mapM_length _ _ _ E) as Hlen. simpl in Hlen.
    split; [exact Hlen|].
    destruct elem_exprs as [|x elem_exprs]; [discriminate Hlen|].
    rewrite bind_Ok. cbv beta iota zeta.
    match goal with
    | |- context [foldM ?f ?xs tt] =>
        pose proof (foldM_unit_result f xs
          (fun e => exists node message notes,
             e = CompilationError node message notes
             /\ String.get 0 message = Some "F"%char)) as Hloop
    end.
    match type of Hloop with
    | ?A -> _ => assert (Hstep : A)
    end.
    { intros [elem_expr elem_node] e0 He0. simpl in He0.
      destruct (negb _); [|discriminate He0].
      injection He0 as <-. do 3 eexists. split; [reflexivity|]. reflexivity. }
    specialize (Hloop Hstep).
    destruct (foldM _ _ tt) as [[]|e0]; [rewrite bind_Ok|rewrite bind_Raise].
    + destruct (ir3.is_FunctionType (ir3.type_of x)).
      * apply list_of_functions. reflexivity.
      * apply list_built.
    + destruct Hloop as (node & message & notes & -> & Hmsg).
      apply element_types_differ. exact Hmsg.
  - left. exists e. split; reflexivity.
Qed.

End ListDisplay.

(** ** Branch merge *)

Section BranchMerge.
Context {N : ir3.Nodes}.
Variable set_iteration_order : gset string -> list string.

(** Iterating over a set visits each of its elements once. *)
Definition visits_each_element_once : Prop :=
  forall s : gset string,
    NoDup (set_iteration_order s) /\ forall x, x ∈ set_iteration_order s <-> x ∈ s.

(** What a branch contributes to the merge: nothing if it always returns, the
    symbols of its own scope otherwise. *)
Definition considered (branch_return_info : ir3.ReturnTypeInfo)
    (branch_context : CompilationContext) : gmap string (Symbol * AST * bool) :=
  if ir3.always_returns branch_return_info then ∅
  else symbols_by_name (symbol_table branch_context).

(** [branch2_return_info], as [_join_definitions_in_branches] computes it. *)
Definition branch2_info (branch2_stmts : list ir3.Stmt) : Result Error ir3.ReturnTypeInfo :=
  match branch2_stmts with
  | [] => Ok (ir3.mkReturnTypeInfo None false)
  | _ => last_return_info branch2_stmts
  end.

(** A symbol table as [add_symbol] builds it: each symbol is filed under its
    own name. *)
Definition filed_by_name (m : gmap string (Symbol * AST * bool)) : Prop :=
  forall key symbol node partially,
    m !! key = Some (symbol, node, partially) -> Symbol_name symbol = key.

(** [name] is defined nowhere [_check_not_already_defined] looks. *)
Definition not_defined (context : CompilationContext) (name : string) : Prop :=
  SymbolTable_get_symbol_definition (symbol_table context) name = None
  /\ SymbolTable_get_symbol_definition (custom_types_symbol_table context) name = None
  /\ partially_typechecked_function_definitions_by_name context !! name = None.

(** The symbol [add_symbol] files in the parent for a symbol of a branch. *)
Definition merged_symbol (symbol : Symbol) : Symbol :=
  mkSymbol (Symbol_type symbol) (Symbol_name symbol)
    (ir3.is_FunctionType (Symbol_type symbol)).

(** The entry the merge adds for a name, from the entries the two branches
    contribute for it. *)
Definition merged_entry (branch1_always_returns branch2_always_returns : bool)
    (entry1 entry2 : option (Symbol * AST * bool)) : option (Symbol * AST * bool) :=
  match entry1, entry2 with
  | Some (symbol1, node1, partially1), Some (_, _, partially2) =>
      Some (merged_symbol symbol1, node1, partially1 || partially2)
  | Some (symbol1, node1, partially1), None =>
      Some (merged_symbol symbol1, node1,
            if branch2_always_returns then partially1 else true)
  | None, Some (symbol2, node2, partially2) =>
      Some (merged_symbol symbol2, node2,
            if branch1_always_returns then partially2 else true)
  | None, None => None
  end.

(** The two branches contribute [name] with different types. *)
Definition conflicting (entry1 entry2 : option (Symbol * AST * bool)) : bool :=
  match entry1, entry2 with
  | Some (symbol1, _, _), Some (symbol2, _, _) =>
      negb (ir3.ExprType_eqb (Symbol_type symbol1) (Symbol_type symbol2))
  | _, _ => false
  end.

(** [context] with the symbols of its own scope replaced. *)
Definition with_symbols (context : CompilationContext)
    (m : gmap string (Symbol * AST * bool)) : CompilationContext :=
  mkCompilationContext
    (mkSymbolTable m (parent (symbol_table context)))
    (custom_types_symbol_table context)
    (partially_typechecked_function_definitions_by_name context)
    (filename context) (source_lines context) (current_function_name context).

Lemma branch_symbol_considered info context name :
  branch_symbol info context name = considered info context !! name.
Proof.
  unfold branch_symbol, considered.
  destruct (ir3.always_returns info); simpl; [rewrite lookup_empty; reflexivity|].
  destruct (bool_decide (name ∈ dom (symbols_by_name (symbol_table context)))) eqn:E;
    simpl; [reflexivity|].
  apply bool_decide_eq_false in E. apply not_elem_of_dom in E. symmetry. exact E.
Qed.

Lemma get_symbol_definition_None m p name :
  SymbolTable_get_symbol_definition (mkSymbolTable m p) name = None
  <-> m !! name = None
      /\ match p with
         | Some t => SymbolTable_get_symbol_definition t name = None
         | None => True
         end.
Proof.
  simpl. destruct (m !! name) as [[[s n] b]|].
  - split; [discriminate|]. intros [H _]. discriminate H.
  - destruct p; split; auto; intros [_ H]; exact H.
Qed.

Lemma not_defined_with_symbols context m name :
  not_defined context name -> m !! name = None ->
  not_defined (with_symbols context m) name.
Proof.
  intros (Hs & Hc & Hp) Hm. unfold not_defined, with_symbols. simpl.
  split; [|split; assumption].
  destruct (symbol_table context) as [m0 p0].
  apply get_symbol_definition_None in Hs as [_ Hs].
  rewrite Hm. destruct p0; [exact Hs|reflexivity].
Qed.

Lemma not_defined_own_scope context name :
  not_defined context name -> symbols_by_name (symbol_table context) !! name = None.
Proof.
  intros (Hs & _). destruct (symbol_table context) as [m0 p0].
  apply get_symbol_definition_None in Hs as [Hs _]. exact Hs.
Qed.

Lemma add_symbol_not_defined context name type node partially :
  not_defined context name ->
  add_symbol context name type node partially (ir3.is_FunctionType type)
  = Ok (with_symbols context
          (<[name := (mkSymbol type name (ir3.is_FunctionType type), node, partially)]>
             (symbols_by_name (symbol_table context)))).
Proof.
  intros (Hs & Hc & Hp). unfold add_symbol, _check_not_already_defined.
  rewrite Hs, Hc, Hp. unfold SymbolTable_add_symbol, Symbol_init.
  destruct (ir3.is_FunctionType type); reflexivity.
Qed.

Section Join.
Variables (info1 info2 : ir3.ReturnTypeInfo) (branch1 branch2 : CompilationContext).

Let c1 := considered info1 branch1.
Let c2 := considered info2 branch2.

Hypothesis filed1 : filed_by_name (symbols_by_name (symbol_table branch1)).
Hypothesis filed2 : filed_by_name (symbols_by_name (symbol_table branch2)).

Lemma considered_filed1 : filed_by_name c1.
Proof.
  unfold c1, considered. destruct (ir3.always_returns info1); [|exact filed1].
  intros k s n p H. rewrite lookup_empty in H. discriminate H.
Qed.

Lemma considered_filed2 : filed_by_name c2.
Proof.
  unfold c2, considered. destruct (ir3.always_returns info2); [|exact filed2].
  intros k s n p H. rewrite lookup_empty in H. discriminate H.
Qed.

(** One iteration of the loop on a name that is not defined in the parent. *)
Lemma join_symbol_step context name :
  not_defined context name ->
  is_Some (c1 !! name) \/ is_Some (c2 !! name) ->
  (conflicting (c1 !! name) (c2 !! name) = true
   /\ is_CompilationError (join_symbol info1 branch1 info2 branch2 context name) = true)
  \/ (conflicting (c1 !! name) (c2 !! name) = false
      /\ exists entry,
           merged_entry (ir3.always_returns info1) (ir3.always_returns info2)
             (c1 !! name) (c2 !! name) = Some entry
           /\ join_symbol info1 branch1 info2 branch2 context name
              = Ok (with_symbols context
                      (<[name := entry]> (symbols_by_name (symbol_table context))))).
Proof.
  intros Hfresh Hsome. unfold join_symbol.
  rewrite !branch_symbol_considered. fold c1 c2.
  destruct (c1 !! name) as [[[s1 n1] p1]|] eqn:E1;
    destruct (c2 !! name) as [[[s2 n2] p2]|] eqn:E2; simpl.
  - destruct (negb (ir3.ExprType_eqb (Symbol_type s1) (Symbol_type s2))) eqn:Ht.
    + left. split; reflexivity.
    + right. split; [reflexivity|]. eexists. split; [reflexivity|].
      rewrite bind_Ok. cbv beta iota zeta.
      rewrite (considered_filed1 _ _ _ _ E1).
      rewrite add_symbol_not_defined by assumption.
      unfold merged_symbol. rewrite (considered_filed1 _ _ _ _ E1). reflexivity.
  - right. split; [reflexivity|]. eexists. split; [reflexivity|].
    rewrite (considered_filed1 _ _ _ _ E1).
    rewrite add_symbol_not_defined by assumption.
    unfold merged_symbol. rewrite (considered_filed1 _ _ _ _ E1). reflexivity.
  - right. split; [reflexivity|]. eexists. split; [reflexivity|].
    rewrite (considered_filed2 _ _ _ _ E2).
    rewrite add_symbol_not_defined by assumption.
    unfold merged_symbol. rewrite (considered_filed2 _ _ _ _ E2). reflexivity.
  - destruct Hsome as [[? H]|[? H]]; discriminate H.
Qed.

(** The symbols of the parent after the loop went through [names]. *)
Fixpoint merge_into (names : list string) (m : gmap string (Symbol * AST * bool))
  : gmap string (Symbol * AST * bool) :=
  match names with
  | [] => m
  | name :: rest =>
      match merged_entry (ir3.always_returns info1) (ir3.always_returns info2)
              (c1 !! name) (c2 !! name) with
      | Some entry => merge_into rest (<[name := entry]> m)
      | None => merge_into rest m
      end
  end.

Lemma merge_into_lookup names : forall m x,
  NoDup names ->
  merge_into names m !! x
  = if bool_decide (x ∈ names) then
      match merged_entry (ir3.always_returns info1) (ir3.always_returns info2)
              (c1 !! x) (c2 !! x) with
      | Some entry => Some entry
      | None => m !! x
      end
    else m !! x.
Proof.
  induction names as [|name rest IH]; intros m x Hnd; cbn [merge_into].
  - rewrite bool_decide_eq_false_2; [reflexivity|]. apply not_elem_of_nil.
  - apply NoDup_cons in Hnd as [Hnotin Hnd].
    destruct (decide (x = name)) as [->|Hne].
    + rewrite (bool_decide_eq_true_2 (name ∈ name :: rest)) by apply list_elem_of_here.
      destruct (merged_entry _ _ (c1 !! name) (c2 !! name)) as [entry|] eqn:Em;
        rewrite IH by assumption;
        rewrite (bool_decide_eq_false_2 (name ∈ rest)) by assumption;
        [apply lookup_insert_eq|reflexivity].
    + assert (Hiff : bool_decide (x ∈ name :: rest) = bool_decide (x ∈ rest)).
      { apply bool_decide_ext. rewrite elem_of_cons. tauto. }
      rewrite Hiff.
      destruct (merged_entry _ _ (c1 !! name) (c2 !! name)) as [entry|] eqn:Em;
        rewrite IH by assumption; [|reflexivity].
      rewrite lookup_insert_ne by congruence. reflexivity.
Qed.

Lemma join_fold names : forall context,
  NoDup names ->
  (forall x, x ∈ names -> is_Some (c1 !! x) \/ is_Some (c2 !! x)) ->
  (forall x, x ∈ names -> not_defined context x) ->
  (existsb (fun x => conflicting (c1 !! x) (c2 !! x)) names = true
   /\ is_CompilationError
        (foldM (join_symbol info1 branch1 info2 branch2) names context) = true)
  \/ (existsb (fun x => conflicting (c1 !! x) (c2 !! x)) names = false
      /\ foldM (join_symbol info1 branch1 info2 branch2) names context
         = Ok (with_symbols context
                 (merge_into names (symbols_by_name (symbol_table context))))).
Proof.
  induction names as [|name rest IH]; intros context Hnd Hsome Hfresh.
  - right. split; [reflexivity|]. simpl.
    destruct context as [[m p] ? ? ? ? ?]. reflexivity.
  - apply NoDup_cons in Hnd as [Hnotin Hnd]. simpl.
    destruct (join_symbol_step context name) as [[Hc Herr]|[Hc (entry & Hm & Hok)]].
    + apply Hfresh. apply list_elem_of_here.
    + apply Hsome. apply list_elem_of_here.
    + left. rewrite Hc. split; [reflexivity|].
      destruct (join_symbol info1 branch1 info2 branch2 context name) as [?|[]];
        try discriminate Herr. reflexivity.
    + rewrite Hc, Hok, bind_Ok, Hm. simpl.
      destruct (IH (with_symbols context
                      (<[name := entry]> (symbols_by_name (symbol_table context))))
                  Hnd) as [[He Herr]|[He Hres]].
      * intros x Hx. apply Hsome. apply list_elem_of_further. exact Hx.
      * intros x Hx. apply not_defined_with_symbols.
        -- apply Hfresh. apply list_elem_of_further. exact Hx.
        -- rewrite lookup_insert_ne by (intros ->; contradiction).
           apply not_defined_own_scope. apply Hfresh.
           apply list_elem_of_further. exact Hx.
      * left. split; assumption.
      * right. split; [assumption|]. rewrite Hres. reflexivity.
Qed.

End Join.

Lemma considered_dom info context x :
  is_Some (considered info context !! x)
  <-> ir3.always_returns info = false
      /\ x ∈ dom (symbols_by_name (symbol_table context)).
Proof.
  unfold considered. destruct (ir3.always_returns info).
  - rewrite lookup_empty. split; [intros [? H]; discriminate H|intros [H _]; discriminate H].
  - rewrite elem_of_dom. tauto.
Qed.

Lemma symbol_names_spec info1 info2 branch1 branch2 x :
  let symbol_names : gset string := ∅ in
  let symbol_names :=
    if negb (ir3.always_returns info1)
    then symbol_names ∪ dom (symbols_by_name (symbol_table branch1))
    else symbol_names in
  let symbol_names :=
    if negb (ir3.always_returns info2)
    then symbol_names ∪ dom (symbols_by_name (symbol_table branch2))
    else symbol_names in
  x ∈ symbol_names
  <-> is_Some (considered info1 branch1 !! x) \/ is_Some (considered info2 branch2 !! x).
Proof.
  cbv zeta. rewrite !considered_dom.
  destruct (ir3.always_returns info1), (ir3.always_returns info2); simpl;
    rewrite ?elem_of_union, ?elem_of_empty; intuition discriminate.
Qed.

Lemma conflicting_types s1 n1 p1 s2 n2 p2 :
  conflicting (Some (s1, n1, p1)) (Some (s2, n2, p2)) = true
  <-> Symbol_type s1 <> Symbol_type s2.
Proof.
  simpl. rewrite negb_true_iff. apply ir3_properties.ExprType_eqb_neq.
Qed.

(** C3, as the code has it.  Only the symbols of a branch that does not
    always return are merged.  Over these: if a name comes from both branches
    with different types, a compilation error is raised; otherwise every name
    that comes from a branch is added to the parent scope, with the type it
    has there, and it is partially defined
    - if it comes from both branches: when it is partially defined in one of
      them;
    - if it comes from one branch and the other branch does not always
      return: always;
    - if it comes from one branch and the other branch always returns: when
      it is partially defined in its branch (so a name fully defined in its
      branch is added fully defined).
    Names that come from no branch are left as they are in the parent. *)
Theorem join_definitions_merge
    (parent_context branch1_context branch2_context : CompilationContext)
    (branch1_stmts branch2_stmts : list ir3.Stmt)
    (info1 info2 : ir3.ReturnTypeInfo) :
  visits_each_element_once ->
  last_return_info branch1_stmts = Ok info1 ->
  branch2_info branch2_stmts = Ok info2 ->
  filed_by_name (symbols_by_name (symbol_table branch1_context)) ->
  filed_by_name (symbols_by_name (symbol_table branch2_context)) ->
  (forall x, is_Some (considered info1 branch1_context !! x)
             \/ is_Some (considered info2 branch2_context !! x) ->
             not_defined parent_context x) ->
  let c1 := considered info1 branch1_context in
  let c2 := considered info2 branch2_context in
  let result :=
    _join_definitions_in_branches set_iteration_order parent_context
      branch1_context branch1_stmts branch2_context branch2_stmts in
  ((exists name s1 n1 p1 s2 n2 p2,
      c1 !! name = Some (s1, n1, p1) /\ c2 !! name = Some (s2, n2, p2)
      /\ Symbol_type s1 <> Symbol_type s2) ->
   is_CompilationError result = true)
  /\ ((forall name s1 n1 p1 s2 n2 p2,
         c1 !! name = Some (s1, n1, p1) -> c2 !! name = Some (s2, n2, p2) ->
         Symbol_type s1 = Symbol_type s2) ->
      exists parent',
        result = Ok parent'
        /\ parent' = with_symbols parent_context (symbols_by_name (symbol_table parent'))
        /\ forall name,
             symbols_by_name (symbol_table parent') !! name
             = match merged_entry (ir3.always_returns info1) (ir3.always_returns info2)
                       (c1 !! name) (c2 !! name) with
               | Some entry => Some entry
               | None => symbols_by_name (symbol_table parent_context) !! name
               end).
Proof.
  intros Horder H1 H2 Hf1 Hf2 Hfresh c1 c2 result.
  subst result. unfold _join_definitions_in_branches.
  rewrite H1, bind_Ok.
  change (match branch2_stmts with
          | [] => Ok (ir3.mkReturnTypeInfo None false)
          | _ :: _ => last_return_info branch2_stmts
          end) with (branch2_info branch2_stmts).
  rewrite H2, bind_Ok. cbv zeta.
  match goal with
  | |- context [set_iteration_order ?s] => set (symbol_names := s)
  end.
  assert (Hnames : forall x, x ∈ set_iteration_order symbol_names
                             <-> is_Some (c1 !! x) \/ is_Some (c2 !! x)).
  { intros x. rewrite (proj2 (Horder symbol_names) x).
    apply (symbol_names_spec info1 info2 branch1_context branch2_context x). }
  pose proof (join_fold info1 info2 branch1_context branch2_context Hf1 Hf2
                (set_iteration_order symbol_names) parent_context
                (proj1 (Horder symbol_names))) as Hfold.
  fold c1 c2 in Hfold.
  destruct Hfold as [[Hex Herr]|[Hex Hok]].
  - intros x Hx. apply Hnames. exact Hx.
  - intros x Hx. apply Hfresh. apply Hnames. exact Hx.
  - split; [intros _; exact Herr|].
    intros Hsame. exfalso.
    apply existsb_exists in Hex as (x & _ & Hx).
    destruct (c1 !! x) as [[[s1 n1] p1]|] eqn:E1; [|discriminate Hx].
    destruct (c2 !! x) as [[[s2 n2] p2]|] eqn:E2; [|discriminate Hx].
    apply conflicting_types in Hx. apply Hx. eapply Hsame; eassumption.
  - split.
    + intros (name & s1 & n1 & p1 & s2 & n2 & p2 & E1 & E2 & Hdiff). exfalso.
      assert (Hin : In name (set_iteration_order symbol_names)).
      { apply list_elem_of_In. apply Hnames. left. rewrite E1. eauto. }
      assert (Hc : existsb (fun x => conflicting (c1 !! x) (c2 !! x))
                     (set_iteration_order symbol_names) = true).
      { apply existsb_exists. exists name. split; [exact Hin|].
        rewrite E1, E2. apply conflicting_types. exact Hdiff. }
      congruence.
    + intros _. eexists. split; [exact Hok|]. split; [reflexivity|].
      intros name. simpl.
      rewrite merge_into_lookup by apply (proj1 (Horder symbol_names)).
      fold c1 c2.
      destruct (bool_decide (name ∈ set_iteration_order symbol_names)) eqn:Hin;
        [reflexivity|].
      apply bool_decide_eq_false in Hin. rewrite Hnames in Hin.
      destruct (c1 !! name) as [[[s1 n1] p1]|]; [exfalso; apply Hin; left; eauto|].
      destruct (c2 !! name) as [[[s2 n2] p2]|]; [exfalso; apply Hin; right; eauto|].
      reflexivity.
Qed.

End BranchMerge.

(** *** The merge on examples *)

Lemma elements_visits_each_element_once :
  visits_each_element_once (elements : gset string -> list string).
Proof.
  intros s. split; [apply NoDup_elements|]. intros x. apply elem_of_elements.
Qed.

Lemma filed_by_name_empty : filed_by_name ∅.
Proof. intros k s n p H. rewrite lookup_empty in H. discriminate H. Qed.

Lemma filed_by_name_insert m name type flag node partially :
  filed_by_name m ->
  filed_by_name (<[name := (mkSymbol type name flag, node, partially)]> m).
Proof.
  intros Hm k s n p H. destruct (decide (name = k)) as [->|Hne].
  - rewrite lookup_insert_eq in H. injection H as <- _ _. reflexivity.
  - rewrite lookup_insert_ne in H by assumption. eapply Hm. exact H.
Qed.

Lemma not_defined_example line function_name x :
  not_defined (example_context line function_name) x.
Proof. repeat split; simpl; apply lookup_empty. Qed.

(** The scope of a branch of an [if] in the function [f], holding one
    variable. *)
Definition branch_with (name : string) (type : ir3.ExprType) (partially : bool)
  : CompilationContext :=
  with_symbols (create_child_context (example_context "if c:" (Some "f")) None)
    {[ name := (mkSymbol type name false, Name name Store, partially) ]}.

Definition empty_branch : CompilationContext :=
  create_child_context (example_context "if c:" (Some "f")) None.

(** The context [x = 1] leaves behind in a fresh branch. *)
Example branch_with_is_built_by_add_symbol :
  add_symbol empty_branch "x" ir3.IntType (Name "x" Store) false false
  = Ok (branch_with "x" ir3.IntType false).
Proof. reflexivity. Qed.

Lemma filed_by_name_branch_with name type partially :
  filed_by_name (symbols_by_name (symbol_table (branch_with name type partially))).
Proof. apply filed_by_name_insert, filed_by_name_empty. Qed.

Definition assign (name : string) (value : Z) : ir3_tree.Statement :=
  ir3_tree.Assignment name (ir3_tree.IntLiteral value).

Definition return_ (value : Z) : ir3_tree.Statement :=
  ir3_tree.ReturnStmt (ir3_tree.IntLiteral value).

(** [x = True] *)
Definition assign_True (name : string) : ir3_tree.Statement :=
  ir3_tree.Assignment name (ir3_tree.BoolLiteral true).

(** [if <cond>: <stmts>], without [else]. *)
Definition if_ (cond : string) (stmts : list ir3_tree.Statement) : ir3_tree.Statement :=
  ir3_tree.IfStmt (ir3_tree.VarReference ir3.BoolType cond false false) stmts [].

(** The entry of [name] in the scope of the context that the merge returns. *)
Definition entry_after (result : Result Error CompilationContext) (name : string)
  : Result Error (option (Symbol * AST * bool)) :=
  context ← result; Ok (symbols_by_name (symbol_table context) !! name).

Definition join_example (branch1 : CompilationContext) (stmts1 : list ir3_tree.Statement)
    (branch2 : CompilationContext) (stmts2 : list ir3_tree.Statement)
  : Result Error CompilationContext :=
  _join_definitions_in_branches (N := ir3_tree.nodes) elements
    (example_context "if c:" (Some "f")) branch1 stmts1 branch2 stmts2.

(** [if c: x = 1 else: x = 2]: [x] is a fully defined [int] after the [if]. *)
Lemma join_definitions_merge_witness :
  entry_after
    (join_example (branch_with "x" ir3.IntType false) [assign "x" 1]
                  (branch_with "x" ir3.IntType false) [assign "x" 2]) "x"
  = Ok (Some (mkSymbol ir3.IntType "x" false, Name "x" Store, false)).
Proof.
  destruct (join_definitions_merge (N := ir3_tree.nodes) elements
              (example_context "if c:" (Some "f"))
              (branch_with "x" ir3.IntType false) (branch_with "x" ir3.IntType false)
              [assign "x" 1] [assign "x" 2]
              (ir3.mkReturnTypeInfo None false) (ir3.mkReturnTypeInfo None false)
              elements_visits_each_element_once eq_refl eq_refl
              (filed_by_name_branch_with _ _ _) (filed_by_name_branch_with _ _ _)
              (fun x _ => not_defined_example _ _ x)) as [_ H].
  destruct H as (parent' & Hres & _ & Hlookup).
  - intros name s1 n1 p1 s2 n2 p2 E1 E2.
    unfold considered, branch_with in E1, E2. simpl in E1, E2.
    apply lookup_singleton_Some in E1 as [_ E1], E2 as [_ E2].
    injection E1 as <- _ _. injection E2 as <- _ _. reflexivity.
  - unfold entry_after, join_example. rewrite Hres, bind_Ok, Hlookup. reflexivity.
Defined.

(** [if c: x = 1]: [x] is partially defined after the [if]. *)
Example if_without_else_defines_partially :
  entry_after
    (join_example (branch_with "x" ir3.IntType false) [assign "x" 1] empty_branch []) "x"
  = Ok (Some (mkSymbol ir3.IntType "x" false, Name "x" Store, true)).
Proof. reflexivity. Qed.

(** [if c: x = 1 else: x = True]: a compilation error. *)
Example conflicting_branches_are_rejected :
  is_CompilationError
    (join_example (branch_with "x" ir3.IntType false) [assign "x" 1]
                  (branch_with "x" ir3.BoolType false) [assign_True "x"]) = true.
Proof. reflexivity. Qed.

(** C3, as stated, fails in three ways.
    - [if c: x = 1; return 0 else: x = True]: [x] is bound in both branches
      with different types, no error is raised, and [x] is a fully defined
      [bool] after the [if].
    - [if c: (if d: y = 1) else: return 0]: [y] is bound in one branch only,
      where it is partially defined; the other branch always returns, and [y]
      is added partially defined, not fully defined.
    - [if c: x = 1; return 0 else: z = 2]: [x] is bound in one branch only and
      the other branch does not always return; [x] is not added at all. *)
Lemma join_ignores_returning_branch_and_keeps_partial_flag :
  entry_after
    (join_example (branch_with "x" ir3.IntType false) [assign "x" 1; return_ 0]
                  (branch_with "x" ir3.BoolType false) [assign_True "x"]) "x"
  = Ok (Some (mkSymbol ir3.BoolType "x" false, Name "x" Store, false))
  /\ entry_after
       (join_example (branch_with "y" ir3.IntType true) [if_ "d" [assign "y" 1]]
                     empty_branch [return_ 0]) "y"
     = Ok (Some (mkSymbol ir3.IntType "y" false, Name "y" Store, true))
  /\ entry_after
       (join_example (branch_with "x" ir3.IntType false) [assign "x" 1; return_ 0]
                     (branch_with "z" ir3.IntType false) [assign "z" 2]) "x"
     = Ok None.
Proof. repeat split; reflexivity. Qed.

(** The scope of the second example is the one the inner [if d: y = 1]
    leaves behind: merging it into the scope of the outer branch files [y] as
    partially defined. *)
Example nested_if_defines_partially :
  _join_definitions_in_branches (N := ir3_tree.nodes) elements empty_branch
    (with_symbols (create_child_context empty_branch None)
       {[ "y" := (mkSymbol ir3.IntType "y" false, Name "y" Store, false) ]})
    [assign "y" 1]
    (create_child_context empty_branch None) []
  = Ok (branch_with "y" ir3.IntType true).
Proof. reflexivity. Qed.

(** ** Match expressions *)

Section MatchExpression.
Context {N : ir3.Nodes}.
Variable set_iteration_order : gset string -> list string.
Variable expression_ast_to_ir3 :
  AST -> CompilationContext -> bool -> VarReferenceCheck -> Result Error ir3.Expr.

Hypothesis iteration : visits_each_element_once set_iteration_order.

















End MatchExpression.

(** *** Match expressions on examples *)

(** The elaboration of the expressions the examples are made of: references
    to variables, as [var_reference_ast_to_ir3] elaborates them, and integer
    literals. *)
Definition elaborate_names_and_numbers
  : AST -> CompilationContext -> bool -> VarReferenceCheck -> Result Error ir3_tree.Tree :=
  fun ast_node compilation_context in_match_pattern check_var_reference =>
    match ast_node with
    | Name id Load =>
        match get_symbol_definition compilation_context id with
        | Some lookup_result =>
            if is_only_partially_defined lookup_result then
              Raise (CompilationError ast_node
                       "Reference to a variable that may or may not have been initialized (depending on which branch was taken)"
                       [(lookup_ast_node lookup_result,
                         id +:+ " might have been initialized here")])
            else
              _ ← check_var_reference ast_node;
              Ok (ir3_tree.VarReference
                    (Symbol_type (lookup_symbol lookup_result))
                    (Symbol_name (lookup_symbol lookup_result))
                    (match parent (lookup_symbol_table lookup_result) with
                     | None => true
                     | Some _ => false
                     end)
                    (ir3.is_FunctionType (Symbol_type (lookup_symbol lookup_result))
                     && is_function_that_may_throw (lookup_symbol lookup_result)))
        | None =>
            Raise (CompilationError ast_node "Reference to undefined variable/function" [])
        end
    | Num (PyInt n) =>
        number_literal_expression_ast_to_ir3 (N := ir3_tree.nodes) ast_node
          compilation_context in_match_pattern check_var_reference true
    | _ => Raise (CompilationError ast_node "This kind of expression is not supported." [])
    end.

(** The body of [def f(T: Type):]. *)
Definition body_of_f : CompilationContext :=
  mkCompilationContext
    (mkSymbolTable {[ "T" := (mkSymbol ir3.TypeType "T" false, arg "T", false) ]}
       (Some (mkSymbolTable ∅ None)))
    (mkSymbolTable ∅ None) ∅ "example.py"
    ["def f(T: Type):"; "    return match(T)(lambda a, b: {T: 1})"]
    (Some "f").

(** [match(T)(lambda <lambda_args>: {<key>: 1})] *)
Definition match_T (lambda_args : list AST) (key : AST) : AST :=
  Call (Call (Name "match" Load) [Name "T" Load] [])
       [Lambda (mk_arguments lambda_args None [] [] []) (Dict [key] [Num (PyInt 1)])]
       [].

Definition elaborate_match (ast_node : AST) : Result Error ir3_tree.Tree :=
  match_expression_ast_to_ir3 (N := ir3_tree.nodes) elements elaborate_names_and_numbers
    ast_node body_of_f false no_check.

(** [match(T)(lambda a, b: {T: 1})] is rejected, and the error is on [b]. *)
Example match_with_unused_parameters :
  elaborate_match (match_T [arg "a"; arg "b"] (Name "T" Load))
  = Raise (CompilationError (arg "b")
             "The lambda argument b was not used in any pattern, it should be removed." []).
Proof. reflexivity. Qed.

(** [match(T)(lambda a: {a: 1})] elaborates. *)
Example match_with_used_parameter :
  elaborate_match (match_T [arg "a"] (Name "a" Load))
  = Ok (ir3_tree.MatchExpr
          [ir3_tree.VarReference ir3.TypeType "T" false false]
          [(["a"], [ir3_tree.VarReference ir3.TypeType "a" false false],
            ir3_tree.IntLiteral 1)]).
Proof. reflexivity. Qed.







End ast_to_ir3_properties.

(** * Properties of IR-low expressions *)
Module ir0_properties.
Import ir0 ir0_identifiers.

(** Induction on expressions, with the hypothesis on every argument of a
    function type and of a template instantiation. *)
Fixpoint Expr_nested_ind (P : Expr -> Prop)
    (HLiteral : forall value, P (Literal value))
    (HAtomic : forall cpp_type is_local may_error type,
        P (AtomicTypeLiteral cpp_type is_local may_error type))
    (HPointer : forall t, P t -> P (PointerTypeExpr t))
    (HReference : forall t, P t -> P (ReferenceTypeExpr t))
    (HRvalue : forall t, P t -> P (RvalueReferenceTypeExpr t))
    (HConst : forall t, P t -> P (ConstTypeExpr t))
    (HArray : forall t, P t -> P (ArrayTypeExpr t))
    (HFunction : forall r args, P r -> Forall P args -> P (FunctionTypeExpr r args))
    (HComparison : forall l r op, P l -> P r -> P (ComparisonExpr l r op))
    (HBinary : forall l r op, P l -> P r -> P (Int64BinaryOpExpr l r op))
    (HInstantiation : forall t args flag,
        P t -> Forall P args -> P (TemplateInstantiation t args flag))
    (HMember : forall x name type, P x -> P (ClassMemberAccess x name type))
    (HNot : forall x, P x -> P (NotExpr x))
    (HMinus : forall x, P x -> P (UnaryMinusExpr x))
    (HExpansion : forall x, P x -> P (VariadicTypeExpansion x))
    (e : Expr) {struct e} : P e :=
  let rec := Expr_nested_ind P HLiteral HAtomic HPointer HReference HRvalue HConst
               HArray HFunction HComparison HBinary HInstantiation HMember HNot HMinus
               HExpansion in
  let all := fix all (es : list Expr) : Forall P es :=
               match es with
               | [] => @Stdlib.Lists.List.Forall_nil _ P
               | x :: es' => @Stdlib.Lists.List.Forall_cons _ P x es' (rec x) (all es')
               end in
  match e with
  | Literal value => HLiteral value
  | AtomicTypeLiteral c l m t => HAtomic c l m t
  | PointerTypeExpr t => HPointer t (rec t)
  | ReferenceTypeExpr t => HReference t (rec t)
  | RvalueReferenceTypeExpr t => HRvalue t (rec t)
  | ConstTypeExpr t => HConst t (rec t)
  | ArrayTypeExpr t => HArray t (rec t)
  | FunctionTypeExpr r args => HFunction r args (rec r) (all args)
  | ComparisonExpr l r op => HComparison l r op (rec l) (rec r)
  | Int64BinaryOpExpr l r op => HBinary l r op (rec l) (rec r)
  | TemplateInstantiation t args flag => HInstantiation t args flag (rec t) (all args)
  | ClassMemberAccess x n ty => HMember x n ty (rec x)
  | NotExpr x => HNot x (rec x)
  | UnaryMinusExpr x => HMinus x (rec x)
  | VariadicTypeExpansion x => HExpansion x (rec x)
  end.

Lemma existsb_references (args : list Expr) (variables : gset string) :
  Forall (fun e => references_any_of e variables = true
                   <-> exists id, In id (get_referenced_identifiers e) /\ id ∈ variables)
         args ->
  existsb (fun a => references_any_of a variables) args = true
  <-> exists id, In id (concat (map get_referenced_identifiers args)) /\ id ∈ variables.
Proof.
  intros H. rewrite existsb_exists. split.
  - intros (a & Ha & Hr). rewrite Forall_forall in H.
    apply (H a) in Hr as (id & Hid & Hv); [|apply list_elem_of_In; exact Ha].
    exists id. split; [|exact Hv].
    apply in_concat. exists (get_referenced_identifiers a).
    split; [apply in_map; exact Ha|exact Hid].
  - intros (id & Hid & Hv). apply in_concat in Hid as (l & Hl & Hid).
    apply in_map_iff in Hl as (a & <- & Ha). exists a. split; [exact Ha|].
    rewrite Forall_forall in H. apply H; [apply list_elem_of_In; exact Ha|].
    exists id. auto.
Qed.

(** X1.  [references_any_of] and [get_referenced_identifiers] agree: an
    expression references one of [variables] exactly when one of the
    identifiers it yields is in [variables]. *)
Theorem references_any_of_referenced_identifiers (e : Expr) (variables : gset string) :
  references_any_of e variables = true
  <-> exists id, In id (get_referenced_identifiers e) /\ id ∈ variables.
Proof.
  induction e using Expr_nested_ind; simpl;
    try assumption.
  - split; [discriminate|]. intros (? & [] & _).
  - rewrite bool_decide_eq_true. split.
    + intros H. exists cpp_type. split; [left; reflexivity|exact H].
    + intros (id & [<-|[]] & H). exact H.
  - rewrite orb_true_iff, IHe, (existsb_references _ _ H). split.
    + intros [(id & Hid & Hv)|(id & Hid & Hv)]; exists id; split; auto;
        apply in_or_app; auto.
    + intros (id & Hid & Hv). apply in_app_or in Hid as [Hid|Hid]; [left|right];
        exists id; auto.
  - rewrite orb_true_iff, IHe1, IHe2. split.
    + intros [(id & Hid & Hv)|(id & Hid & Hv)]; exists id; split; auto;
        apply in_or_app; auto.
    + intros (id & Hid & Hv). apply in_app_or in Hid as [Hid|Hid]; [left|right];
        exists id; auto.
  - rewrite orb_true_iff, IHe1, IHe2. split.
    + intros [(id & Hid & Hv)|(id & Hid & Hv)]; exists id; split; auto;
        apply in_or_app; auto.
    + intros (id & Hid & Hv). apply in_app_or in Hid as [Hid|Hid]; [left|right];
        exists id; auto.
  - rewrite orb_true_iff, IHe, (existsb_references _ _ H). split.
    + intros [(id & Hid & Hv)|(id & Hid & Hv)]; exists id; split; auto;
        apply in_or_app; auto.
    + intros (id & Hid & Hv). apply in_app_or in Hid as [Hid|Hid]; [left|right];
        exists id; auto.
Qed.

End ir0_properties.

(** * Sequencing, continued *)

Lemma bind_Ok_inv {E A B : Type} (m : Result E A) (k : A -> Result E B) (b : B) :
  (m ≫= k) = Ok b -> exists a, m = Ok a /\ k a = Ok b.
Proof. destruct m as [a|e]; [exists a; auto|discriminate]. Qed.

(** Splits a hypothesis [m ≫= k = Ok b] into the result of [m] and the rest. *)
Ltac bind_inversion H :=
  let a := fresh "r" in
  let Ha := fresh "Hr" in
  apply bind_Ok_inv in H as (a & Ha & H); cbv beta iota zeta in H.

(** * Properties of the emitter, continued *)
Module ir0_to_cpp_writers.
Import ir0 ir0_to_cpp ir0_to_cpp_header.

(** ** The parameter and the argument picked for a [Select1st] wrapper *)

(** X2.  [_select_best_arg_decl_for_select1st] raises [IndexError] on an
    empty list; it returns the first parameter whose type is not a template
    type when there is one, and the first parameter when every type is a
    template type. *)
Theorem select_best_arg_decl_first_non_template :
  _select_best_arg_decl_for_select1st [] = Raise IndexError
  /\ (forall before arg after,
        Forall (fun a => is_TemplateType (arg_type a) = true) before ->
        is_TemplateType (arg_type arg) = false ->
        _select_best_arg_decl_for_select1st (before ++ arg :: after) = Ok arg)
  /\ (forall first rest,
        Forall (fun a => is_TemplateType (arg_type a) = true) (first :: rest) ->
        _select_best_arg_decl_for_select1st (first :: rest) = Ok first).
Proof.
  split; [reflexivity|]. split.
  - intros before arg after Hbefore Harg.
    unfold _select_best_arg_decl_for_select1st.
    assert (H : _select_best_arg_decl_for_select1st_loop (before ++ arg :: after)
                = Some arg).
    { induction Hbefore as [|a before Ha _ IH]; simpl.
      - rewrite Harg. reflexivity.
      - rewrite Ha. simpl. exact IH. }
    rewrite H. reflexivity.
  - intros first rest Hall.
    unfold _select_best_arg_decl_for_select1st.
    assert (H : _select_best_arg_decl_for_select1st_loop (first :: rest) = None).
    { induction Hall as [|a l Ha _ IH]; simpl; [reflexivity|].
      rewrite Ha. simpl. exact IH. }
    rewrite H. reflexivity.
Qed.

Lemma select_index_loop_spec (args : list Expr) (i j : nat) :
  _select_best_arg_expr_index_for_select1st_loop i args = Some j ->
  (i <= j < i + length args)%nat
  /\ (exists arg, args !! (j - i)%nat = Some arg /\ is_TemplateType (type_of arg) = false)
  /\ Forall (fun a => is_TemplateType (type_of a) = true) (take (j - i) args).
Proof.
  revert i. induction args as [|a args IH]; intros i H; simpl in H; [discriminate|].
  destruct (is_TemplateType (type_of a)) eqn:Ha; simpl in H.
  - apply IH in H as (Hr & (arg & Harg & Hty) & Hall). simpl.
    replace (j - i)%nat with (S (j - S i)) by lia. simpl.
    split; [lia|]. split; [exists arg; auto|]. constructor; [exact Ha|exact Hall].
  - injection H as <-. replace (i - i)%nat with 0%nat by lia. simpl.
    split; [lia|]. split; [exists a; auto|]. constructor.
Qed.

Lemma select_index_loop_None (args : list Expr) (i : nat) :
  _select_best_arg_expr_index_for_select1st_loop i args = None ->
  Forall (fun a => is_TemplateType (type_of a) = true) args.
Proof.
  revert i. induction args as [|a args IH]; intros i H; simpl in H; [constructor|].
  destruct (is_TemplateType (type_of a)) eqn:Ha; simpl in H; [|discriminate].
  constructor; [exact Ha|]. exact (IH _ H).
Qed.

(** X3.  [_select_best_arg_expr_index_for_select1st] fails its assertion on
    an empty list; on a non-empty list it returns an index inside the list:
    that of the first argument whose type is not a template type, or 0 when
    every argument has a template type. *)
Theorem select_best_arg_expr_index_in_range (args : list Expr) :
  (args = [] -> _select_best_arg_expr_index_for_select1st args = Raise AssertionError)
  /\ (args <> [] ->
      exists i arg,
        _select_best_arg_expr_index_for_select1st args = Ok i
        /\ args !! i = Some arg
        /\ Forall (fun a => is_TemplateType (type_of a) = true) (take i args)
        /\ (is_TemplateType (type_of arg) = true ->
            i = 0%nat /\ Forall (fun a => is_TemplateType (type_of a) = true) args)).
Proof.
  split; [intros ->; reflexivity|].
  intros Hne. destruct args as [|a args]; [congruence|].
  unfold _select_best_arg_expr_index_for_select1st.
  destruct (_select_best_arg_expr_index_for_select1st_loop 0 (a :: args)) as [j|] eqn:E.
  - apply select_index_loop_spec in E as (Hr & (arg & Harg & Hty) & Hall).
    rewrite Nat.sub_0_r in Harg, Hall.
    exists j, arg. split; [reflexivity|]. split; [exact Harg|]. split; [exact Hall|].
    intros H. congruence.
  - apply select_index_loop_None in E.
    exists 0%nat, a. split; [reflexivity|]. split; [reflexivity|].
    split; [constructor|]. intros _. split; [reflexivity|exact E].
Qed.

End ir0_to_cpp_writers.

(** * The emitter only appends *)
Module ir0_to_cpp_frame.
Import ir0 ir0_to_cpp ir0_to_cpp_header.

(** Destructs the pairs a hypothesis binds with ['(x, y) ← ...]. *)
Ltac destruct_pairs H :=
  repeat match type of H with
         | context [match ?x with pair _ _ => _ end] => is_var x; destruct x
         end;
  cbv beta iota zeta in H.

Ltac bind_step H :=
  let r := fresh "r" in
  let Hr := fresh "Hr" in
  apply bind_Ok_inv in H as (r & Hr & H); destruct_pairs H.

(** The generator after some draws. *)
Definition generator_advances (g g' : IdentifierGenerator) : Prop :=
  gen_items g' = gen_items g /\ (gen_pos g <= gen_pos g')%nat.

(** The toplevel writer after some draws and some writes. *)
Definition toplevel_extends (t t' : ToplevelWriter) : Prop :=
  generator_advances (identifier_generator t) (identifier_generator t')
  /\ toplevel_strings t `prefix_of` toplevel_strings t'.

(** [w'] is the writer [w] later on: the same chain of writers, each with
    what it held and possibly more after it. *)
Fixpoint extends (w w' : Writer) : Prop :=
  match w, w' with
  | W_Toplevel t, W_Toplevel t' => toplevel_extends t t'
  | W_TemplateElem t strs, W_TemplateElem t' strs' =>
      toplevel_extends t t' /\ strs `prefix_of` strs'
  | W_Expr p strs, W_Expr p' strs' => extends p p' /\ strs `prefix_of` strs'
  | _, _ => False
  end.

Lemma toplevel_extends_refl t : toplevel_extends t t.
Proof. repeat split; reflexivity. Qed.

Lemma toplevel_extends_trans t1 t2 t3 :
  toplevel_extends t1 t2 -> toplevel_extends t2 t3 -> toplevel_extends t1 t3.
Proof.
  intros [[H1 H2] H3] [[H4 H5] H6]. repeat split.
  - congruence.
  - lia.
  - etransitivity; eassumption.
Qed.

Lemma extends_refl w : extends w w.
Proof.
  induction w as [t|t strs|p IH strs]; simpl.
  - apply toplevel_extends_refl.
  - split; [apply toplevel_extends_refl|reflexivity].
  - split; [exact IH|reflexivity].
Qed.

Lemma extends_trans w1 w2 w3 : extends w1 w2 -> extends w2 w3 -> extends w1 w3.
Proof.
  revert w2 w3. induction w1 as [t|t strs|p IH strs]; intros [] [] H1 H2;
    simpl in *; try contradiction.
  - eapply toplevel_extends_trans; eassumption.
  - destruct H1, H2. split; [eapply toplevel_extends_trans; eassumption|].
    etransitivity; eassumption.
  - destruct H1, H2. split; [eapply IH; eassumption|]. etransitivity; eassumption.
Qed.

Lemma toplevel_write_extends t s : toplevel_extends t (toplevel_write t s).
Proof. repeat split; simpl; auto. apply prefix_app_r. reflexivity. Qed.

Lemma toplevel_new_id_extends t s t' :
  toplevel_new_id t = Ok (s, t') -> toplevel_extends t t'.
Proof.
  unfold toplevel_new_id, next. intros H.
  destruct (gen_items _ _); simpl in H; [|discriminate].
  injection H as <- <-. repeat split; simpl; auto.
Qed.

Lemma new_id_extends w s w' : new_id w = Ok (s, w') -> extends w w'.
Proof.
  revert s w'. induction w as [t|t strs|p IH strs]; intros s w' H; simpl in H.
  - bind_step H. injection H as <- <-. simpl. eapply toplevel_new_id_extends; eauto.
  - bind_step H. injection H as <- <-. simpl.
    split; [eapply toplevel_new_id_extends; eauto|reflexivity].
  - bind_step H. injection H as <- <-. simpl. split; [eapply IH; eauto|reflexivity].
Qed.

Lemma write_toplevel_elem_extends w s : extends w (write_toplevel_elem w s).
Proof.
  induction w as [t|t strs|p IH strs]; simpl.
  - apply toplevel_write_extends.
  - split; [apply toplevel_write_extends|reflexivity].
  - split; [exact IH|reflexivity].
Qed.

Lemma write_template_body_elem_extends w s : extends w (write_template_body_elem w s).
Proof.
  induction w as [t|t strs|p IH strs]; simpl.
  - apply toplevel_write_extends.
  - split; [apply toplevel_extends_refl|]. apply prefix_app_r. reflexivity.
  - split; [exact IH|reflexivity].
Qed.

Lemma write_expr_fragment_extends w s : extends w (write_expr_fragment w s).
Proof.
  destruct w as [t|t strs|p strs]; simpl.
  - apply toplevel_write_extends.
  - split; [apply toplevel_extends_refl|]. apply prefix_app_r. reflexivity.
  - split; [apply extends_refl|]. apply prefix_app_r. reflexivity.
Qed.

Lemma extends_get_toplevel_writer w w' :
  extends w w' -> toplevel_extends (get_toplevel_writer w) (get_toplevel_writer w').
Proof.
  revert w'. induction w as [t|t strs|p IH strs]; intros [] H; simpl in *;
    try contradiction.
  - exact H.
  - apply H.
  - apply IH, H.
Qed.

Lemma set_toplevel_writer_extends w t :
  toplevel_extends (get_toplevel_writer w) t -> extends w (set_toplevel_writer w t).
Proof.
  induction w as [t0|t0 strs|p IH strs]; simpl; intros H.
  - exact H.
  - split; [exact H|reflexivity].
  - split; [exact (IH H)|reflexivity].
Qed.

Lemma close_expr_writer_extends w w1 :
  extends (W_Expr w []) w1 -> extends w (snd (close_expr_writer w1)).
Proof. destruct w1; simpl; try contradiction. intros [H _]. exact H. Qed.

(** A [write_prefix] or [write_suffix] closure that only appends. *)
Definition closure_extends (c : Closure) : Prop :=
  forall w w', c w = Ok w' -> extends w w'.

(** What the four entry points of the emitter have in common. *)
Record emitters_extend (rec : Emitters) : Prop := {
  expr_extends : forall e args w s w',
    rec_expr_to_cpp rec e args w = Ok (s, w') -> extends w w';
  prefix_suffix_extends : forall e args w has_modifiers write_prefix write_suffix w',
    rec_type_expr_to_cpp_prefix_suffix rec e args w has_modifiers
    = Ok (write_prefix, write_suffix, w') ->
    extends w w' /\ closure_extends write_prefix /\ closure_extends write_suffix;
  instantiation_extends : forall t a flag args w omit s w',
    rec_template_instantiation_to_cpp rec t a flag args w omit = Ok (s, w') ->
    extends w w';
  member_access_extends : forall e name type args w omit parent s w',
    rec_class_member_access_to_cpp rec e name type args w omit parent = Ok (s, w') ->
    extends w w'
}.

Lemma mapM_st_extends {A B : Type} (f : A -> Writer -> Result PyError (B * Writer))
    (xs : list A) :
  (forall x w r w', f x w = Ok (r, w') -> extends w w') ->
  forall w rs w', mapM_st f xs w = Ok (rs, w') -> extends w w'.
Proof.
  intros Hf. induction xs as [|x xs IH]; intros w rs w' H; simpl in H.
  - injection H as <- <-. apply extends_refl.
  - bind_step H. bind_step H. injection H as <- <-.
    eapply extends_trans; [eapply Hf; eassumption|eapply IH; eassumption].
Qed.

Lemma for_each_extends {A : Type} (f : A -> Writer -> Result PyError Writer)
    (xs : list A) :
  (forall x w w', In x xs -> f x w = Ok w' -> extends w w') ->
  forall w w', for_each f xs w = Ok w' -> extends w w'.
Proof.
  induction xs as [|x xs IH]; intros Hf w w' H; simpl in H.
  - injection H as <-. apply extends_refl.
  - bind_step H.
    eapply extends_trans; [eapply Hf; [left; reflexivity|eassumption]|].
    eapply IH; [|eassumption]. intros. eapply Hf; [right|]; eassumption.
Qed.

Lemma fresh_template_args_extends argtypes w decls w' :
  fresh_template_args argtypes w = Ok (decls, w') -> extends w w'.
Proof.
  revert w decls w'. induction argtypes as [|a l IH]; intros w decls w' H; simpl in H.
  - injection H as <- <-. apply extends_refl.
  - bind_step H. bind_step H. injection H as <- <-.
    eapply extends_trans; [eapply new_id_extends; eassumption|eapply IH; eassumption].
Qed.

Section Step.
Variable rec : Emitters.
Hypothesis IH : emitters_extend rec.

Lemma type_expr_to_cpp_extends e args w w' :
  type_expr_to_cpp rec e args w = Ok w' -> extends w w'.
Proof.
  unfold type_expr_to_cpp. intros H. bind_step H. bind_step H.
  apply (prefix_suffix_extends _ IH) in Hr as (H1 & H2 & H3).
  eapply extends_trans; [exact H1|].
  eapply extends_trans; [apply H2; eassumption|apply H3; eassumption].
Qed.

Lemma expr_to_cpp_def_extends e args w s w' :
  expr_to_cpp_def rec e args w = Ok (s, w') -> extends w w'.
Proof.
  intros H.
  assert (Hdefault : forall e0,
             (writer ← type_expr_to_cpp rec e0 args (W_Expr w []);
              Ok (close_expr_writer writer)) = Ok (s, w') -> extends w w').
  { intros e0 H0. bind_step H0. apply type_expr_to_cpp_extends in Hr.
    apply close_expr_writer_extends in Hr.
    destruct (close_expr_writer r). injection H0 as <- <-. exact Hr. }
  assert (Hbinary : forall l r (mk : string -> string -> string),
             ('(a, writer) ← rec_expr_to_cpp rec l args w;
              '(b, writer) ← rec_expr_to_cpp rec r args writer;
              Ok (mk a b, writer)) = Ok (s, w') -> extends w w').
  { intros l r mk H0. bind_step H0. bind_step H0. injection H0 as <- <-.
    eapply extends_trans; eapply (expr_extends _ IH); eassumption. }
  assert (Hunary : forall x (mk : string -> string),
             ('(a, writer) ← rec_expr_to_cpp rec x args w; Ok (mk a, writer))
             = Ok (s, w') -> extends w w').
  { intros x mk H0. bind_step H0. injection H0 as <- <-.
    eapply (expr_extends _ IH); eassumption. }
  destruct e; simpl in H; try (eapply Hdefault; exact H).
  - injection H as <- <-. apply extends_refl.
  - eapply (Hbinary _ _ (fun a b => "(" +:+ a +:+ ") " +:+ op +:+ " (" +:+ b +:+ ")")).
    exact H.
  - eapply (Hbinary _ _ (fun a b => "(" +:+ a +:+ ") " +:+ op +:+ " (" +:+ b +:+ ")")).
    exact H.
  - eapply (Hunary _ (fun a => "!(" +:+ a +:+ ")")). exact H.
  - eapply (Hunary _ (fun a => "-(" +:+ a +:+ ")")). exact H.
Qed.

Lemma constant_def_to_cpp_extends cd args w w' :
  constant_def_to_cpp rec cd args w = Ok w' -> extends w w'.
Proof.
  unfold constant_def_to_cpp. intros H. bind_step H. bind_step H. injection H as <-.
  eapply extends_trans; [eapply (expr_extends _ IH); eassumption|].
  apply write_template_body_elem_extends.
Qed.

Lemma typedef_to_cpp_extends td args w w' :
  typedef_to_cpp rec td args w = Ok w' -> extends w w'.
Proof.
  unfold typedef_to_cpp. intros H.
  destruct (type_of (td_expr td)); try discriminate H.
  - bind_step H. injection H as <-.
    eapply extends_trans; [eapply (expr_extends _ IH); eassumption|].
    apply write_template_body_elem_extends.
  - bind_step H. bind_step H. injection H as <-.
    eapply extends_trans; [eapply fresh_template_args_extends; eassumption|].
    eapply extends_trans; [eapply (instantiation_extends _ IH); eassumption|].
    apply write_template_body_elem_extends.
Qed.

Lemma template_instantiation_to_cpp_def_extends t a flag args w omit s w' :
  template_instantiation_to_cpp_def rec t a flag args w omit = Ok (s, w') ->
  extends w w'.
Proof.
  unfold template_instantiation_to_cpp_def. intros H. cbv zeta in H.
  bind_step H. bind_step H. bind_step H. injection H as <- <-.
  assert (H1 : extends w w0).
  { destruct (_ && _ && _) in Hr; [|injection Hr as <- <-; apply extends_refl].
    bind_step Hr. bind_step Hr. bind_step Hr. bind_step Hr. injection Hr as <- <-.
    destruct (_ && _) in Hr5.
    - destruct (select1st_variant_table _ _); [|discriminate Hr5].
      injection Hr5 as <- <-. apply extends_refl.
    - bind_step Hr5. bind_step Hr5. bind_step Hr5. injection Hr5 as <- <-.
      apply new_id_extends in Hr, Hr6.
      assert (Hbody : extends (W_TemplateElem (get_toplevel_writer w4) []) r2).
      { destruct (kind (type_of r1)) in Hr7; cbv beta iota in Hr7.
        all: try (eapply constant_def_to_cpp_extends; exact Hr7).
        all: eapply typedef_to_cpp_extends; exact Hr7. }
      eapply extends_trans; [exact Hr|]. eapply extends_trans; [exact Hr6|].
      eapply extends_trans; [|apply write_template_body_elem_extends].
      apply set_toplevel_writer_extends.
      apply extends_get_toplevel_writer in Hbody. exact Hbody. }
  assert (H2 : extends w0 w1).
  { eapply mapM_st_extends; [|eassumption].
    intros x wa ra wb Hx. eapply (expr_extends _ IH); exact Hx. }
  assert (H3 : extends w1 w2).
  { destruct t; first [eapply (expr_extends _ IH); eassumption
                      |eapply (member_access_extends _ IH); eassumption]. }
  eapply extends_trans; [exact H1|]. eapply extends_trans; eassumption.
Qed.

Lemma class_member_access_to_cpp_def_extends e name type args w omit parent s w' :
  class_member_access_to_cpp_def rec e name type args w omit parent = Ok (s, w') ->
  extends w w'.
Proof.
  unfold class_member_access_to_cpp_def. intros H. bind_step H.
  assert (H1 : extends w w0).
  { destruct e; first [eapply (expr_extends _ IH); eassumption
                      |eapply (member_access_extends _ IH); eassumption
                      |eapply (instantiation_extends _ IH); eassumption]. }
  destruct type; try discriminate H; injection H as <- <-; exact H1.
Qed.

Lemma unary_modifier_extends modifier_str sub_expr args w write_prefix write_suffix w' :
  unary_modifier_type_expr_to_cpp_prefix_suffix rec modifier_str sub_expr args w
  = Ok (write_prefix, write_suffix, w') ->
  extends w w' /\ closure_extends write_prefix /\ closure_extends write_suffix.
Proof.
  unfold unary_modifier_type_expr_to_cpp_prefix_suffix. intros H. bind_step H.
  injection H as <- <- <-.
  apply (prefix_suffix_extends _ IH) in Hr as (H1 & H2 & H3).
  split; [exact H1|]. split; [|exact H3].
  intros wa wb Hc. bind_step Hc. injection Hc as <-.
  eapply extends_trans; [apply H2; eassumption|apply write_expr_fragment_extends].
Qed.

Lemma write_function_args_extends i arg_exprs args w w' :
  write_function_args rec i arg_exprs args w = Ok w' -> extends w w'.
Proof.
  revert i w w'. induction arg_exprs as [|a l IHl]; intros i w w' H; simpl in H.
  - injection H as <-. apply extends_refl.
  - bind_step H. apply type_expr_to_cpp_extends in Hr. apply IHl in H.
    eapply extends_trans; [|exact H]. eapply extends_trans; [|exact Hr].
    destruct (negb _); [apply write_expr_fragment_extends|apply extends_refl].
Qed.

Lemma function_type_extends return_type_expr arg_exprs args w has_modifiers
    write_prefix write_suffix w' :
  function_type_expr_to_cpp_prefix_suffix rec return_type_expr arg_exprs args w
    has_modifiers = Ok (write_prefix, write_suffix, w') ->
  extends w w' /\ closure_extends write_prefix /\ closure_extends write_suffix.
Proof.
  unfold function_type_expr_to_cpp_prefix_suffix. intros H. bind_step H.
  injection H as <- <- <-.
  apply (prefix_suffix_extends _ IH) in Hr as (H1 & H2 & H3).
  split; [exact H1|]. split.
  - intros wa wb Hc. bind_step Hc. injection Hc as <-.
    eapply extends_trans; [apply H2; eassumption|].
    destruct has_modifiers; [apply write_expr_fragment_extends|apply extends_refl].
  - intros wa wb Hc. cbv zeta in Hc. bind_step Hc.
    apply write_function_args_extends in Hr. apply H3 in Hc.
    eapply extends_trans; [|exact Hc].
    eapply extends_trans; [|apply write_expr_fragment_extends].
    eapply extends_trans; [|exact Hr].
    eapply extends_trans; [|apply write_expr_fragment_extends].
    destruct has_modifiers; [apply write_expr_fragment_extends|apply extends_refl].
Qed.

Lemma leaf_extends (r : Result PyError (string * Writer)) w write_prefix write_suffix w' :
  (forall s w1, r = Ok (s, w1) -> extends w w1) ->
  ('(expr_cpp_code, writer) ← r;
   Ok ((fun writer => Ok (write_expr_fragment writer expr_cpp_code)) : Closure,
       (fun writer => Ok writer) : Closure, writer))
  = Ok (write_prefix, write_suffix, w') ->
  extends w w' /\ closure_extends write_prefix /\ closure_extends write_suffix.
Proof.
  intros Hr H. bind_step H. injection H as <- <- <-.
  split; [eapply Hr; eassumption|]. split.
  - intros wa wb Hc. injection Hc as <-. apply write_expr_fragment_extends.
  - intros wa wb Hc. injection Hc as <-. apply extends_refl.
Qed.

Lemma type_expr_to_cpp_prefix_suffix_def_extends e args w has_modifiers
    write_prefix write_suffix w' :
  type_expr_to_cpp_prefix_suffix_def rec e args w has_modifiers
  = Ok (write_prefix, write_suffix, w') ->
  extends w w' /\ closure_extends write_prefix /\ closure_extends write_suffix.
Proof.
  unfold type_expr_to_cpp_prefix_suffix_def. cbv zeta. intros H.
  match type of H with
  | (match ?x with _ => _ end) = _ => destruct x
  end; try discriminate H;
    first [eapply unary_modifier_extends; eassumption
          |eapply function_type_extends; eassumption
          |eapply leaf_extends; [|exact H]; intros s1 w1 Hs].
  - injection Hs as <- <-. apply extends_refl.
  - eapply (instantiation_extends _ IH); eassumption.
  - eapply (member_access_extends _ IH); eassumption.
  - unfold variadic_type_expansion_to_cpp in Hs. bind_step Hs. injection Hs as <- <-.
    eapply (expr_extends _ IH); eassumption.
Qed.

End Step.

Lemma emitters_extend_all (depth : nat) : emitters_extend (emitters depth).
Proof.
  induction depth as [|d IH]; simpl.
  - split; intros; discriminate.
  - split; simpl; intros.
    + eapply expr_to_cpp_def_extends; eassumption.
    + eapply type_expr_to_cpp_prefix_suffix_def_extends; eassumption.
    + eapply template_instantiation_to_cpp_def_extends; eassumption.
    + eapply class_member_access_to_cpp_def_extends; eassumption.
Qed.

Lemma static_assert_to_cpp_extends depth assert_stmt args w w' :
  static_assert_to_cpp depth assert_stmt args w = Ok w' -> extends w w'.
Proof.
  unfold static_assert_to_cpp. cbv zeta. intros H. bind_step H.
  apply (expr_extends _ (emitters_extend_all depth)) in Hr.
  eapply extends_trans; [exact Hr|]. clear Hr.
  destruct (_ || _).
  - injection H as <-. apply write_template_body_elem_extends.
  - destruct (static_assert_guard _ _ _).
    + injection H as <-. apply write_template_body_elem_extends.
    + bind_step H. bind_step H. injection H as <-.
      eapply extends_trans; [eapply new_id_extends; eassumption|].
      apply write_template_body_elem_extends.
Qed.

Lemma create_child_writer_toplevel w child :
  create_child_writer w = Ok child ->
  child = W_TemplateElem (get_toplevel_writer w) [].
Proof. destruct w; simpl; intros H; [| |discriminate H]; injection H as <-; reflexivity. Qed.

Fixpoint template_defn_to_cpp_extends (depth : nat) (d : TemplateDefn) {struct d} :
  forall args w w', template_defn_to_cpp depth d args w = Ok w' -> extends w w'
with template_specialization_to_cpp_extends (depth : nat) (sp : TemplateSpecialization)
    {struct sp} :
  forall cxx_name args w w',
    template_specialization_to_cpp depth sp cxx_name args w = Ok w' -> extends w w'.
Proof.
  - destruct d as [dargs main_definition specializations name description names].
    intros args w w' H. simpl in H. bind_step H.
    assert (H1 : extends w r).
    { destruct main_definition as [m|]; [|injection Hr as <-; apply extends_refl].
      apply template_specialization_to_cpp_extends in Hr.
      eapply extends_trans; [|exact Hr].
      destruct (negb _); [apply write_toplevel_elem_extends|apply extends_refl]. }
    eapply extends_trans; [exact H1|]. clear H1 Hr.
    revert r H. induction specializations as [|sp l IHl]; intros r H; simpl in H.
    + injection H as <-. apply extends_refl.
    + bind_step H. apply template_specialization_to_cpp_extends in Hr.
      eapply extends_trans; [|eapply IHl; exact H].
      eapply extends_trans; [|exact Hr].
      destruct (negb _); [apply write_toplevel_elem_extends|apply extends_refl].
  - destruct sp as [sargs patterns body].
    intros cxx_name args w w' H. simpl in H. bind_step H. bind_step H.
    apply create_child_writer_toplevel in Hr. subst r.
    assert (Hbody : extends (W_TemplateElem (get_toplevel_writer w) []) r0).
    { clear H. revert Hr0. generalize (W_TemplateElem (get_toplevel_writer w) []).
      induction body as [|elem l IHl]; intros w0 H; simpl in H.
      - injection H as <-. apply extends_refl.
      - bind_step H. eapply extends_trans; [|eapply IHl; exact H].
        destruct elem as [a|c|t|d].
        + eapply static_assert_to_cpp_extends; exact Hr.
        + eapply (constant_def_to_cpp_extends _ (emitters_extend_all depth)); exact Hr.
        + eapply (typedef_to_cpp_extends _ (emitters_extend_all depth)); exact Hr.
        + eapply template_defn_to_cpp_extends; exact Hr. }
    apply extends_get_toplevel_writer in Hbody. simpl in Hbody.
    apply set_toplevel_writer_extends in Hbody.
    eapply extends_trans; [exact Hbody|].
    destruct patterns as [ps|].
    + bind_step H. injection H as <-.
      eapply extends_trans; [|apply write_template_body_elem_extends].
      eapply mapM_st_extends; [|exact Hr].
      intros x wa ra wb Hx.
      eapply (expr_extends _ (emitters_extend_all depth)); exact Hx.
    + injection H as <-. apply write_template_body_elem_extends.
Qed.

Lemma toplevel_elem_to_cpp_extends depth elem w w' :
  toplevel_elem_to_cpp depth elem w = Ok w' -> extends w w'.
Proof.
  destruct elem; simpl; intros H; [| | |discriminate H].
  - eapply static_assert_to_cpp_extends; exact H.
  - eapply (constant_def_to_cpp_extends _ (emitters_extend_all depth)); exact H.
  - eapply (typedef_to_cpp_extends _ (emitters_extend_all depth)); exact H.
Qed.

End ir0_to_cpp_frame.

(** * Properties of emitted headers *)
Module ir0_to_cpp_header_properties.
Import ir0 ir0_to_cpp ir0_to_cpp_header ir0_to_cpp_frame.

(** [template <template <typename> class G> ...], the enclosing parameters of
    the example below. *)
Definition template_template_parameter : list TemplateArgDecl :=
  [mkTemplateArgDecl (TemplateType [TypeType]) "G"].

(** [F<5>], flagged as possibly triggering static asserts. *)
Definition flagged_F_of_5 : Expr :=
  TemplateInstantiation (AtomicTypeLiteral "F" false true (TemplateType [Int64Type]))
    [Literal (VInt 5)] true.

Definition id_generator : IdentifierGenerator :=
  mkGen (fun n => Some ("id" +:+ str_int (Z.of_nat n))) 0.

(** A template body writer that already holds text, above a toplevel writer
    that already holds text. *)
Definition writer_in_use : Writer :=
  W_TemplateElem (mkToplevelWriter id_generator ["// toplevel"]) ["// body"].

(** X4.  [expr_to_cpp] only appends: when it returns, the chain of writers
    is the one it was given, every writer holds what it held followed by what
    was written to it, and the identifier generator is the same generator at
    the same or a later position. *)
Theorem expr_to_cpp_only_appends (depth : nat) (e : Expr) (args : list TemplateArgDecl)
    (w : Writer) (s : string) (w' : Writer) :
  expr_to_cpp depth e args w = Ok (s, w') -> extends w w'.
Proof. apply (expr_extends _ (emitters_extend_all depth)). Qed.

(** Under a template template parameter, [F<5>] needs a custom [Select1st]
    template: two identifiers are drawn and the template is written to the
    body, after the text that was there. *)
Lemma expr_to_cpp_only_appends_witness :
  exists text,
    expr_to_cpp 10 flagged_F_of_5 template_template_parameter writer_in_use
    = Ok ("F<id0<5LL, G>::value>",
          W_TemplateElem
            (mkToplevelWriter (mkGen (gen_items id_generator) 2) ["// toplevel"])
            ["// body"; text])
    /\ extends writer_in_use
         (W_TemplateElem
            (mkToplevelWriter (mkGen (gen_items id_generator) 2) ["// toplevel"])
            ["// body"; text]).
Proof.
  eexists. split; [reflexivity|].
  apply (expr_to_cpp_only_appends 10 flagged_F_of_5 template_template_parameter
           writer_in_use "F<id0<5LL, G>::value>").
  reflexivity.
Defined.

(** ** Headers *)

(** The forward declaration of a template. *)
Definition forward_declaration (template_defn : TemplateDefn) : string :=
  match template_defn with
  | mkTemplateDefn args _ _ template_name _ _ =>
      spaces 8 +:+ "template <" +:+ join ", " (map template_arg_decl_to_cpp args)
      +:+ ">" +:+ nl
      +:+ spaces 8 +:+ "struct " +:+ template_name +:+ ";" +:+ nl
      +:+ spaces 8
  end.

Lemma string_app_nil_r (a : string) : a +:+ EmptyString = a.
Proof.
  induction a as [|ch a IH]; [reflexivity|].
  rewrite ir0_to_cpp_properties.string_app_cons, IH. reflexivity.
Qed.

Lemma join_empty_cons (x : string) (xs : list string) :
  join EmptyString (x :: xs) = x +:+ join EmptyString xs.
Proof.
  unfold join. destruct xs as [|y ys]; simpl.
  - rewrite string_app_nil_r. reflexivity.
  - reflexivity.
Qed.

Lemma join_empty_app (xs ys : list string) :
  join EmptyString (xs ++ ys) = join EmptyString xs +:+ join EmptyString ys.
Proof.
  induction xs as [|x xs IH]; [reflexivity|].
  change ((x :: xs) ++ ys)%list with (x :: (xs ++ ys)%list).
  rewrite !join_empty_cons, IH, ir0_to_cpp_properties.string_app_assoc. reflexivity.
Qed.

Lemma forward_declarations_written (defns : list TemplateDefn) (t : ToplevelWriter) :
  fold_left (fun writer elem => template_defn_to_cpp_forward_decl elem [] writer)
            defns (W_Toplevel t)
  = W_Toplevel (mkToplevelWriter (identifier_generator t)
                  (toplevel_strings t ++ map forward_declaration defns)).
Proof.
  revert t. induction defns as [|d defns IH]; intros t; simpl.
  - rewrite app_nil_r. destruct t; reflexivity.
  - destruct d. simpl. rewrite IH. simpl. rewrite <- app_assoc. reflexivity.
Qed.

(** The toplevel writer once the [#include] lines and the forward
    declarations are written. *)
Definition declared (header : Header) (identifier_generator : IdentifierGenerator)
  : Writer :=
  W_Toplevel
    (mkToplevelWriter identifier_generator
       (header_preamble :: map forward_declaration (template_defns header))).

Lemma extends_toplevel (t : ToplevelWriter) (w : Writer) :
  extends (W_Toplevel t) w ->
  exists t' more,
    w = W_Toplevel t' /\ toplevel_strings t' = (toplevel_strings t ++ more)%list.
Proof.
  destruct w as [t'| |]; simpl; try contradiction.
  intros [_ [more Hmore]]. exists t', more. split; [reflexivity|exact Hmore].
Qed.

(** X5.  The text [header_to_cpp] returns is, in this order: the two
    [#include] lines; the forward declaration of every template of the
    header, in order; what the loop over the template definitions writes,
    run on the writer that holds the lines before; what the loop over the
    toplevel content writes, run on the writer the definitions left.  Nothing
    else is in the text, and neither loop changes what was written before
    it. *)
Theorem header_to_cpp_declares_templates_first (depth : nat) (header : Header)
    (identifier_generator : IdentifierGenerator) (text : string) :
  header_to_cpp depth header identifier_generator = Ok text ->
  exists t1 definitions t2 content,
    for_each (fun elem writer => template_defn_to_cpp depth elem [] writer)
      (template_defns header) (declared header identifier_generator)
    = Ok (W_Toplevel t1)
    /\ toplevel_strings t1
       = (header_preamble :: map forward_declaration (template_defns header)
          ++ definitions)%list
    /\ for_each (toplevel_elem_to_cpp depth) (toplevel_content header) (W_Toplevel t1)
       = Ok (W_Toplevel t2)
    /\ toplevel_strings t2 = (toplevel_strings t1 ++ content)%list
    /\ text = header_preamble
              +:+ join EmptyString (map forward_declaration (template_defns header))
              +:+ join EmptyString definitions
              +:+ join EmptyString content.
Proof.
  unfold header_to_cpp. cbv zeta. intros H.
  change (write_toplevel_elem (W_Toplevel (mkToplevelWriter identifier_generator []))
            header_preamble)
    with (W_Toplevel (mkToplevelWriter identifier_generator [header_preamble])) in H.
  rewrite forward_declarations_written in H.
  change (W_Toplevel _) with (declared header identifier_generator) in H.
  bind_step H. bind_step H. injection H as <-.
  assert (H1 : extends (declared header identifier_generator) r).
  { eapply for_each_extends; [|exact Hr].
    intros x w w' _ Hx. eapply template_defn_to_cpp_extends; exact Hx. }
  apply extends_toplevel in H1 as (t1 & definitions & -> & Ht1).
  change (toplevel_strings t1
          = (header_preamble :: map forward_declaration (template_defns header)
             ++ definitions)%list) in Ht1.
  assert (H2 : extends (W_Toplevel t1) r0).
  { eapply for_each_extends; [|exact Hr0].
    intros x w w' _ Hx. eapply toplevel_elem_to_cpp_extends; exact Hx. }
  apply extends_toplevel in H2 as (t2 & content & -> & Ht2).
  exists t1, definitions, t2, content.
  split; [exact Hr|]. split; [exact Ht1|]. split; [exact Hr0|]. split; [exact Ht2|].
  change (writer_strings (W_Toplevel t2)) with (toplevel_strings t2).
  rewrite Ht2, Ht1, join_empty_app, join_empty_cons, join_empty_app.
  rewrite !ir0_to_cpp_properties.string_app_assoc. reflexivity.
Qed.

(** [template <bool b> struct negate { static constexpr bool value = !(b); };]
    followed by [static_assert(true, "ok");]. *)
Definition negate_template : Header :=
  let b := AtomicTypeLiteral "b" true false BoolType in
  mkHeader
    [mkTemplateDefn [mkTemplateArgDecl BoolType "b"]
       (Some (mkTemplateSpecialization [mkTemplateArgDecl BoolType "b"] None
                [ElemConstantDef (mkConstantDef "value" (NotExpr b))]))
       [] "negate" EmptyString ["value"]]
    [ElemStaticAssert (mkStaticAssert (Literal (VBool true)) "ok")]
    {["negate"]}.

(** The three parts of the text of that header after the [#include] lines. *)
Definition negate_forward_declaration : string :=
  spaces 8 +:+ "template <bool b>" +:+ nl
  +:+ spaces 8 +:+ "struct negate;" +:+ nl
  +:+ spaces 8.

Definition negate_definition : string :=
  spaces 12 +:+ "template <bool b>" +:+ nl
  +:+ spaces 12 +:+ "struct negate {" +:+ nl
  +:+ spaces 14 +:+ spaces 8 +:+ "static constexpr bool value = !(b);" +:+ nl
  +:+ spaces 8 +:+ nl
  +:+ spaces 12 +:+ "};" +:+ nl
  +:+ spaces 12.

Definition negate_static_assert : string :=
  "static_assert(true, " +:+ dquote +:+ "ok" +:+ dquote +:+ ");".

Definition negate_template_text : string :=
  header_preamble +:+ negate_forward_declaration +:+ negate_definition
  +:+ negate_static_assert.

Lemma header_to_cpp_declares_templates_first_witness :
  header_to_cpp 10 negate_template id_generator = Ok negate_template_text
  /\ exists t1 definitions t2 content,
       for_each (fun elem writer => template_defn_to_cpp 10 elem [] writer)
         (template_defns negate_template) (declared negate_template id_generator)
       = Ok (W_Toplevel t1)
       /\ toplevel_strings t1
          = (header_preamble :: map forward_declaration (template_defns negate_template)
             ++ definitions)%list
       /\ for_each (toplevel_elem_to_cpp 10) (toplevel_content negate_template)
            (W_Toplevel t1)
          = Ok (W_Toplevel t2)
       /\ toplevel_strings t2 = (toplevel_strings t1 ++ content)%list
       /\ negate_template_text
          = header_preamble
            +:+ join EmptyString (map forward_declaration (template_defns negate_template))
            +:+ join EmptyString definitions
            +:+ join EmptyString content.
Proof.
  split; [reflexivity|].
  apply (header_to_cpp_declares_templates_first 10 negate_template id_generator).
  reflexivity.
Defined.

(** In that header the definitions loop writes the definition of [negate]
    and the content loop writes the static assert. *)
Example negate_template_parts :
  for_each (fun elem writer => template_defn_to_cpp 10 elem [] writer)
    (template_defns negate_template) (declared negate_template id_generator)
  = Ok (W_Toplevel
          (mkToplevelWriter id_generator
             [header_preamble; negate_forward_declaration; negate_definition]))
  /\ for_each (toplevel_elem_to_cpp 10) (toplevel_content negate_template)
       (W_Toplevel
          (mkToplevelWriter id_generator
             [header_preamble; negate_forward_declaration; negate_definition]))
     = Ok (W_Toplevel
             (mkToplevelWriter id_generator
                [header_preamble; negate_forward_declaration; negate_definition;
                 negate_static_assert])).
Proof. split; reflexivity. Qed.

End ir0_to_cpp_header_properties.

(** * Fresh identifiers *)
Module ir0_to_cpp_identifiers.
Import ir0 ir0_to_cpp ir0_to_cpp_frame.

(** The writer [w] once [n] identifiers were drawn through it, or through any
    writer that shares its toplevel writer. *)
Definition after_draws (w : Writer) (n : nat) : Writer :=
  let t := get_toplevel_writer w in
  let g := identifier_generator t in
  set_toplevel_writer w
    (mkToplevelWriter (mkGen (gen_items g) (n + gen_pos g)) (toplevel_strings t)).

(** The [n] identifiers the generator of [w] yields next, if it has them. *)
Definition next_identifiers (w : Writer) (n : nat) : list (option string) :=
  let g := identifier_generator (get_toplevel_writer w) in
  map (fun i => gen_items g (i + gen_pos g)) (seq 0 n).

Lemma set_toplevel_writer_twice w t t' :
  set_toplevel_writer (set_toplevel_writer w t) t' = set_toplevel_writer w t'.
Proof. induction w; simpl; congruence. Qed.

Lemma get_set_toplevel_writer w t : get_toplevel_writer (set_toplevel_writer w t) = t.
Proof. induction w; simpl; congruence. Qed.

Lemma set_get_toplevel_writer w : set_toplevel_writer w (get_toplevel_writer w) = w.
Proof. induction w; simpl; congruence. Qed.

Lemma after_draws_0 w : after_draws w 0 = w.
Proof.
  unfold after_draws. cbv zeta. simpl.
  destruct (get_toplevel_writer w) as [[items pos] strs] eqn:E. simpl.
  rewrite <- E. apply set_get_toplevel_writer.
Qed.

Lemma after_draws_S w n : after_draws (after_draws w 1) n = after_draws w (S n).
Proof.
  unfold after_draws. cbv zeta. rewrite !get_set_toplevel_writer. simpl.
  rewrite set_toplevel_writer_twice. do 3 f_equal. lia.
Qed.

(** [new_id] draws the next identifier of the generator, through any chain of
    writers, and raises [StopIteration] when the generator is exhausted. *)
Lemma new_id_spec (w : Writer) :
  new_id w
  = match next_identifiers w 1 with
    | [Some s] => Ok (s, after_draws w 1)
    | _ => Raise StopIteration
    end.
Proof.
  unfold next_identifiers, after_draws. cbv zeta. simpl.
  induction w as [t|t strs|p IH strs]; simpl.
  - unfold toplevel_new_id, next. destruct (gen_items _ _); reflexivity.
  - unfold toplevel_new_id, next. destruct (gen_items _ _); reflexivity.
  - rewrite IH. destruct (gen_items _ _); reflexivity.
Qed.

(** X6.  The parameters [typedef_to_cpp] makes up for a template alias: one
    per argument type, in order, named by the identifiers the generator yields
    next; the writer afterwards differs only in the position of the
    generator.  If the generator runs out, [StopIteration] is raised. *)
Theorem fresh_template_args_draws_in_order (argtypes : list ExprType) (w : Writer) :
  (forall decls w',
     fresh_template_args argtypes w = Ok (decls, w') <->
     map arg_type decls = argtypes
     /\ map (fun d => Some (arg_name d)) decls = next_identifiers w (length argtypes)
     /\ w' = after_draws w (length argtypes))
  /\ (In None (next_identifiers w (length argtypes)) ->
      fresh_template_args argtypes w = Raise StopIteration).
Proof.
  revert w. induction argtypes as [|a l IH]; intros w.
  - split.
    + intros decls w'. simpl. rewrite after_draws_0. split.
      * intros H. injection H as <- <-. auto.
      * intros (H1 & H2 & ->). destruct decls; [reflexivity|discriminate H1].
    + intros [].
  - assert (Hnext : forall n,
               next_identifiers w (S n)
               = hd None (next_identifiers w 1)
                 :: match next_identifiers w 1 with
                    | [Some _] => next_identifiers (after_draws w 1) n
                    | _ => map (fun i => gen_items (identifier_generator (get_toplevel_writer w))
                                           (S i + gen_pos (identifier_generator (get_toplevel_writer w))))
                               (seq 0 n)
                    end).
    { intros n. unfold next_identifiers, after_draws. cbv zeta. simpl. f_equal.
      destruct (gen_items _ _).
      - rewrite get_set_toplevel_writer. simpl. rewrite <- seq_shift, map_map.
        apply map_ext. intros i. f_equal. lia.
      - rewrite <- seq_shift, map_map. reflexivity. }
    simpl fresh_template_args. simpl length. rewrite new_id_spec, (Hnext (length l)).
    destruct (next_identifiers w 1) as [|[s|] [|? ?]] eqn:E;
      try (unfold next_identifiers in E; simpl in E; discriminate E).
    + rewrite bind_Ok. cbv beta iota. destruct (IH (after_draws w 1)) as [IH1 IH2].
      split.
      * intros decls w'. rewrite <- (after_draws_S w (length l)). split.
        -- intros H. bind_step H. injection H as <- <-.
           apply IH1 in Hr as (H1 & H2 & H3). simpl. repeat split; congruence.
        -- intros (H1 & H2 & H3). destruct decls as [|[ty name] decls]; [discriminate H1|].
           simpl in H1, H2. injection H1 as -> H1. injection H2 as -> H2.
           assert (Hr : fresh_template_args l (after_draws w 1) = Ok (decls, w'))
             by (apply IH1; auto).
           rewrite Hr. reflexivity.
      * simpl. intros [H|H]; [discriminate H|]. rewrite (IH2 H). reflexivity.
    + split; [|reflexivity].
      intros decls w'. split; [discriminate|]. intros (H1 & H2 & _).
      destruct decls; [discriminate H1|]. simpl in H2. discriminate H2.
Qed.

End ir0_to_cpp_identifiers.

(** * The base transformation is the identity *)
Module transform_ir0_identity.
Import ir0 transform_ir0.

(** Every node of the expression passes the assertions of its constructor:
    the expression can have been built by calls to the constructors of
    [ir0.py]. *)
Fixpoint constructed (e : Expr) : bool :=
  match e with
  | Literal _ => true
  | AtomicTypeLiteral cpp_type is_local may_error type =>
      is_ok (AtomicTypeLiteral_init cpp_type is_local may_error type)
  | PointerTypeExpr t => constructed t && is_ok (unary_type_expr_init PointerTypeExpr t)
  | ReferenceTypeExpr t => constructed t && is_ok (unary_type_expr_init ReferenceTypeExpr t)
  | RvalueReferenceTypeExpr t =>
      constructed t && is_ok (unary_type_expr_init RvalueReferenceTypeExpr t)
  | ConstTypeExpr t => constructed t && is_ok (unary_type_expr_init ConstTypeExpr t)
  | ArrayTypeExpr t => constructed t && is_ok (unary_type_expr_init ArrayTypeExpr t)
  | FunctionTypeExpr r args =>
      constructed r && forallb constructed args && is_ok (FunctionTypeExpr_init r args)
  | ComparisonExpr l r op =>
      constructed l && constructed r && is_ok (ComparisonExpr_init l r op)
  | Int64BinaryOpExpr l r op =>
      constructed l && constructed r && is_ok (Int64BinaryOpExpr_init l r op)
  | TemplateInstantiation t args flag =>
      constructed t && forallb constructed args
      && is_ok (TemplateInstantiation_init t args flag)
  | ClassMemberAccess x _ _ | NotExpr x | UnaryMinusExpr x | VariadicTypeExpansion x =>
      constructed x
  end.

Lemma Ok_iff {A : Type} (m : Result PyError A) (a : A) :
  (forall e, m = Ok e -> e = a) ->
  forall e, m = Ok e <-> is_ok m = true /\ e = a.
Proof.
  intros Hm e. destruct m as [x|err]; simpl.
  - pose proof (Hm x eq_refl) as ->. split; [intros [= <-]; auto|intros [_ ->]; auto].
  - split; [discriminate|intros [[=] _]].
Qed.

(** A constructor returns the node it builds, or raises. *)
Ltac constructor_returns :=
  let e := fresh "e" in
  let H := fresh "H" in
  intros e H; repeat (apply bind_Ok_inv in H as (? & _ & H)); congruence.

Lemma AtomicTypeLiteral_init_Ok cpp_type is_local may_error type e :
  AtomicTypeLiteral_init cpp_type is_local may_error type = Ok e
  <-> is_ok (AtomicTypeLiteral_init cpp_type is_local may_error type) = true
      /\ e = AtomicTypeLiteral cpp_type is_local may_error type.
Proof. apply Ok_iff. unfold AtomicTypeLiteral_init. constructor_returns. Qed.

Lemma unary_type_expr_init_Ok (constructor : Expr -> Expr) t e :
  unary_type_expr_init constructor t = Ok e
  <-> is_ok (unary_type_expr_init constructor t) = true /\ e = constructor t.
Proof. apply Ok_iff. unfold unary_type_expr_init. constructor_returns. Qed.

Lemma FunctionTypeExpr_init_Ok r args e :
  FunctionTypeExpr_init r args = Ok e
  <-> is_ok (FunctionTypeExpr_init r args) = true /\ e = FunctionTypeExpr r args.
Proof. apply Ok_iff. unfold FunctionTypeExpr_init. constructor_returns. Qed.

Lemma ComparisonExpr_init_Ok l r op e :
  ComparisonExpr_init l r op = Ok e
  <-> is_ok (ComparisonExpr_init l r op) = true /\ e = ComparisonExpr l r op.
Proof. apply Ok_iff. unfold ComparisonExpr_init. constructor_returns. Qed.

Lemma Int64BinaryOpExpr_init_Ok l r op e :
  Int64BinaryOpExpr_init l r op = Ok e
  <-> is_ok (Int64BinaryOpExpr_init l r op) = true /\ e = Int64BinaryOpExpr l r op.
Proof. apply Ok_iff. unfold Int64BinaryOpExpr_init. constructor_returns. Qed.

Lemma TemplateInstantiation_init_Ok t args flag e :
  TemplateInstantiation_init t args flag = Ok e
  <-> is_ok (TemplateInstantiation_init t args flag) = true
      /\ e = TemplateInstantiation t args flag.
Proof.
  apply Ok_iff. unfold TemplateInstantiation_init.
  destruct (type_of t); try discriminate. constructor_returns.
Qed.

Lemma mapM_identity {A : Type} (f : A -> Result PyError A) (ok : A -> bool)
    (xs : list A) :
  Forall (fun x => forall y, f x = Ok y <-> ok x = true /\ y = x) xs ->
  forall ys, mapM f xs = Ok ys <-> forallb ok xs = true /\ ys = xs.
Proof.
  induction 1 as [|x xs Hx _ IH]; intros ys; simpl.
  - split; [intros [= <-]; auto|intros [_ ->]; reflexivity].
  - split.
    + intros H. apply bind_Ok_inv in H as (y & Hy & H).
      apply bind_Ok_inv in H as (ys' & Hys & H). injection H as <-.
      apply Hx in Hy as [-> ->]. apply IH in Hys as [-> ->]. auto.
    + intros [H ->]. apply andb_true_iff in H as [H1 H2].
      assert (Hy : f x = Ok x) by (apply Hx; auto).
      assert (Hys : mapM f xs = Ok xs) by (apply IH; auto).
      rewrite Hy, bind_Ok, Hys. reflexivity.
Qed.

(** The base [transform_expr] goes through the constructor of every node. *)
Lemma transform_expr_rebuilds (e : Expr) (writer : Writer) (e' : Expr) :
  transform_expr e writer = Ok e' <-> constructed e = true /\ e' = e.
Proof.
  revert e'. induction e using ir0_properties.Expr_nested_ind; intros e'; simpl.
  - unfold transform_literal. split; [intros [= <-]; auto|intros [_ ->]; reflexivity].
  - apply AtomicTypeLiteral_init_Ok.
  - split.
    + intros H. apply bind_Ok_inv in H as (t' & Ht & H). apply IHe in Ht as [Ht ->].
      apply unary_type_expr_init_Ok in H as [H ->]. rewrite Ht, H. auto.
    + intros [H ->]. apply andb_true_iff in H as [H1 H2].
      rewrite (proj2 (IHe e) (conj H1 eq_refl)), bind_Ok.
      apply unary_type_expr_init_Ok. auto.
  - split.
    + intros H. apply bind_Ok_inv in H as (t' & Ht & H). apply IHe in Ht as [Ht ->].
      apply unary_type_expr_init_Ok in H as [H ->]. rewrite Ht, H. auto.
    + intros [H ->]. apply andb_true_iff in H as [H1 H2].
      rewrite (proj2 (IHe e) (conj H1 eq_refl)), bind_Ok.
      apply unary_type_expr_init_Ok. auto.
  - split.
    + intros H. apply bind_Ok_inv in H as (t' & Ht & H). apply IHe in Ht as [Ht ->].
      apply unary_type_expr_init_Ok in H as [H ->]. rewrite Ht, H. auto.
    + intros [H ->]. apply andb_true_iff in H as [H1 H2].
      rewrite (proj2 (IHe e) (conj H1 eq_refl)), bind_Ok.
      apply unary_type_expr_init_Ok. auto.
  - split.
    + intros H. apply bind_Ok_inv in H as (t' & Ht & H). apply IHe in Ht as [Ht ->].
      apply unary_type_expr_init_Ok in H as [H ->]. rewrite Ht, H. auto.
    + intros [H ->]. apply andb_true_iff in H as [H1 H2].
      rewrite (proj2 (IHe e) (conj H1 eq_refl)), bind_Ok.
      apply unary_type_expr_init_Ok. auto.
  - split.
    + intros H. apply bind_Ok_inv in H as (t' & Ht & H). apply IHe in Ht as [Ht ->].
      apply unary_type_expr_init_Ok in H as [H ->]. rewrite Ht, H. auto.
    + intros [H ->]. apply andb_true_iff in H as [H1 H2].
      rewrite (proj2 (IHe e) (conj H1 eq_refl)), bind_Ok.
      apply unary_type_expr_init_Ok. auto.
  - pose proof (mapM_identity (fun a => transform_expr a writer) constructed args H)
      as Hargs.
    split.
    + intros H0. apply bind_Ok_inv in H0 as (r' & Hr & H0). apply IHe in Hr as [Hr ->].
      apply bind_Ok_inv in H0 as (args' & Ha & H0). apply Hargs in Ha as [Ha ->].
      apply FunctionTypeExpr_init_Ok in H0 as [H0 ->]. rewrite Hr, Ha, H0. auto.
    + intros [H0 ->]. apply andb_true_iff in H0 as [H0 H3].
      apply andb_true_iff in H0 as [H1 H2].
      rewrite (proj2 (IHe e) (conj H1 eq_refl)), bind_Ok.
      rewrite (proj2 (Hargs args) (conj H2 eq_refl)), bind_Ok.
      apply FunctionTypeExpr_init_Ok. auto.
  - split.
    + intros H. apply bind_Ok_inv in H as (l' & Hl & H). apply IHe1 in Hl as [Hl ->].
      apply bind_Ok_inv in H as (r' & Hr & H). apply IHe2 in Hr as [Hr ->].
      apply ComparisonExpr_init_Ok in H as [H ->]. rewrite Hl, Hr, H. auto.
    + intros [H ->]. apply andb_true_iff in H as [H H3].
      apply andb_true_iff in H as [H1 H2].
      rewrite (proj2 (IHe1 e1) (conj H1 eq_refl)), bind_Ok.
      rewrite (proj2 (IHe2 e2) (conj H2 eq_refl)), bind_Ok.
      apply ComparisonExpr_init_Ok. auto.
  - split.
    + intros H. apply bind_Ok_inv in H as (l' & Hl & H). apply IHe1 in Hl as [Hl ->].
      apply bind_Ok_inv in H as (r' & Hr & H). apply IHe2 in Hr as [Hr ->].
      apply Int64BinaryOpExpr_init_Ok in H as [H ->]. rewrite Hl, Hr, H. auto.
    + intros [H ->]. apply andb_true_iff in H as [H H3].
      apply andb_true_iff in H as [H1 H2].
      rewrite (proj2 (IHe1 e1) (conj H1 eq_refl)), bind_Ok.
      rewrite (proj2 (IHe2 e2) (conj H2 eq_refl)), bind_Ok.
      apply Int64BinaryOpExpr_init_Ok. auto.
  - pose proof (mapM_identity (fun a => transform_expr a writer) constructed args H)
      as Hargs.
    split.
    + intros H0. apply bind_Ok_inv in H0 as (t' & Ht & H0). apply IHe in Ht as [Ht ->].
      apply bind_Ok_inv in H0 as (args' & Ha & H0). apply Hargs in Ha as [Ha ->].
      apply TemplateInstantiation_init_Ok in H0 as [H0 ->]. rewrite Ht, Ha, H0. auto.
    + intros [H0 ->]. apply andb_true_iff in H0 as [H0 H3].
      apply andb_true_iff in H0 as [H1 H2].
      rewrite (proj2 (IHe e) (conj H1 eq_refl)), bind_Ok.
      rewrite (proj2 (Hargs args) (conj H2 eq_refl)), bind_Ok.
      apply TemplateInstantiation_init_Ok. auto.
  - split.
    + intros H. apply bind_Ok_inv in H as (x' & Hx & H). apply IHe in Hx as [Hx ->].
      injection H as <-. auto.
    + intros [H ->]. rewrite (proj2 (IHe e) (conj H eq_refl)). reflexivity.
  - split.
    + intros H. apply bind_Ok_inv in H as (x' & Hx & H). apply IHe in Hx as [Hx ->].
      injection H as <-. auto.
    + intros [H ->]. rewrite (proj2 (IHe e) (conj H eq_refl)). reflexivity.
  - split.
    + intros H. apply bind_Ok_inv in H as (x' & Hx & H). apply IHe in Hx as [Hx ->].
      injection H as <-. auto.
    + intros [H ->]. rewrite (proj2 (IHe e) (conj H eq_refl)). reflexivity.
  - split.
    + intros H. apply bind_Ok_inv in H as (x' & Hx & H). apply IHe in Hx as [Hx ->].
      injection H as <-. auto.
    + intros [H ->]. rewrite (proj2 (IHe e) (conj H eq_refl)). reflexivity.
Qed.

(** X7.  [Transformation.transform_expr], with no method overridden, returns
    an expression exactly when every node of its argument passes the
    assertions of its constructor, and what it returns is its argument: it
    rebuilds the expression node by node and changes nothing. *)
Theorem transform_expr_identity (e : Expr) (writer : Writer) (e' : Expr) :
  transform_expr e writer = Ok e' <-> constructed e = true /\ e' = e.
Proof. exact (transform_expr_rebuilds e writer e'). Qed.

End transform_ir0_identity.

(** * The base transformation is the identity on headers *)
Module transform_ir0_header_identity.
Import ir0 transform_ir0 transform_ir0_identity.

Definition constructed_static_assert (a : StaticAssert) : bool :=
  constructed (sa_expr a) && is_ok (StaticAssert_init (sa_expr a) (sa_message a)).

Definition constructed_constant_def (c : ConstantDef) : bool :=
  constructed (cd_expr c) && is_ok (ConstantDef_init (cd_name c) (cd_expr c)).

Definition constructed_typedef (t : Typedef) : bool :=
  constructed (td_expr t) && is_ok (Typedef_init (td_name t) (td_expr t)).

(** The template definition, the specializations in it and the elements of
    their bodies pass the assertions of their constructors, and the result
    element names are sorted, as [TemplateDefn.__init__] leaves them. *)
Fixpoint constructed_defn (d : TemplateDefn) : bool :=
  match d with
  | mkTemplateDefn args main_definition specializations name description names =>
      match main_definition with
      | Some m => constructed_specialization m
      | None => true
      end
      && forallb constructed_specialization specializations
      && is_ok (TemplateDefn_init args main_definition specializations name description
                  names)
      && bool_decide (sorted names = names)
  end
with constructed_specialization (sp : TemplateSpecialization) : bool :=
  match sp with
  | mkTemplateSpecialization args patterns body =>
      match patterns with
      | Some ps => forallb constructed ps
      | None => true
      end
      && forallb constructed_elem body
  end
with constructed_elem (elem : TemplateBodyElement) : bool :=
  match elem with
  | ElemStaticAssert a => constructed_static_assert a
  | ElemConstantDef c => constructed_constant_def c
  | ElemTypedef t => constructed_typedef t
  | ElemTemplateDefn d => constructed_defn d
  end.

(** A header whose template definitions and toplevel content were built by
    the constructors; its toplevel content holds no template definition. *)
Definition constructed_header (header : Header) : bool :=
  forallb constructed_defn (ir0.template_defns header)
  && forallb (fun elem =>
                match elem with
                | ElemTemplateDefn _ => false
                | _ => constructed_elem elem
                end) (toplevel_content header).

Lemma is_ok_Ok {A : Type} (m : Result PyError A) (a : A) :
  (forall e, m = Ok e -> e = a) -> is_ok m = true -> m = Ok a.
Proof. intros Hm H. destruct m as [x|]; [|discriminate H]. f_equal. apply Hm. reflexivity. Qed.

Lemma transform_static_assert_constructed a w :
  constructed_static_assert a = true ->
  transform_static_assert a w = write w (ElemStaticAssert a).
Proof.
  unfold constructed_static_assert, transform_static_assert. intros H.
  apply andb_true_iff in H as [H1 H2].
  rewrite (proj2 (transform_expr_rebuilds _ w _) (conj H1 eq_refl)), bind_Ok.
  rewrite (is_ok_Ok _ a); [reflexivity| |exact H2].
  unfold StaticAssert_init. destruct a; simpl. constructor_returns.
Qed.

Lemma transform_constant_def_constructed c w :
  constructed_constant_def c = true ->
  transform_constant_def c w = write w (ElemConstantDef c).
Proof.
  unfold constructed_constant_def, transform_constant_def. intros H.
  apply andb_true_iff in H as [H1 H2].
  rewrite (proj2 (transform_expr_rebuilds _ w _) (conj H1 eq_refl)), bind_Ok.
  rewrite (is_ok_Ok _ c); [reflexivity| |exact H2].
  unfold ConstantDef_init. destruct c; simpl. constructor_returns.
Qed.

Lemma transform_typedef_constructed t w :
  constructed_typedef t = true ->
  transform_typedef t w = write w (ElemTypedef t).
Proof.
  unfold constructed_typedef, transform_typedef. intros H.
  apply andb_true_iff in H as [H1 H2].
  rewrite (proj2 (transform_expr_rebuilds _ w _) (conj H1 eq_refl)), bind_Ok.
  rewrite (is_ok_Ok _ t); [reflexivity| |exact H2].
  unfold Typedef_init. destruct t; simpl. constructor_returns.
Qed.

Lemma map_transform_template_arg_decl args :
  map transform_template_arg_decl args = args.
Proof. induction args as [|a l IH]; simpl; [reflexivity|]. rewrite IH. reflexivity. Qed.

Lemma set_own_toplevel_writer w : set_toplevel_writer w (get_toplevel_writer w) = w.
Proof. destruct w; reflexivity. Qed.

Lemma mapM_patterns_constructed ps w :
  forallb constructed ps = true ->
  mapM (fun pattern => transform_pattern pattern w) ps = Ok ps.
Proof.
  induction ps as [|p ps IH]; simpl; [reflexivity|]. intros H.
  apply andb_true_iff in H as [H1 H2].
  change (transform_pattern p w) with (transform_expr p w).
  rewrite (proj2 (transform_expr_rebuilds _ w _) (conj H1 eq_refl)), bind_Ok.
  rewrite (IH H2). reflexivity.
Qed.

Fixpoint transform_template_defn_constructed (d : TemplateDefn) {struct d} :
  constructed_defn d = true ->
  forall w, transform_template_defn d w = write w (ElemTemplateDefn d)
with transform_template_specialization_constructed (sp : TemplateSpecialization)
    {struct sp} :
  constructed_specialization sp = true ->
  forall w, transform_template_specialization sp w = Ok (sp, w)
with transform_template_body_elem_constructed (elem : TemplateBodyElement)
    {struct elem} :
  constructed_elem elem = true ->
  forall w, transform_template_body_elem elem w = write w elem.
Proof.
  - destruct d as [args main specs name description names]. intros H w.
    simpl in H. apply andb_true_iff in H as [H Hsorted].
    apply andb_true_iff in H as [H Hinit]. apply andb_true_iff in H as [Hmain Hspecs].
    apply bool_decide_eq_true in Hsorted.
    simpl. rewrite map_transform_template_arg_decl.
    assert (Hm : match main with
                 | Some m =>
                     transform_template_specialization m w
                     ≫= (fun '(m', writer) => Ok (Some m', writer))
                 | None => Ok (None, w)
                 end = Ok (main, w)).
    { destruct main as [m|]; [|reflexivity].
      rewrite (transform_template_specialization_constructed m Hmain). reflexivity. }
    rewrite Hm, bind_Ok. cbv beta iota.
    assert (Hs : mapM_st transform_template_specialization specs w = Ok (specs, w)).
    { clear Hinit Hm. induction specs as [|sp l IHl]; [reflexivity|].
      simpl in Hspecs. apply andb_true_iff in Hspecs as [H1 H2]. simpl.
      rewrite (transform_template_specialization_constructed sp H1), bind_Ok.
      cbv beta iota. rewrite (IHl H2). reflexivity. }
    rewrite Hs, bind_Ok. cbv beta iota.
    rewrite (is_ok_Ok _ (mkTemplateDefn args main specs name description names));
      [reflexivity| |exact Hinit].
    unfold TemplateDefn_init. rewrite Hsorted. constructor_returns.
  - destruct sp as [args patterns body]. intros H w.
    simpl in H. apply andb_true_iff in H as [Hpatterns Hbody].
    simpl. rewrite map_transform_template_arg_decl.
    assert (Hp : match patterns with
                 | Some ps =>
                     mapM (fun pattern => transform_pattern pattern w) ps
                     ≫= (fun ps' => Ok (Some ps'))
                 | None => Ok None
                 end = Ok patterns).
    { destruct patterns as [ps|]; [|reflexivity].
      rewrite (mapM_patterns_constructed ps w Hpatterns). reflexivity. }
    rewrite Hp, bind_Ok.
    assert (Hb : forall elems,
               for_each transform_template_body_elem body
                 (W_TemplateBody (get_toplevel_writer w) elems)
               = Ok (W_TemplateBody (get_toplevel_writer w) (elems ++ body))).
    { clear Hp. induction body as [|elem l IHl]; intros elems.
      - simpl. rewrite app_nil_r. reflexivity.
      - simpl in Hbody. apply andb_true_iff in Hbody as [H1 H2]. simpl.
        rewrite (transform_template_body_elem_constructed elem H1). simpl.
        rewrite (IHl H2), <- app_assoc. reflexivity. }
    rewrite Hb, bind_Ok. simpl. rewrite set_own_toplevel_writer. reflexivity.
  - destruct elem as [a|c|t|d]; intros H w; simpl in H; simpl.
    + apply transform_static_assert_constructed. exact H.
    + apply transform_constant_def_constructed. exact H.
    + apply transform_typedef_constructed. exact H.
    + apply transform_template_defn_constructed. exact H.
Qed.

Lemma transform_toplevel_elem_constructed elem w :
  match elem with
  | ElemTemplateDefn _ => false
  | _ => constructed_elem elem
  end = true ->
  transform_toplevel_elem elem w = write w elem.
Proof.
  destruct elem as [a|c|t|d]; intros H; simpl; [| | |discriminate H].
  - apply transform_static_assert_constructed. exact H.
  - apply transform_constant_def_constructed. exact H.
  - apply transform_typedef_constructed. exact H.
Qed.

(** X8.  Run on a header that the constructors of [ir0.py] built, the base
    [Transformation] returns the header itself: the same template
    definitions and toplevel content in the same order, and the same public
    names.  This holds for every identifier generator, also one that yields
    nothing. *)
Theorem transform_header_identity (header : Header)
    (identifier_generator : IdentifierGenerator) :
  constructed_header header = true ->
  transform_header base_Transformation tt header identifier_generator = Ok (header, tt).
Proof.
  unfold constructed_header, transform_header. intros H.
  apply andb_true_iff in H as [Hdefns Hcontent]. cbv zeta.
  assert (H1 : forall defns done elems,
             forallb constructed_defn defns = true ->
             for_each_self (self_transform_template_defn base_Transformation) defns tt
               (W_Toplevel (mkToplevelWriter identifier_generator done elems true true))
             = Ok (tt, W_Toplevel (mkToplevelWriter identifier_generator (done ++ defns)
                                     elems true true))).
  { induction defns as [|d l IHl]; intros done elems Hl.
    - simpl. rewrite app_nil_r. reflexivity.
    - simpl in Hl. apply andb_true_iff in Hl as [Hd Hl]. simpl.
      rewrite (transform_template_defn_constructed d Hd). simpl.
      rewrite ?bind_Ok. cbv beta iota. rewrite (IHl _ _ Hl), <- app_assoc. reflexivity. }
  assert (H2 : forall content done elems,
             forallb (fun elem => match elem with
                                  | ElemTemplateDefn _ => false
                                  | _ => constructed_elem elem
                                  end) content = true ->
             for_each_self (self_transform_toplevel_elem base_Transformation) content tt
               (W_Toplevel (mkToplevelWriter identifier_generator done elems true true))
             = Ok (tt, W_Toplevel (mkToplevelWriter identifier_generator done
                                     (elems ++ content) true true))).
  { induction content as [|elem l IHl]; intros done elems Hl.
    - simpl. rewrite app_nil_r. reflexivity.
    - simpl in Hl. apply andb_true_iff in Hl as [Hd Hl]. simpl.
      rewrite (transform_toplevel_elem_constructed elem _ Hd).
      assert (Hw : write (W_Toplevel (mkToplevelWriter identifier_generator done elems
                                        true true)) elem
                   = Ok (W_Toplevel (mkToplevelWriter identifier_generator done
                                       (elems ++ [elem]) true true))).
      { destruct elem; try discriminate Hd; reflexivity. }
      rewrite Hw, ?bind_Ok. cbv beta iota. rewrite (IHl _ _ Hl), <- app_assoc.
      reflexivity. }
  unfold ToplevelWriter_init. rewrite (H1 _ [] [] Hdefns), ?bind_Ok. cbv beta iota.
  rewrite (H2 _ _ [] Hcontent), ?bind_Ok. cbv beta iota. simpl.
  destruct header. reflexivity.
Qed.

Lemma transform_header_identity_witness :
  transform_header base_Transformation tt ir0_to_cpp_header_properties.negate_template
    (mkGen (fun _ => None) 0)
  = Ok (ir0_to_cpp_header_properties.negate_template, tt).
Proof.
  apply transform_header_identity. reflexivity.
Defined.

(** A template definition whose result element names are not sorted cannot
    come from the constructor, and the base transformation returns it with
    the names sorted. *)
Example transform_header_sorts_result_element_names :
  let unsorted names :=
    mkHeader
      [mkTemplateDefn [] (Some (mkTemplateSpecialization [] None [])) [] "pair" EmptyString
         names] [] ∅ in
  constructed_header (unsorted ["second"; "first"]) = false
  /\ transform_header base_Transformation tt (unsorted ["second"; "first"])
       (mkGen (fun _ => None) 0)
     = Ok (unsorted ["first"; "second"], tt).
Proof. split; reflexivity. Qed.

End transform_ir0_header_identity.

(** * Properties of the regular expressions *)
Module re_properties.
Import re.

Lemma app_cons (c : ascii) (a b : string) : String c a +:+ b = String c (a +:+ b).
Proof. reflexivity. Qed.

Lemma app_nil_l (b : string) : EmptyString +:+ b = b.
Proof. reflexivity. Qed.

Lemma app_nil_r (a : string) : a +:+ EmptyString = a.
Proof. induction a as [|c a IH]; [reflexivity|]. rewrite app_cons, IH. reflexivity. Qed.

Lemma app_assoc (a b c : string) : (a +:+ b) +:+ c = a +:+ (b +:+ c).
Proof. induction a as [|ch a IH]; [reflexivity|]. rewrite !app_cons, IH. reflexivity. Qed.

Lemma app_eq_nil (a b : string) :
  a +:+ b = EmptyString -> a = EmptyString /\ b = EmptyString.
Proof. destruct a; [rewrite app_nil_l; auto|rewrite app_cons; discriminate]. Qed.

Lemma app_eq_cons (a b : string) (c : ascii) (w : string) :
  a +:+ b = String c w ->
  (a = EmptyString /\ b = String c w) \/ (exists a', a = String c a' /\ w = a' +:+ b).
Proof.
  destruct a as [|c' a'].
  - rewrite app_nil_l. auto.
  - rewrite app_cons. intros [= -> <-]. right. eauto.
Qed.

(** Zero or more words of [L], one after the other. *)
Inductive star (L : string -> Prop) : string -> Prop :=
| star_nil : star L EmptyString
| star_app (a b : string) : L a -> star L b -> star L (a +:+ b).

(** The strings a pattern matches in full. *)
Fixpoint language (r : regex) (w : string) : Prop :=
  match r with
  | Nothing => False
  | Epsilon => w = EmptyString
  | Chars class => exists c, w = String c EmptyString /\ class c = true
  | Seq r s => exists a b, w = a +:+ b /\ language r a /\ language s b
  | Alt r s => language r w \/ language s w
  | Star r => star (language r) w
  end.

Lemma nullable_language (r : regex) : nullable r = true <-> language r EmptyString.
Proof.
  induction r as [| |class|r IHr s IHs|r IHr s IHs|r IHr]; simpl.
  - split; [discriminate|contradiction].
  - split; auto.
  - split; [discriminate|]. intros (c & H & _). discriminate H.
  - rewrite andb_true_iff, IHr, IHs. split.
    + intros [H1 H2]. exists EmptyString, EmptyString. auto.
    + intros (a & b & H & Ha & Hb). symmetry in H. apply app_eq_nil in H as [-> ->]. auto.
  - rewrite orb_true_iff, IHr, IHs. reflexivity.
  - split; [intros _; constructor|reflexivity].
Qed.

Lemma star_cons_inv (L : string -> Prop) (c : ascii) (w : string) :
  star L (String c w) ->
  exists a b, w = a +:+ b /\ L (String c a) /\ star L b.
Proof.
  intros H. remember (String c w) as x eqn:E. revert c w E.
  induction H as [|a b Ha Hb IH]; intros c w E; [discriminate E|].
  apply app_eq_cons in E as [[-> ->]|(a' & -> & ->)].
  - apply IH. reflexivity.
  - exists a', b. auto.
Qed.

Lemma derivative_language (r : regex) (c : ascii) (w : string) :
  language (derivative c r) w <-> language r (String c w).
Proof.
  revert w. induction r as [| |class|r IHr s IHs|r IHr s IHs|r IHr]; intros w; simpl.
  - reflexivity.
  - split; [contradiction|discriminate].
  - destruct (class c) eqn:E; simpl.
    + split; [intros ->; eauto|]. intros (c' & Hc & _). injection Hc as _ ->. reflexivity.
    + split; [contradiction|]. intros (c' & Hc & H). injection Hc as <- _. congruence.
  - assert (Hseq : language (Seq (derivative c r) s) w
                   <-> exists a b, String c w = a +:+ b /\ a <> EmptyString
                                   /\ language r a /\ language s b).
    { simpl. split.
      - intros (a & b & -> & Ha & Hb). apply IHr in Ha.
        exists (String c a), b. repeat split; auto; discriminate.
      - intros (a & b & E & Hne & Ha & Hb). symmetry in E.
        apply app_eq_cons in E as [[-> _]|(a' & -> & ->)]; [contradiction|].
        exists a', b. split; [reflexivity|]. split; [apply IHr; exact Ha|exact Hb]. }
    destruct (nullable r) eqn:En.
    + change (language (Seq (derivative c r) s) w \/ language (derivative c s) w
              <-> exists a b, String c w = a +:+ b /\ language r a /\ language s b).
      rewrite Hseq, IHs. split.
      * intros [(a & b & E & _ & Ha & Hb)|H]; [eauto|].
        exists EmptyString, (String c w). split; [reflexivity|].
        split; [apply nullable_language; exact En|exact H].
      * intros (a & b & E & Ha & Hb). destruct a as [|c' a'].
        -- right. rewrite app_nil_l in E. subst b. exact Hb.
        -- left. exists (String c' a'), b. repeat split; auto; discriminate.
    + rewrite Hseq. split.
      * intros (a & b & E & _ & Ha & Hb). eauto.
      * intros (a & b & E & Ha & Hb). exists a, b. repeat split; auto.
        intros ->. apply nullable_language in Ha. congruence.
  - rewrite IHr, IHs. reflexivity.
  - split.
    + intros (a & b & -> & Ha & Hb). apply IHr in Ha.
      rewrite <- app_cons. constructor; assumption.
    + intros H. apply star_cons_inv in H as (a & b & -> & Ha & Hb).
      exists a, b. split; [reflexivity|]. split; [apply IHr; exact Ha|exact Hb].
Qed.

(** [fullmatch] decides the language of the pattern. *)
Lemma fullmatch_language (r : regex) (w : string) :
  fullmatch r w = true <-> language r w.
Proof.
  revert r. induction w as [|c w IH]; intros r; simpl.
  - apply nullable_language.
  - rewrite IH. apply derivative_language.
Qed.

(** The words of [Chars class *] are the strings over the class. *)
Lemma star_chars (class : ascii -> bool) (w : string) :
  star (language (Chars class)) w
  <-> forallb class (list_ascii_of_string w) = true.
Proof.
  split.
  - induction 1 as [|a b (c & -> & Hc) _ IH]; [reflexivity|].
    rewrite app_cons, app_nil_l. simpl. rewrite Hc, IH. reflexivity.
  - induction w as [|c w IH]; simpl; [constructor|].
    intros H. apply andb_true_iff in H as [Hc Hw].
    change (String c w) with (String c EmptyString +:+ w).
    constructor; [exists c; auto|apply IH; exact Hw].
Qed.

End re_properties.

(** * Atomic types *)
Module ast_to_ir3_names_properties.
Import ast ast_to_ir3 ast_to_ir3_names re re_properties.

(** A C++ identifier: a letter or an underscore, then letters, digits and
    underscores. *)
Definition cxx_identifier (s : string) : bool :=
  match s with
  | String c rest =>
      letter_or_underscore c
      && forallb letter_digit_or_underscore (list_ascii_of_string rest)
  | EmptyString => false
  end.

(** [::id1::id2...] *)
Fixpoint qualifiers (ids : list string) : string :=
  match ids with
  | [] => EmptyString
  | id :: rest => "::" +:+ id +:+ qualifiers rest
  end.

Lemma join_qualifiers (first : string) (rest : list string) :
  join "::" (first :: rest) = first +:+ qualifiers rest.
Proof.
  unfold join. revert first. induction rest as [|id rest IH]; intros first.
  - simpl. rewrite app_nil_r. reflexivity.
  - change (String.concat "::" (first :: id :: rest))
      with (first +:+ "::" +:+ String.concat "::" (id :: rest)).
    rewrite IH. simpl qualifiers. reflexivity.
Qed.

Lemma cxx_identifier_language (s : string) :
  language _cxx_identifier_regex s <-> cxx_identifier s = true.
Proof.
  unfold _cxx_identifier_regex. simpl. split.
  - intros (a & b & -> & (c & -> & Hc) & Hb). apply star_chars in Hb.
    rewrite app_cons, app_nil_l. simpl. rewrite Hc, Hb. reflexivity.
  - destruct s as [|c rest]; simpl; [discriminate|]. intros H.
    apply andb_true_iff in H as [Hc Hrest].
    exists (String c EmptyString), rest. split; [reflexivity|].
    split; [exists c; auto|apply star_chars; exact Hrest].
Qed.

Lemma colon_language (w : string) :
  language (char ":") w <-> w = ":".
Proof.
  unfold char. cbn [language]. split.
  - intros (c & -> & Hc). apply Ascii.eqb_eq in Hc. subst c. reflexivity.
  - intros ->. exists ":"%char. split; reflexivity.
Qed.

Lemma qualifier_language (w : string) :
  language (Seq (char ":") (Seq (char ":") _cxx_identifier_regex)) w
  <-> exists id, cxx_identifier id = true /\ w = "::" +:+ id.
Proof.
  change (language (Seq (char ":") (Seq (char ":") _cxx_identifier_regex)) w)
    with (exists a b, w = a +:+ b /\ language (char ":") a
                      /\ exists a' b', b = a' +:+ b' /\ language (char ":") a'
                                       /\ language _cxx_identifier_regex b').
  split.
  - intros (a & b & -> & Ha & a' & b' & -> & Ha' & Hb').
    apply colon_language in Ha, Ha'. subst a a'. apply cxx_identifier_language in Hb'.
    exists b'. split; [exact Hb'|reflexivity].
  - intros (id & Hid & ->). exists ":", (":" +:+ id). split; [reflexivity|].
    split; [apply colon_language; reflexivity|].
    exists ":", id. split; [reflexivity|].
    split; [apply colon_language; reflexivity|apply cxx_identifier_language; exact Hid].
Qed.

Lemma qualifiers_language (w : string) :
  star (language (Seq (char ":") (Seq (char ":") _cxx_identifier_regex))) w
  <-> exists ids, Forall (fun id => cxx_identifier id = true) ids /\ w = qualifiers ids.
Proof.
  split.
  - induction 1 as [|a b Ha _ (ids & Hids & ->)].
    + exists []. split; [constructor|reflexivity].
    + apply qualifier_language in Ha as (id & Hid & ->).
      exists (id :: ids). split; [constructor; assumption|].
      simpl. rewrite !app_assoc. reflexivity.
  - intros (ids & Hids & ->). induction Hids as [|id ids Hid _ IH]; [constructor|].
    simpl. replace ("::" +:+ id +:+ qualifiers ids)
             with (("::" +:+ id) +:+ qualifiers ids) by (rewrite !app_assoc; reflexivity).
    constructor; [|exact IH]. apply qualifier_language. eauto.
Qed.

(** [s] is made of C++ identifiers separated by [::]. *)
Definition qualified_identifier (s : string) : Prop :=
  exists first rest,
    Forall (fun id => cxx_identifier id = true) (first :: rest)
    /\ s = join "::" (first :: rest).

Lemma check_atomic_type_regex_language (s : string) :
  fullmatch _check_atomic_type_regex s = true <-> qualified_identifier s.
Proof.
  rewrite fullmatch_language. unfold qualified_identifier.
  change (language _check_atomic_type_regex s)
    with (exists a b, s = a +:+ b /\ language (Chars letter_or_underscore) a
                      /\ exists a' b', b = a' +:+ b'
                           /\ star (language (Chars letter_digit_or_underscore)) a'
                           /\ star (language (Seq (char ":")
                                                (Seq (char ":") _cxx_identifier_regex))) b').
  split.
  - intros (a & b & -> & (c & -> & Hc) & a' & b' & -> & Ha' & Hb').
    apply star_chars in Ha'. apply qualifiers_language in Hb' as (ids & Hids & ->).
    exists (String c a'), ids. split.
    + constructor; [|exact Hids]. simpl. rewrite Hc, Ha'. reflexivity.
    + rewrite join_qualifiers. reflexivity.
  - intros (first & rest & Hall & ->). rewrite join_qualifiers.
    inversion Hall as [|? ? Hfirst Hrest]; subst.
    destruct first as [|c first]; [discriminate Hfirst|]. simpl in Hfirst.
    apply andb_true_iff in Hfirst as [Hc Hfirst].
    exists (String c EmptyString), (first +:+ qualifiers rest).
    split; [reflexivity|]. split; [exists c; auto|].
    exists first, (qualifiers rest). split; [reflexivity|].
    split; [apply star_chars; exact Hfirst|apply qualifiers_language; eauto].
Qed.

Section AtomicTypes.
Context {N : ir3.Nodes} {NN : NameNodes}.

(** X9.  [Type('...')], with one string argument and no keyword, elaborates
    to the atomic type of that string exactly when the string is made of C++
    identifiers separated by [::]; any other string is a compilation error on
    the string. *)
Theorem atomic_type_literal_accepts_qualified_identifiers
    (func : AST) (s : string) (compilation_context : CompilationContext)
    (in_match_pattern : bool) (check_var_reference : AST -> Result Error unit) :
  (qualified_identifier s ->
   atomic_type_literal_ast_to_ir3 (Call func [Str s] []) compilation_context
     in_match_pattern check_var_reference = Ok (AtomicTypeLiteral s))
  /\ (~ qualified_identifier s ->
      atomic_type_literal_ast_to_ir3 (Call func [Str s] []) compilation_context
        in_match_pattern check_var_reference
      = Raise (CompilationError (Str s) invalid_atomic_type_message [])).
Proof.
  unfold atomic_type_literal_ast_to_ir3, _check_atomic_type.
  rewrite bind_Ok. rewrite <- check_atomic_type_regex_language.
  destruct (fullmatch _check_atomic_type_regex s); simpl.
  - split; [reflexivity|]. intros H. exfalso. apply H. reflexivity.
  - split; [discriminate|reflexivity].
Qed.

End AtomicTypes.

(** [std::size_t] is accepted; the empty string, a pointer type, a name that
    starts with a digit, a name that ends in two colons and a name with three
    colons are not. *)
Example atomic_type_names :
  fullmatch _check_atomic_type_regex "std::size_t" = true
  /\ fullmatch _check_atomic_type_regex EmptyString = false
  /\ fullmatch _check_atomic_type_regex "int*" = false
  /\ fullmatch _check_atomic_type_regex "1x" = false
  /\ fullmatch _check_atomic_type_regex "std::" = false
  /\ fullmatch _check_atomic_type_regex "std:::size_t" = false.
Proof. repeat split; reflexivity. Qed.

End ast_to_ir3_names_properties.

(** * Properties of symbol tables and contexts *)
Module ast_to_ir3_context_properties.
Import ast ast_to_ir3 ast_to_ir3_context ast_to_ir3_properties.

(** What a lookup finds, whichever scope holds it. *)
Definition entry (r : SymbolLookupResult) : Symbol * AST * bool :=
  (lookup_symbol r, lookup_ast_node r, is_only_partially_defined r).

Lemma get_symbol_definition_own m p name symbol node partially :
  m !! name = Some (symbol, node, partially) ->
  SymbolTable_get_symbol_definition (mkSymbolTable m p) name
  = Some (mkSymbolLookupResult symbol node partially (mkSymbolTable m p)).
Proof. intros H. simpl. rewrite H. reflexivity. Qed.

Lemma get_symbol_definition_enclosing m p name :
  m !! name = None ->
  SymbolTable_get_symbol_definition (mkSymbolTable m p) name
  = match p with
    | Some t => SymbolTable_get_symbol_definition t name
    | None => None
    end.
Proof. intros H. simpl. rewrite H. reflexivity. Qed.

(** X10.  [SymbolTable.add_symbol] followed by [get_symbol_definition]: the
    name that was added is found in the table itself, with the type, the
    definition node and the flags it was added with; a lookup of any other
    name finds what it found before, in the same scope when that scope is an
    enclosing one.  The enclosing scopes are untouched. *)
Theorem symbol_table_add_then_get (t : SymbolTable) (name : string)
    (type : ir3.ExprType) (node : AST) (partially may_throw : bool) (t' : SymbolTable) :
  SymbolTable_add_symbol t name type node partially may_throw = Ok t' ->
  SymbolTable_get_symbol_definition t' name
  = Some (mkSymbolLookupResult (mkSymbol type name may_throw) node partially t')
  /\ parent t' = parent t
  /\ (forall other, other <> name ->
        option_map entry (SymbolTable_get_symbol_definition t' other)
        = option_map entry (SymbolTable_get_symbol_definition t other))
  /\ (forall other, other <> name -> symbols_by_name t !! other = None ->
        SymbolTable_get_symbol_definition t' other
        = SymbolTable_get_symbol_definition t other).
Proof.
  unfold SymbolTable_add_symbol, Symbol_init. intros H.
  apply bind_Ok_inv in H as ([] & _ & H). apply bind_Ok_inv in H as (symbol & Hs & H).
  apply bind_Ok_inv in Hs as ([] & _ & Hs). injection Hs as <-. injection H as <-.
  destruct t as [m p]. simpl symbols_by_name. simpl parent.
  split; [apply get_symbol_definition_own, lookup_insert_eq|].
  split; [reflexivity|]. split.
  - intros other Hne. simpl. rewrite lookup_insert_ne by congruence.
    destruct (m !! other) as [[[s n] b]|]; reflexivity.
  - intros other Hne Hnone. simpl in Hnone. simpl.
    rewrite lookup_insert_ne by congruence. rewrite Hnone. reflexivity.
Qed.

Definition global_scope_with_f : SymbolTable :=
  mkSymbolTable
    {[ "f" := (mkSymbol (ir3.FunctionType [ir3.IntType] ir3.BoolType) "f" true,
               Other "def f", false) ]}
    None.

(** The scope with [x], inside the global scope. *)
Definition scope_with_x : SymbolTable :=
  mkSymbolTable {[ "x" := (mkSymbol ir3.IntType "x" false, Name "x" Store, false) ]}
    (Some global_scope_with_f).

Lemma symbol_table_add_then_get_witness :
  SymbolTable_get_symbol_definition scope_with_x "x"
  = Some (mkSymbolLookupResult (mkSymbol ir3.IntType "x" false) (Name "x" Store) false
            scope_with_x)
  /\ SymbolTable_get_symbol_definition scope_with_x "f"
     = SymbolTable_get_symbol_definition (mkSymbolTable ∅ (Some global_scope_with_f)) "f".
Proof.
  destruct (symbol_table_add_then_get (mkSymbolTable ∅ (Some global_scope_with_f)) "x"
              ir3.IntType (Name "x" Store) false false scope_with_x eq_refl)
    as (H1 & _ & _ & H2).
  split; [exact H1|]. apply H2; [discriminate|reflexivity].
Defined.

(** ** No redefinition *)

(** The contexts reached from [base] by entering scopes and adding
    symbols. *)
Inductive descends_from (base : CompilationContext) : CompilationContext -> Prop :=
| descends_refl : descends_from base base
| descends_child context function_name :
    descends_from base context ->
    descends_from base (create_child_context context function_name)
| descends_add context name type node partially may_throw context' :
    descends_from base context ->
    add_symbol context name type node partially may_throw = Ok context' ->
    descends_from base context'.

Lemma add_symbol_Ok context name type node partially may_throw context' :
  add_symbol context name type node partially may_throw = Ok context' ->
  not_defined context name
  /\ context'
     = with_symbols context
         (<[name := (mkSymbol type name may_throw, node, partially)]>
            (symbols_by_name (symbol_table context))).
Proof.
  unfold add_symbol. intros H.
  apply bind_Ok_inv in H as ([] & _ & H). apply bind_Ok_inv in H as ([] & Hc & H).
  apply bind_Ok_inv in H as (t & Ht & H). injection H as <-.
  unfold SymbolTable_add_symbol, Symbol_init in Ht.
  apply bind_Ok_inv in Ht as ([] & _ & Ht). apply bind_Ok_inv in Ht as (s & Hs & Ht).
  apply bind_Ok_inv in Hs as ([] & _ & Hs). injection Hs as <-. injection Ht as <-.
  split; [|reflexivity].
  unfold _check_not_already_defined in Hc. unfold not_defined.
  destruct (SymbolTable_get_symbol_definition (symbol_table context) name) as [r|].
  - destruct (is_only_partially_defined r); discriminate Hc.
  - destruct (SymbolTable_get_symbol_definition (custom_types_symbol_table context) name)
      as [r|].
    + destruct (is_only_partially_defined r); discriminate Hc.
    + destruct (partially_typechecked_function_definitions_by_name context !! name);
        [discriminate Hc|auto].
Qed.

Lemma add_symbol_defined context name r type node partially may_throw :
  get_symbol_definition context name = Some r ->
  (may_throw = true -> ir3.is_FunctionType type = true) ->
  add_symbol context name type node partially may_throw
  = Raise (CompilationError node
             (name +:+ (if is_only_partially_defined r
                        then " could be already initialized at this point."
                        else " was already defined in this scope."))
             [(lookup_ast_node r,
               if is_only_partially_defined r
               then "It might have been initialized here (depending on which branch is taken)."
               else "The previous declaration was here.")]).
Proof.
  unfold get_symbol_definition, add_symbol, _check_not_already_defined. intros Hr Hthrow.
  rewrite Hr.
  assert (Ha : (if may_throw then assert_ (ir3.is_FunctionType type) else Ok tt) = Ok tt).
  { destruct may_throw; [rewrite Hthrow; reflexivity|reflexivity]. }
  rewrite Ha, bind_Ok. destruct (is_only_partially_defined r); reflexivity.
Qed.

Lemma descends_keeps_definitions base context name r :
  descends_from base context ->
  get_symbol_definition base name = Some r ->
  exists r', get_symbol_definition context name = Some r' /\ entry r' = entry r.
Proof.
  intros Hd Hr. induction Hd as [|context fn _ (r' & Hr' & He)
                                 |context name0 ty node p mt context' _ (r' & Hr' & He) Hadd].
  - exists r. auto.
  - exists r'. split; [|exact He]. unfold get_symbol_definition, create_child_context.
    simpl. rewrite lookup_empty. exact Hr'.
  - apply add_symbol_Ok in Hadd as [(Hnone & _) ->].
    assert (Hne : name <> name0).
    { intros ->. unfold get_symbol_definition in Hr'. congruence. }
    unfold get_symbol_definition in *. unfold with_symbols. simpl.
    destruct (symbol_table context) as [m pt]. simpl in *.
    rewrite lookup_insert_ne by congruence.
    destruct (m !! name) as [[[s n] b]|].
    + injection Hr' as <-. eexists. split; [reflexivity|]. rewrite <- He. reflexivity.
    + exists r'. auto.
Qed.

(** X11.  A name that is defined stays defined, with the same symbol, the
    same definition node and the same flag, in every context reached by
    entering scopes and adding symbols; there, [add_symbol] never adds it
    again: it raises a compilation error that points to the first
    definition (when its own assertion on functions that may throw holds). *)
Theorem no_redefinition_in_nested_scopes
    (base context : CompilationContext) (name : string) (r : SymbolLookupResult) :
  descends_from base context ->
  get_symbol_definition base name = Some r ->
  (exists r', get_symbol_definition context name = Some r' /\ entry r' = entry r)
  /\ forall type node partially may_throw,
       is_ok (add_symbol context name type node partially may_throw) = false
       /\ ((may_throw = true -> ir3.is_FunctionType type = true) ->
           exists message note,
             add_symbol context name type node partially may_throw
             = Raise (CompilationError node message [(lookup_ast_node r, note)])).
Proof.
  intros Hd Hr.
  destruct (descends_keeps_definitions _ _ _ _ Hd Hr) as (r' & Hr' & He).
  split; [eauto|]. intros type node partially may_throw. split.
  - destruct (add_symbol context name type node partially may_throw) as [c|] eqn:E;
      [|reflexivity].
    apply add_symbol_Ok in E as [(Hnone & _) _].
    unfold get_symbol_definition in Hr'. congruence.
  - intros Hthrow. rewrite (add_symbol_defined _ _ r' _ _ _ _ Hr' Hthrow).
    assert (Hnode : lookup_ast_node r' = lookup_ast_node r) by (injection He; auto).
    rewrite Hnode. eauto.
Qed.

(** The body of [def f(x: int):], and the scope of an [if] inside it. *)
Definition function_scope : CompilationContext :=
  mkCompilationContext
    (mkSymbolTable {[ "x" := (mkSymbol ir3.IntType "x" false, arg "x", false) ]}
       (Some (mkSymbolTable ∅ None)))
    (mkSymbolTable ∅ None) ∅ "example.py" ["def f(x: int):"] (Some "f").

Definition if_branch_of_f : CompilationContext :=
  with_symbols (create_child_context function_scope None)
    {[ "y" := (mkSymbol ir3.BoolType "y" false, Name "y" Store, false) ]}.

Lemma if_branch_descends : descends_from function_scope if_branch_of_f.
Proof.
  apply (descends_add function_scope (create_child_context function_scope None) "y" ir3.BoolType
           (Name "y" Store) false false).
  - apply descends_child, descends_refl.
  - reflexivity.
Qed.

Lemma no_redefinition_in_nested_scopes_witness :
  add_symbol if_branch_of_f "x" ir3.BoolType (Name "x" Store) false false
  = Raise (CompilationError (Name "x" Store) "x was already defined in this scope."
             [(arg "x", "The previous declaration was here.")])
  /\ is_ok (add_symbol if_branch_of_f "x" ir3.BoolType (Name "x" Store) false false)
     = false.
Proof.
  split; [reflexivity|].
  destruct (no_redefinition_in_nested_scopes function_scope if_branch_of_f "x"
              (mkSymbolLookupResult (mkSymbol ir3.IntType "x" false) (arg "x") false
                 (symbol_table function_scope))
              if_branch_descends eq_refl) as [_ H].
  exact (proj1 (H ir3.BoolType (Name "x" Store) false false)).
Defined.

(** ** The scope of a branch *)

(** The contexts reached from [base] by adding symbols to its own scope. *)
Inductive grows_from (base : CompilationContext) : CompilationContext -> Prop :=
| grows_refl : grows_from base base
| grows_add context name type node partially may_throw context' :
    grows_from base context ->
    add_symbol context name type node partially may_throw = Ok context' ->
    grows_from base context'.

(** X12.  The scope of a branch, filled by [add_symbol] from the empty scope
    that [create_child_context] makes: every symbol is filed under its own
    name, no name of the scope is defined in the context around it, and the
    branch is that context with one more scope. *)
Theorem branch_scope_is_fresh (parent_context branch_context : CompilationContext)
    (function_name : option string) :
  grows_from (create_child_context parent_context function_name) branch_context ->
  filed_by_name (symbols_by_name (symbol_table branch_context))
  /\ (forall name, is_Some (symbols_by_name (symbol_table branch_context) !! name) ->
        not_defined parent_context name)
  /\ branch_context
     = with_symbols (create_child_context parent_context function_name)
         (symbols_by_name (symbol_table branch_context)).
Proof.
  induction 1 as [|context name ty node p mt context' _ (Hfiled & Hfresh & Hshape) Hadd].
  - split; [apply filed_by_name_empty|]. split; [|reflexivity].
    intros name [? H]. simpl in H. rewrite lookup_empty in H. discriminate H.
  - apply add_symbol_Ok in Hadd as [(Hs & Hc & Hp) ->]. simpl. split; [|split].
    + apply filed_by_name_insert. exact Hfiled.
    + intros x Hx. destruct (decide (x = name)) as [->|Hne].
      * rewrite Hshape in Hs, Hc, Hp. simpl in Hs, Hc, Hp.
        destruct (symbols_by_name (symbol_table context) !! name) as [[[s n] b]|];
          [discriminate Hs|].
        split; [exact Hs|]. split; assumption.
      * rewrite lookup_insert_ne in Hx by congruence. apply Hfresh. exact Hx.
    + rewrite Hshape at 1. reflexivity.
Qed.

Lemma branch_scope_is_fresh_witness :
  filed_by_name (symbols_by_name (symbol_table if_branch_of_f))
  /\ not_defined function_scope "y".
Proof.
  destruct (branch_scope_is_fresh function_scope if_branch_of_f None) as (H1 & H2 & _).
  - apply (grows_add _ (create_child_context function_scope None) "y" ir3.BoolType
             (Name "y" Store) false false); [apply grows_refl|reflexivity].
  - split; [exact H1|]. apply H2. eexists. reflexivity.
Defined.

End ast_to_ir3_context_properties.

(** * Custom types and functions in contexts *)
Module ast_to_ir3_definitions_properties.
Import ast ast_to_ir3 ast_to_ir3_context ast_to_ir3_names ast_to_ir3_properties
  ast_to_ir3_context_properties.

(** X13.  [add_custom_type_symbol] needs a name that is defined nowhere.  It
    defines the name twice: in the symbol table as the constructor, a
    function from the field types to the custom type that does not throw, and
    in the table of custom types as the type.  The name cannot be given to a
    second custom type afterwards. *)
Theorem custom_type_is_constructor_and_type
    (context : CompilationContext) (name : string)
    (arg_types : list ir3.CustomTypeArgDecl) (is_exception_class : bool)
    (exception_message : option string) (node : AST) (context' : CompilationContext) :
  add_custom_type_symbol context name arg_types is_exception_class exception_message node
  = Ok context' ->
  not_defined context name
  /\ option_map entry (get_symbol_definition context' name)
     = Some (mkSymbol
               (ir3.FunctionType (map ir3.decl_type arg_types)
                  (ir3.CustomType name arg_types is_exception_class exception_message))
               name false,
             node, false)
  /\ option_map entry (get_type_symbol_definition context' name)
     = Some (mkSymbol (ir3.CustomType name arg_types is_exception_class exception_message)
               name false,
             node, false)
  /\ forall arg_types' is_exception_class' exception_message' node',
       is_CompilationError
         (add_custom_type_symbol context' name arg_types' is_exception_class'
            exception_message' node') = true.
Proof.
  unfold add_custom_type_symbol. cbv zeta. intros H.
  apply bind_Ok_inv in H as (c1 & Hadd & H). apply bind_Ok_inv in H as (t & Ht & H).
  injection H as <-. apply add_symbol_Ok in Hadd as [Hnew ->].
  unfold SymbolTable_add_symbol, Symbol_init in Ht. rewrite !bind_Ok in Ht.
  injection Ht as <-. simpl.
  split; [exact Hnew|]. split; [|split].
  - unfold get_symbol_definition. simpl. rewrite lookup_insert_eq. reflexivity.
  - unfold get_type_symbol_definition. simpl. rewrite lookup_insert_eq. reflexivity.
  - intros arg_types' exc' msg' node'. unfold add_symbol, _check_not_already_defined.
    simpl. rewrite lookup_insert_eq. reflexivity.
Qed.

(** [class Pair: def __init__(self, first: int, second: bool): ...] at the
    top of a module. *)
Definition module_context : CompilationContext :=
  mkCompilationContext (mkSymbolTable ∅ None) (mkSymbolTable ∅ None) ∅
    "example.py" ["class Pair:"] None.

Definition Pair_fields : list ir3.CustomTypeArgDecl :=
  [ir3.mkCustomTypeArgDecl "first" ir3.IntType;
   ir3.mkCustomTypeArgDecl "second" ir3.BoolType].

Definition Pair : ir3.ExprType := ir3.CustomType "Pair" Pair_fields false None.

Definition module_context_with_Pair : CompilationContext :=
  mkCompilationContext
    (mkSymbolTable
       {[ "Pair" := (mkSymbol (ir3.FunctionType [ir3.IntType; ir3.BoolType] Pair)
                       "Pair" false,
                     Other "class Pair", false) ]} None)
    (mkSymbolTable {[ "Pair" := (mkSymbol Pair "Pair" false, Other "class Pair", false) ]}
       None)
    ∅ "example.py" ["class Pair:"] None.

Lemma custom_type_is_constructor_and_type_witness :
  add_custom_type_symbol module_context "Pair" Pair_fields false None (Other "class Pair")
  = Ok module_context_with_Pair
  /\ option_map entry (get_type_symbol_definition module_context_with_Pair "Pair")
     = Some (mkSymbol Pair "Pair" false, Other "class Pair", false)
  /\ is_CompilationError
       (add_custom_type_symbol module_context_with_Pair "Pair" Pair_fields false None
          (Other "class Pair again")) = true.
Proof.
  split; [reflexivity|].
  destruct (custom_type_is_constructor_and_type module_context "Pair" Pair_fields false
              None (Other "class Pair") module_context_with_Pair eq_refl)
    as (_ & _ & H1 & H2).
  split; [exact H1|apply H2].
Defined.

Section Functions.
Context {N : ir3.Nodes} {NN : NameNodes}.

(** The error for a reference to a function whose return type is not known
    yet; [inside] is the function being elaborated. *)
Definition undetermined_return_type_error (reference : AST) (name : string)
    (definition : AST) (inside : option string) : Error :=
  CompilationError reference
    (if bool_decide (inside = Some name) then
       "Recursive function references are only allowed if the return type is declared explicitly."
     else
       "Reference to a function whose return type hasn't been determined yet. Please add a return type declaration in "
       +:+ name +:+ " or move its declaration before its use.")
    [(definition, name +:+ " was defined here")].

(** X14.  A function registered with
    [add_symbol_for_function_with_unknown_return_type] cannot be referred to:
    a reference is a compilation error that points to its definition.  Once
    [set_function_type] gives it a function type, it is an ordinary symbol of
    that type that may throw, it is no longer among the partially typechecked
    definitions, and a reference elaborates to a [VarReference]. *)
Theorem function_with_unknown_return_type
    (context : CompilationContext) (name : string) (definition : AST)
    (context1 : CompilationContext) :
  add_symbol_for_function_with_unknown_return_type context name definition = Ok context1 ->
  not_defined context name
  /\ (forall in_match_pattern check_var_reference,
        var_reference_ast_to_ir3 (Name name Load) context1 in_match_pattern
          check_var_reference
        = Raise (undetermined_return_type_error (Name name Load) name definition
                   (current_function_name context)))
  /\ forall argtypes returns,
       exists context2,
         set_function_type context1 name (ir3.FunctionType argtypes returns) = Ok context2
         /\ get_partial_function_definition context2 name = None
         /\ option_map entry (get_symbol_definition context2 name)
            = Some (mkSymbol (ir3.FunctionType argtypes returns) name true,
                    definition, false)
         /\ forall in_match_pattern check_var_reference,
              check_var_reference (Name name Load) = Ok tt ->
              var_reference_ast_to_ir3 (Name name Load) context2 in_match_pattern
                check_var_reference
              = Ok (VarReference (ir3.FunctionType argtypes returns) name
                      (match parent (symbol_table context) with
                       | None => true
                       | Some _ => false
                       end)
                      true).
Proof.
  unfold add_symbol_for_function_with_unknown_return_type. intros H.
  apply bind_Ok_inv in H as ([] & Hc & H). injection H as <-.
  assert (Hnew : not_defined context name).
  { unfold _check_not_already_defined in Hc. unfold not_defined.
    destruct (SymbolTable_get_symbol_definition (symbol_table context) name) as [r|].
    - destruct (is_only_partially_defined r); discriminate Hc.
    - destruct (SymbolTable_get_symbol_definition (custom_types_symbol_table context) name)
        as [r|].
      + destruct (is_only_partially_defined r); discriminate Hc.
      + destruct (partially_typechecked_function_definitions_by_name context !! name);
          [discriminate Hc|auto]. }
  destruct Hnew as (Hs & Hct & Hp). split; [repeat split; assumption|]. split.
  - intros imp chk. unfold var_reference_ast_to_ir3, get_symbol_definition,
      get_partial_function_definition. simpl. rewrite Hs, lookup_insert_eq.
    unfold undetermined_return_type_error.
    destruct (bool_decide (current_function_name context = Some name)); reflexivity.
  - intros argtypes returns. unfold set_function_type. simpl.
    rewrite lookup_insert_eq. eexists. split; [reflexivity|].
    destruct (symbol_table context) as [m p] eqn:Et. simpl.
    split; [unfold get_partial_function_definition; simpl; apply lookup_delete_eq|].
    split.
    + unfold get_symbol_definition. simpl. rewrite lookup_insert_eq. reflexivity.
    + intros imp chk Hchk. unfold var_reference_ast_to_ir3, get_symbol_definition.
      simpl. rewrite lookup_insert_eq. simpl. rewrite Hchk. reflexivity.
Qed.

End Functions.

(** The name nodes of the expression trees. *)
Definition tree_name_nodes : NameNodes (N := ir3_tree.nodes) :=
  {| VarReference := ir3_tree.VarReference;
     AtomicTypeLiteral := ir3_tree.AtomicTypeLiteral |}.

(** The module after [def g(n: int):] was met, before its body is elaborated. *)
Definition module_context_with_g : CompilationContext :=
  mkCompilationContext (mkSymbolTable ∅ None) (mkSymbolTable ∅ None)
    {[ "g" := Other "def g" ]} "example.py" ["class Pair:"] None.

Lemma function_with_unknown_return_type_witness :
  add_symbol_for_function_with_unknown_return_type module_context "g" (Other "def g")
  = Ok module_context_with_g
  /\ not_defined module_context "g"
  /\ var_reference_ast_to_ir3 (NN := tree_name_nodes) (Name "g" Load)
       module_context_with_g false ast_to_ir3_properties.no_check
     = Raise (CompilationError (Name "g" Load)
                "Reference to a function whose return type hasn't been determined yet. Please add a return type declaration in g or move its declaration before its use."
                [(Other "def g", "g was defined here")])
  /\ exists context2,
       set_function_type module_context_with_g "g"
         (ir3.FunctionType [ir3.IntType] ir3.BoolType) = Ok context2
       /\ get_partial_function_definition context2 "g" = None
       /\ var_reference_ast_to_ir3 (NN := tree_name_nodes) (Name "g" Load) context2 false
            ast_to_ir3_properties.no_check
          = Ok (ir3_tree.VarReference (ir3.FunctionType [ir3.IntType] ir3.BoolType)
                  "g" true true).
Proof.
  destruct (function_with_unknown_return_type (NN := tree_name_nodes) module_context "g"
              (Other "def g") module_context_with_g eq_refl)
    as (Hnew & Hraise & Hset).
  split; [reflexivity|]. split; [exact Hnew|].
  split; [exact (Hraise false ast_to_ir3_properties.no_check)|].
  destruct (Hset [ir3.IntType] ir3.BoolType) as (context2 & H2 & Hp & _ & Href).
  exists context2. split; [exact H2|]. split; [exact Hp|].
  exact (Href false ast_to_ir3_properties.no_check eq_refl).
Defined.

End ast_to_ir3_definitions_properties.

(** * Lists, assertions and match expressions that elaborate *)
Module ast_to_ir3_results.
Import ast ast_to_ir3.

Section Results.
Context {N : ir3.Nodes}.
Variable expression_ast_to_ir3 :
  AST -> CompilationContext -> bool -> VarReferenceCheck -> Result Error ir3.Expr.

Lemma same_type_loop (elem_type : ir3.ExprType) (first_node : AST)
    (pairs : list (ir3.Expr * AST)) :
  foldM (fun (_ : unit) '(elem_expr, elem_expr_ast_node) =>
           if negb (ir3.ExprType_eqb (ir3.type_of elem_expr) elem_type) then
             Raise (CompilationError elem_expr_ast_node
                      ("Found different types in list elements, this is not supported. The type of this element was "
                       +:+ ir3.str_type (ir3.type_of elem_expr) +:+ " instead of "
                       +:+ ir3.str_type elem_type)
                      [(first_node,
                        "A previous list element with type "
                        +:+ ir3.str_type elem_type +:+ " was here.")])
           else Ok tt) pairs tt = Ok tt ->
  Forall (fun pair => ir3.type_of (fst pair) = elem_type) pairs.
Proof.
  induction pairs as [|[e n] pairs IH]; intros H; [constructor|].
  simpl in H. destruct (ir3.ExprType_eqb (ir3.type_of e) elem_type) eqn:E;
    simpl in H; [|discriminate H].
  constructor; [apply ir3_properties.ExprType_eqb_spec; exact E|exact (IH H)].
Qed.

Lemma mapM_keeps_length {A B : Type} (f : A -> Result Error B) (xs : list A) (ys : list B) :
  mapM f xs = Ok ys -> length ys = length xs.
Proof.
  revert ys. induction xs as [|x xs IH]; intros ys H; simpl in H.
  - injection H as <-. reflexivity.
  - apply bind_Ok_inv in H as (y & _ & H). apply bind_Ok_inv in H as (ys' & Hys & H).
    injection H as <-. simpl. f_equal. apply IH. exact Hys.
Qed.

Lemma zip_fst {A B : Type} (xs : list A) (ys : list B) :
  length xs = length ys -> map fst (zip xs ys) = xs.
Proof.
  revert ys. induction xs as [|x xs IH]; intros [|y ys] H; simpl in *;
    try reflexivity; try discriminate H.
  f_equal. apply IH. lia.
Qed.

(** X15.  A list display that elaborates is homogeneous: the [ListExpr] it
    gives holds the elaborations of the elements, in order and as many as the
    display has, all of one type, which is the element type of the list and
    is not a function type. *)
Theorem list_display_is_homogeneous (elts : list AST) (ctx : expr_context)
    (compilation_context : CompilationContext) (in_match_pattern : bool)
    (check_var_reference : VarReferenceCheck) (e : ir3.Expr) :
  list_expression_ast_to_ir3 expression_ast_to_ir3 (List elts ctx) compilation_context
    in_match_pattern check_var_reference = Ok e ->
  exists elem_type elem_exprs,
    e = ir3.ListExpr elem_type elem_exprs
    /\ mapM (fun node => expression_ast_to_ir3 node compilation_context in_match_pattern
                           check_var_reference) elts = Ok elem_exprs
    /\ length elem_exprs = length elts
    /\ elem_exprs <> []
    /\ Forall (fun elem_expr => ir3.type_of elem_expr = elem_type) elem_exprs
    /\ ir3.is_FunctionType elem_type = false.
Proof.
  unfold list_expression_ast_to_ir3. intros H.
  apply bind_Ok_inv in H as (elem_exprs & Hm & H).
  pose proof (mapM_keeps_length _ _ _ Hm) as Hlen.
  destruct elem_exprs as [|first rest]; [discriminate H|].
  destruct elts as [|first_node rest_nodes]; [discriminate H|].
  apply bind_Ok_inv in H as ([] & Hloop & H).
  destruct (ir3.is_FunctionType (ir3.type_of first)) eqn:Hf; [discriminate H|].
  injection H as <-.
  exists (ir3.type_of first), (first :: rest).
  split; [reflexivity|]. split; [exact Hm|]. split; [exact Hlen|].
  split; [discriminate|]. split; [|exact Hf].
  apply same_type_loop in Hloop.
  rewrite <- (zip_fst (first :: rest) (first_node :: rest_nodes) Hlen).
  apply Forall_map. exact Hloop.
Qed.

(** ** Assertions *)

Definition has_newline (s : string) : bool :=
  existsb (Ascii.eqb "010"%char) (list_ascii_of_string s).

Lemma has_newline_cons (c : ascii) (s : string) :
  has_newline (String c s) = Ascii.eqb c "010"%char || has_newline s.
Proof.
  unfold has_newline. cbn [list_ascii_of_string existsb].
  rewrite Ascii.eqb_sym. reflexivity.
Qed.

Lemma escaped_newlines (s : string) :
  has_newline (replace_char "010"%char (backslash +:+ "n") s) = false.
Proof.
  induction s as [|c s IH]; [reflexivity|]. cbn [replace_char].
  destruct (Ascii.eqb c "010"%char) eqn:E.
  - change (has_newline (String "092"%char (String "n"%char
              (replace_char "010"%char (backslash +:+ "n") s))) = false).
    rewrite !has_newline_cons. exact IH.
  - rewrite has_newline_cons, E. exact IH.
Qed.

(** X16.  The message of an [assert] that elaborates holds no newline
    character: the message is one line of text, whatever the message literal
    and the source line are.  The condition of the assertion is the
    elaboration of the test, of type [bool]. *)
Theorem assert_message_is_one_line (test : AST) (msg : option AST) (lineno : Z)
    (compilation_context : CompilationContext) (stmt : ir3.Stmt) :
  assert_ast_to_ir3 expression_ast_to_ir3 (Assert test msg lineno) compilation_context
  = Ok stmt ->
  exists expr message,
    stmt = ir3.Assert expr message
    /\ expression_ast_to_ir3 test compilation_context false (fun _ => Ok tt) = Ok expr
    /\ ir3.type_of expr = ir3.BoolType
    /\ has_newline message = false.
Proof.
  unfold assert_ast_to_ir3. intros H.
  apply bind_Ok_inv in H as (expr & He & H). apply bind_Ok_inv in H as ([] & Ht & H).
  apply bind_Ok_inv in H as (message & _ & H). apply bind_Ok_inv in H as (line & _ & H).
  cbv zeta in H. injection H as <-.
  eexists. eexists. split; [reflexivity|]. split; [exact He|]. split.
  - destruct (ir3.type_of expr); try discriminate Ht. reflexivity.
  - apply escaped_newlines.
Qed.

End Results.

(** The display [[1, 2]] in the body of [f]. *)
Lemma list_display_is_homogeneous_witness :
  exists elem_type elem_exprs,
    ir3_tree.ListExpr ir3.IntType [ir3_tree.IntLiteral 1; ir3_tree.IntLiteral 2]
    = ir3.ListExpr (Nodes := ir3_tree.nodes) elem_type elem_exprs
    /\ mapM (fun node => ast_to_ir3_properties.elaborate_names_and_numbers node
                           ast_to_ir3_properties.body_of_f false
                           ast_to_ir3_properties.no_check)
         [Num (PyInt 1); Num (PyInt 2)] = Ok elem_exprs
    /\ length elem_exprs = length [Num (PyInt 1); Num (PyInt 2)]
    /\ elem_exprs <> []
    /\ Forall (fun elem_expr => ir3.type_of (Nodes := ir3_tree.nodes) elem_expr = elem_type)
         elem_exprs
    /\ ir3.is_FunctionType elem_type = false.
Proof.
  apply (list_display_is_homogeneous (N := ir3_tree.nodes)
           ast_to_ir3_properties.elaborate_names_and_numbers
           [Num (PyInt 1); Num (PyInt 2)] Load
           ast_to_ir3_properties.body_of_f false ast_to_ir3_properties.no_check).
  reflexivity.
Defined.

(** [assert ok, 'first' + newline + 'second'] on line 1. *)
Lemma assert_message_is_one_line_witness :
  exists expr message,
    ir3_tree.AssertStmt (ir3_tree.VarReference ir3.BoolType "ok" false false)
      ("TMPPy assertion failed: first" +:+ backslash +:+ "nsecond" +:+ backslash
       +:+ "nexample.py:1: assert ok, msg")
    = ir3.Assert (Nodes := ir3_tree.nodes) expr message
    /\ ast_to_ir3_properties.ok_is_bool (Name "ok" Load)
         (ast_to_ir3_properties.example_context "assert ok, msg" (Some "f"))
         false (fun _ => Ok tt) = Ok expr
    /\ ir3.type_of (Nodes := ir3_tree.nodes) expr = ir3.BoolType
    /\ has_newline message = false.
Proof.
  apply (assert_message_is_one_line (N := ir3_tree.nodes) ast_to_ir3_properties.ok_is_bool
           (Name "ok" Load) (Some (Str ("first" +:+ nl +:+ "second"))) 1
           (ast_to_ir3_properties.example_context "assert ok, msg" (Some "f"))).
  reflexivity.
Defined.

End ast_to_ir3_results.

(** * The cases of a match expression *)
Module ast_to_ir3_match_cases.
Import ast ast_to_ir3.

Section Cases.
Context {N : ir3.Nodes}.
Variable set_iteration_order : gset string -> list string.
Variable expression_ast_to_ir3 :
  AST -> CompilationContext -> bool -> VarReferenceCheck -> Result Error ir3.Expr.

(** The cases that specialize nothing. *)
Definition main_definitions (cases : list ir3.MatchCase) : list ir3.MatchCase :=
  List.filter ir3.is_main_definition cases.

(** What the loop over the branches keeps: [main_definition] is set as soon as
    a case specializes nothing, and there is at most one such case. *)
Definition one_main_definition (st : MatchLoopState) : Prop :=
  (main_definition st = None -> main_definitions (match_cases st) = [])
  /\ (length (main_definitions (match_cases st)) <= 1)%nat.

Lemma main_definitions_app (cases : list ir3.MatchCase) (c : ir3.MatchCase) :
  main_definitions (cases ++ [c])
  = (main_definitions cases ++ if ir3.is_main_definition c then [c] else [])%list.
Proof.
  unfold main_definitions. rewrite Stdlib.Lists.List.filter_app. simpl.
  destruct (ir3.is_main_definition c); reflexivity.
Qed.

Lemma match_branch_cases func matched_exprs lambda_arg_names body_context
    in_match_pattern check_var_reference st branch st' :
  match_branch expression_ast_to_ir3 func matched_exprs lambda_arg_names body_context
    in_match_pattern check_var_reference st branch = Ok st' ->
  one_main_definition st ->
  one_main_definition st'
  /\ length (match_cases st') = S (length (match_cases st)).
Proof.
  destruct branch as [key value]. unfold match_branch. intros H [Hnone Hle].
  apply bind_Ok_inv in H as ([] & _ & H).
  apply bind_Ok_inv in H as (pattern_exprs & _ & H). cbv zeta in H.
  apply bind_Ok_inv in H as (result_expr & _ & H).
  apply bind_Ok_inv in H as ([] & _ & H).
  set (c := ir3.MatchCase_init _ _ _) in H.
  destruct (ir3.is_main_definition c) eqn:Hc.
  - destruct (main_definition st) eqn:Hm.
    + destruct (main_definition_key_expr_ast st); discriminate H.
    + injection H as <-. unfold one_main_definition. simpl.
      rewrite main_definitions_app, Hc, (Hnone eq_refl), !length_app. simpl.
      repeat split; [discriminate|lia|lia].
  - injection H as <-. unfold one_main_definition. simpl.
    rewrite main_definitions_app, Hc, app_nil_r, !length_app. simpl.
    repeat split; [exact Hnone|exact Hle|lia].
Qed.

Lemma match_loop_cases func matched_exprs lambda_arg_names body_context
    in_match_pattern check_var_reference branches : forall st st',
  foldM (match_branch expression_ast_to_ir3 func matched_exprs lambda_arg_names
           body_context in_match_pattern check_var_reference) branches st = Ok st' ->
  one_main_definition st ->
  one_main_definition st'
  /\ length (match_cases st') = (length (match_cases st) + length branches)%nat.
Proof.
  induction branches as [|b branches IH]; intros st st' H Hst; simpl in H.
  - injection H as <-. split; [exact Hst|simpl; lia].
  - apply bind_Ok_inv in H as (st1 & H1 & H).
    destruct (match_branch_cases _ _ _ _ _ _ _ _ _ H1 Hst) as [Hst1 Hlen1].
    destruct (IH _ _ H Hst1) as [Hst' Hlen]. split; [exact Hst'|].
    rewrite Hlen, Hlen1. simpl. lia.
Qed.

Lemma matched_exprs_types (f : AST -> Result Error ir3.Expr) (nodes : list AST) :
  forall exprs,
  mapM (fun expr_ast =>
          expr ← f expr_ast;
          if negb (ir3.ExprType_eqb (ir3.type_of expr) ir3.TypeType) then
            Raise (CompilationError expr_ast
                     ("All arguments passed to match must have type Type, but an argument with type "
                      +:+ ir3.str_type (ir3.type_of expr) +:+ " was specified.")
                     [])
          else Ok expr) nodes = Ok exprs ->
  length exprs = length nodes
  /\ Forall (fun expr => ir3.type_of expr = ir3.TypeType) exprs.
Proof.
  induction nodes as [|n nodes IH]; intros exprs H; simpl in H.
  - injection H as <-. split; [reflexivity|constructor].
  - apply bind_Ok_inv in H as (e & He & H). apply bind_Ok_inv in H as (es & Hes & H).
    injection H as <-. apply bind_Ok_inv in He as (e0 & _ & He).
    destruct (ir3.ExprType_eqb (ir3.type_of e0) ir3.TypeType) eqn:Et;
      simpl in He; [|discriminate He].
    injection He as <-. destruct (IH _ Hes) as [Hlen Hall].
    split; [simpl; f_equal; exact Hlen|].
    constructor; [apply ir3_properties.ExprType_eqb_spec; exact Et|exact Hall].
Qed.

(** X17.  A match expression elaborates only from the form
    [match(e1, ..., en)(lambda a1, ..., am: {k1: v1, ...})] with at least one
    matched expression, no keyword argument and a plain argument list, and at
    least one key.  The [MatchExpr] it gives has one matched expression per
    argument of [match], each of type [Type], one case per branch, and at most
    one case that specializes nothing. *)
Theorem match_expression_cases (ast_node : AST) (compilation_context : CompilationContext)
    (in_match_pattern : bool) (check_var_reference : VarReferenceCheck) (e : ir3.Expr) :
  match_expression_ast_to_ir3 set_iteration_order expression_ast_to_ir3 ast_node
    compilation_context in_match_pattern check_var_reference = Ok e ->
  exists callee func_args lambda_args keys values matched_exprs cases,
    ast_node = Call (Call callee func_args [])
                 [Lambda (mk_arguments lambda_args None [] [] []) (Dict keys values)] []
    /\ e = ir3.MatchExpr matched_exprs cases
    /\ func_args <> [] /\ keys <> []
    /\ length matched_exprs = length func_args
    /\ Forall (fun expr => ir3.type_of expr = ir3.TypeType) matched_exprs
    /\ length cases = length (zip keys values)
    /\ (length (main_definitions cases) <= 1)%nat.
Proof.
  intros H. unfold match_expression_ast_to_ir3 in H.
  destruct ast_node as [| | | | | | |func args keywords| | |]; try discriminate H.
  destruct func as [| | | | | | |callee func_args func_keywords| | |]; try discriminate H.
  apply bind_Ok_inv in H as ([] & Hk & H).
  destruct keywords; [|discriminate Hk].
  apply bind_Ok_inv in H as ([] & Hfk & H).
  destruct func_keywords; [|discriminate Hfk].
  apply bind_Ok_inv in H as ([] & Hargs & H).
  apply bind_Ok_inv in H as (matched_exprs & Hmatched & H).
  destruct args as [|lam [|]]; try discriminate H; 
    [|destruct lam as [| | | | | |[? ? ? ? ?] ?| | | |]; discriminate H].
  destruct lam as [| | | | | |lambda_arguments body| | | |]; try discriminate H.
  destruct lambda_arguments as [lambda_args vararg kwonlyargs kw_defaults defaults].
  apply bind_Ok_inv in H as ([] & Hv & H).
  destruct vararg; [discriminate Hv|].
  apply bind_Ok_inv in H as ([] & Hko & H).
  apply bind_Ok_inv in H as ([] & Hkd & H).
  apply bind_Ok_inv in H as ([] & Hd & H).
  unfold assert_ in Hko, Hkd, Hd.
  destruct (bool_decide (kwonlyargs = [])) eqn:E1; [|discriminate Hko].
  destruct (bool_decide (kw_defaults = [])) eqn:E2; [|discriminate Hkd].
  destruct (bool_decide (defaults = [])) eqn:E3; [|discriminate Hd].
  apply bool_decide_eq_true in E1, E2, E3. subst.
  cbv zeta in H. apply bind_Ok_inv in H as (body_context & _ & H).
  destruct body as [| | | | |keys values| | | | |]; try discriminate H.
  apply bind_Ok_inv in H as ([] & Hkeys & H).
  apply bind_Ok_inv in H as ([] & _ & H).
  apply bind_Ok_inv in H as (st & Hloop & H).
  apply bind_Ok_inv in H as ([] & _ & H).
  injection H as <-.
  apply match_loop_cases in Hloop as [[_ Hle] Hlen];
    [|split; [reflexivity|simpl; lia]].
  destruct (matched_exprs_types _ _ _ Hmatched) as [Hlm Hall].
  exists callee, func_args, lambda_args, keys, values, matched_exprs, (match_cases st).
  split; [reflexivity|]. split; [reflexivity|].
  split; [intros ->; discriminate Hargs|].
  split; [intros ->; discriminate Hkeys|].
  split; [exact Hlm|]. split; [exact Hall|]. split; [exact Hlen|exact Hle].
Qed.

End Cases.

Lemma match_expression_cases_witness :
  exists callee func_args lambda_args keys values matched_exprs cases,
    ast_to_ir3_properties.match_T [arg "a"] (Name "a" Load)
    = Call (Call callee func_args [])
        [Lambda (mk_arguments lambda_args None [] [] []) (Dict keys values)] []
    /\ ir3_tree.MatchExpr
         [ir3_tree.VarReference ir3.TypeType "T" false false]
         [(["a"], [ir3_tree.VarReference ir3.TypeType "a" false false],
           ir3_tree.IntLiteral 1)]
       = ir3.MatchExpr (Nodes := ir3_tree.nodes) matched_exprs cases
    /\ func_args <> [] /\ keys <> []
    /\ length matched_exprs = length func_args
    /\ Forall (fun expr => ir3.type_of (Nodes := ir3_tree.nodes) expr = ir3.TypeType)
         matched_exprs
    /\ length cases = length (zip keys values)
    /\ (length (main_definitions (N := ir3_tree.nodes) cases) <= 1)%nat.
Proof.
  apply (match_expression_cases (N := ir3_tree.nodes) elements
           ast_to_ir3_properties.elaborate_names_and_numbers
           (ast_to_ir3_properties.match_T [arg "a"] (Name "a" Load))
           ast_to_ir3_properties.body_of_f false ast_to_ir3_properties.no_check).
  reflexivity.
Defined.

End ast_to_ir3_match_cases.

(** * Function types in the emitted code *)
Module ir0_to_cpp_function_types.
Import ir0 ir0_to_cpp.

Definition is_atomic (e : Expr) : bool :=
  match e with AtomicTypeLiteral _ _ _ _ => true | _ => false end.

(** [expr.cpp_type] of an atomic type literal *)
Definition cpp_type_of (e : Expr) : string :=
  match e with AtomicTypeLiteral cpp_type _ _ _ => cpp_type | _ => EmptyString end.

(** The fragments the loop over the arguments of a function type writes, for
    arguments that are atomic types, from the argument of index [i] on. *)
Fixpoint argument_fragments (i : nat) (arg_exprs : list Expr) : list string :=
  match arg_exprs with
  | [] => []
  | arg :: rest =>
      ((if negb (Nat.eqb i 0) then [", "] else []) ++ [cpp_type_of arg]
       ++ argument_fragments (S i) rest)%list
  end.

Lemma write_function_args_atomic depth args parent :
  forall arg_exprs i strings,
  forallb is_atomic arg_exprs = true ->
  write_function_args (emitters (S depth)) i arg_exprs args (W_Expr parent strings)
  = Ok (W_Expr parent (strings ++ argument_fragments i arg_exprs)).
Proof.
  induction arg_exprs as [|arg rest IH]; intros i strings Hall.
  - simpl. rewrite app_nil_r. reflexivity.
  - simpl in Hall. apply andb_prop in Hall as [Harg Hrest].
    destruct arg; try discriminate Harg.
    cbn [write_function_args argument_fragments cpp_type_of].
    destruct (negb (i =? 0)%nat); cbn; rewrite (IH _ _ Hrest); f_equal; f_equal;
      rewrite <- !app_assoc; reflexivity.
Qed.

Lemma argument_fragments_S (i : nat) (arg_exprs : list Expr) :
  argument_fragments (S (S i)) arg_exprs = argument_fragments 1 arg_exprs.
Proof.
  revert i. induction arg_exprs as [|arg rest IH]; intros i; [reflexivity|].
  cbn [argument_fragments]. rewrite (IH (S i)), (IH 0%nat). reflexivity.
Qed.

Lemma join_comma_cons (x : string) (xs : list string) :
  join ", " (x :: xs)
  = x +:+ join EmptyString (flat_map (fun y => [", "; y]) xs).
Proof.
  revert x. induction xs as [|y ys IH]; intros x.
  - unfold join. simpl. rewrite ir0_to_cpp_header_properties.string_app_nil_r.
    reflexivity.
  - change (join ", " (x :: y :: ys)) with (x +:+ ", " +:+ join ", " (y :: ys)).
    rewrite IH. cbn [flat_map].
    change ([", "; y] ++ flat_map (fun y0 => [", "; y0]) ys)%list
      with (", " :: y :: flat_map (fun y0 => [", "; y0]) ys).
    rewrite !ir0_to_cpp_header_properties.join_empty_cons. reflexivity.
Qed.

Lemma argument_fragments_later (arg_exprs : list Expr) :
  argument_fragments 1 arg_exprs
  = flat_map (fun y => [", "; y]) (map cpp_type_of arg_exprs).
Proof.
  induction arg_exprs as [|arg rest IH]; [reflexivity|].
  cbn [argument_fragments map flat_map]. rewrite argument_fragments_S, IH. reflexivity.
Qed.

Lemma argument_fragments_text (arg_exprs : list Expr) :
  join EmptyString (argument_fragments 0 arg_exprs) = join ", " (map cpp_type_of arg_exprs).
Proof.
  destruct arg_exprs as [|arg rest]; [reflexivity|].
  cbn [argument_fragments map]. rewrite join_comma_cons, argument_fragments_later.
  change (negb (0 =? 0)%nat) with false. cbn iota.
  change ([] ++ [cpp_type_of arg] ++ ?l)%list with (cpp_type_of arg :: l).
  rewrite ir0_to_cpp_header_properties.join_empty_cons. reflexivity.
Qed.

(** X18.  A pointer to a function whose return type and argument types are
    atomic types is written as the return type, a star between parentheses,
    a space and the argument types between parentheses, separated by a comma
    and a space.  The writer is left as it was. *)
Theorem pointer_to_function_text (depth : nat) (return_type_expr : Expr)
    (arg_exprs : list Expr) (enclosing_function_defn_args : list TemplateArgDecl)
    (writer : Writer) :
  is_atomic return_type_expr = true ->
  forallb is_atomic arg_exprs = true ->
  expr_to_cpp (4 + depth)
    (PointerTypeExpr (FunctionTypeExpr return_type_expr arg_exprs))
    enclosing_function_defn_args writer
  = Ok (cpp_type_of return_type_expr +:+ "(" +:+ "*" +:+ ") ("
        +:+ join ", " (map cpp_type_of arg_exprs) +:+ ")", writer).
Proof.
  intros Hr Hargs. destruct return_type_expr; try discriminate Hr.
  unfold expr_to_cpp.
  change (rec_expr_to_cpp (emitters (4 + depth)))
    with (expr_to_cpp_def (emitters (3 + depth))).
  cbn -[write_function_args].
  match goal with
  | |- context [write_function_args ?rec _ _ _ _] =>
      change rec with (emitters (S depth))
  end.
  rewrite (write_function_args_atomic depth _ _ _ _ _ Hargs).
  rewrite ?bind_Ok. cbn [write_expr_fragment close_expr_writer mbind Result_bind].
  f_equal. f_equal.
  rewrite !ir0_to_cpp_header_properties.join_empty_app, argument_fragments_text.
  change (join EmptyString [")"]) with ")".
  change (join EmptyString [atomic_type_literal_expr_to_cpp cpp_type; "("; "*"; ")"; " ("])
    with (cpp_type +:+ "(" +:+ "*" +:+ ") (").
  rewrite !ir0_to_cpp_properties.string_app_assoc. reflexivity.
Qed.

(** [int], [float] and the like: a type that is not local. *)
Definition named_type (cpp_type : string) : Expr :=
  AtomicTypeLiteral cpp_type false false TypeType.

Lemma pointer_to_function_text_witness :
  expr_to_cpp 4
    (PointerTypeExpr (FunctionTypeExpr (named_type "int")
                        [named_type "float"; named_type "bool"]))
    [] ir0_to_cpp_header_properties.writer_in_use
  = Ok ("int(" +:+ "*" +:+ ") (float, bool)", ir0_to_cpp_header_properties.writer_in_use).
Proof.
  apply (pointer_to_function_text 0 (named_type "int")
           [named_type "float"; named_type "bool"] []
           ir0_to_cpp_header_properties.writer_in_use); reflexivity.
Defined.

(** [X -> Y], a pointer to a function from [X] to [Y]. *)
Definition function_pointer (argument result : Expr) : Expr :=
  PointerTypeExpr (FunctionTypeExpr result [argument]).

(** The second row of each table in the comment of
    [function_type_expr_to_cpp_prefix_suffix]: a function that returns a
    function, and a function that takes a function. *)
Example function_returning_function :
  expr_to_cpp 6
    (function_pointer (named_type "X2") (function_pointer (named_type "X1") (named_type "Y")))
    [] ir0_to_cpp_header_properties.writer_in_use
  = Ok ("Y(" +:+ "*(" +:+ "*" +:+ ") (X2)) (X1)",
        ir0_to_cpp_header_properties.writer_in_use).
Proof. reflexivity. Qed.

Example function_taking_function :
  expr_to_cpp 6
    (function_pointer (function_pointer (named_type "Y") (named_type "X1")) (named_type "X2"))
    [] ir0_to_cpp_header_properties.writer_in_use
  = Ok ("X2(" +:+ "*" +:+ ") (X1(" +:+ "*" +:+ ") (Y))",
        ir0_to_cpp_header_properties.writer_in_use).
Proof. reflexivity. Qed.

(** A function type that no modifier is applied to has no parentheses around
    a name: [int (float)]. *)
Example function_type_without_modifier :
  expr_to_cpp 3 (FunctionTypeExpr (named_type "int") [named_type "float"])
    [] ir0_to_cpp_header_properties.writer_in_use
  = Ok ("int (float)", ir0_to_cpp_header_properties.writer_in_use).
Proof. reflexivity. Qed.

End ir0_to_cpp_function_types.

(** * Expressions outside of templates *)
Module ir0_to_cpp_toplevel.
Import ir0 ir0_to_cpp ir0_to_cpp_frame.

(** A closure that only writes fragments of the expression: run on an
    expression writer, it gives that writer with more fragments, above the
    same parent. *)
Definition writes_fragments_only (c : Closure) : Prop :=
  forall parent strings w',
    c (W_Expr parent strings) = Ok w' -> exists strings', w' = W_Expr parent strings'.

(** The functions of an emitter, called with no enclosing template
    parameter, return the writer they were given. *)
Record emitters_keep_writer (rec : Emitters) : Prop := {
  expr_keeps : forall e w s w',
    rec_expr_to_cpp rec e [] w = Ok (s, w') -> w' = w;
  prefix_suffix_keeps : forall e w has_modifiers write_prefix write_suffix w',
    rec_type_expr_to_cpp_prefix_suffix rec e [] w has_modifiers
    = Ok (write_prefix, write_suffix, w') ->
    w' = w /\ writes_fragments_only write_prefix /\ writes_fragments_only write_suffix;
  instantiation_keeps : forall t a flag w omit s w',
    rec_template_instantiation_to_cpp rec t a flag [] w omit = Ok (s, w') -> w' = w;
  member_access_keeps : forall e name type w omit parent s w',
    rec_class_member_access_to_cpp rec e name type [] w omit parent = Ok (s, w') ->
    w' = w
}.

Lemma mapM_st_keeps {A B : Type} (f : A -> Writer -> Result PyError (B * Writer))
    (xs : list A) :
  (forall x w r w', f x w = Ok (r, w') -> w' = w) ->
  forall w rs w', mapM_st f xs w = Ok (rs, w') -> w' = w.
Proof.
  intros Hf. induction xs as [|x xs IH]; intros w rs w' H; simpl in H.
  - injection H as <- <-. reflexivity.
  - bind_step H. bind_step H. injection H as <- <-.
    apply Hf in Hr. subst. eapply IH; eassumption.
Qed.

Section Step.
Variable rec : Emitters.
Hypothesis IH : emitters_keep_writer rec.

Lemma type_expr_to_cpp_fragments e parent strings w' :
  type_expr_to_cpp rec e [] (W_Expr parent strings) = Ok w' ->
  exists strings', w' = W_Expr parent strings'.
Proof.
  unfold type_expr_to_cpp. intros H. bind_step H. bind_step H.
  apply (prefix_suffix_keeps _ IH) in Hr as (-> & H2 & H3).
  apply H2 in Hr0 as (strings1 & ->). apply H3 in H. exact H.
Qed.

Lemma expr_to_cpp_def_keeps e w s w' :
  expr_to_cpp_def rec e [] w = Ok (s, w') -> w' = w.
Proof.
  intros H.
  assert (Hdefault : forall e0,
             (writer ← type_expr_to_cpp rec e0 [] (W_Expr w []);
              Ok (close_expr_writer writer)) = Ok (s, w') -> w' = w).
  { intros e0 H0. bind_step H0. apply type_expr_to_cpp_fragments in Hr as (strs & ->).
    simpl in H0. injection H0 as <- <-. reflexivity. }
  assert (Hbinary : forall l r (mk : string -> string -> string),
             ('(a, writer) ← rec_expr_to_cpp rec l [] w;
              '(b, writer) ← rec_expr_to_cpp rec r [] writer;
              Ok (mk a b, writer)) = Ok (s, w') -> w' = w).
  { intros l r mk H0. bind_step H0. bind_step H0. injection H0 as <- <-.
    apply (expr_keeps _ IH) in Hr, Hr0. congruence. }
  assert (Hunary : forall x (mk : string -> string),
             ('(a, writer) ← rec_expr_to_cpp rec x [] w; Ok (mk a, writer))
             = Ok (s, w') -> w' = w).
  { intros x mk H0. bind_step H0. injection H0 as <- <-.
    eapply (expr_keeps _ IH); eassumption. }
  destruct e; simpl in H; try (eapply Hdefault; exact H).
  - injection H as <- <-. reflexivity.
  - eapply (Hbinary _ _ (fun a b => "(" +:+ a +:+ ") " +:+ op +:+ " (" +:+ b +:+ ")")).
    exact H.
  - eapply (Hbinary _ _ (fun a b => "(" +:+ a +:+ ") " +:+ op +:+ " (" +:+ b +:+ ")")).
    exact H.
  - eapply (Hunary _ (fun a => "!(" +:+ a +:+ ")")). exact H.
  - eapply (Hunary _ (fun a => "-(" +:+ a +:+ ")")). exact H.
Qed.

Lemma template_instantiation_to_cpp_def_keeps t a flag w omit s w' :
  template_instantiation_to_cpp_def rec t a flag [] w omit = Ok (s, w') -> w' = w.
Proof.
  unfold template_instantiation_to_cpp_def. intros H. cbv zeta in H.
  rewrite andb_false_r in H. cbn [andb] in H. rewrite bind_Ok in H. cbv beta iota in H.
  bind_step H. bind_step H. injection H as <- <-.
  assert (H2 : w0 = w).
  { eapply mapM_st_keeps; [|eassumption].
    intros x wa ra wb Hx. eapply (expr_keeps _ IH); exact Hx. }
  subst w0.
  destruct t; first [eapply (expr_keeps _ IH); eassumption
                    |eapply (member_access_keeps _ IH); eassumption].
Qed.

Lemma class_member_access_to_cpp_def_keeps e name type w omit parent s w' :
  class_member_access_to_cpp_def rec e name type [] w omit parent = Ok (s, w') ->
  w' = w.
Proof.
  unfold class_member_access_to_cpp_def. intros H. bind_step H.
  assert (H1 : w0 = w).
  { destruct e; first [eapply (expr_keeps _ IH); eassumption
                      |eapply (member_access_keeps _ IH); eassumption
                      |eapply (instantiation_keeps _ IH); eassumption]. }
  destruct type; try discriminate H; injection H as <- <-; exact H1.
Qed.

Lemma unary_modifier_keeps modifier_str sub_expr w write_prefix write_suffix w' :
  unary_modifier_type_expr_to_cpp_prefix_suffix rec modifier_str sub_expr [] w
  = Ok (write_prefix, write_suffix, w') ->
  w' = w /\ writes_fragments_only write_prefix /\ writes_fragments_only write_suffix.
Proof.
  unfold unary_modifier_type_expr_to_cpp_prefix_suffix. intros H. bind_step H.
  injection H as <- <- <-.
  apply (prefix_suffix_keeps _ IH) in Hr as (H1 & H2 & H3).
  split; [exact H1|]. split; [|exact H3].
  intros p strs wb Hc. bind_step Hc. injection Hc as <-.
  apply H2 in Hr as (strs1 & ->). simpl. eauto.
Qed.

Lemma write_function_args_fragments i arg_exprs parent strings w' :
  write_function_args rec i arg_exprs [] (W_Expr parent strings) = Ok w' ->
  exists strings', w' = W_Expr parent strings'.
Proof.
  revert i strings w'.
  induction arg_exprs as [|a l IHl]; intros i strings w' H; simpl in H.
  - injection H as <-. eauto.
  - bind_step H.
    destruct (negb _) in Hr; simpl in Hr;
      apply type_expr_to_cpp_fragments in Hr as (strs1 & ->); eapply IHl; exact H.
Qed.

Lemma function_type_keeps return_type_expr arg_exprs w has_modifiers
    write_prefix write_suffix w' :
  function_type_expr_to_cpp_prefix_suffix rec return_type_expr arg_exprs [] w
    has_modifiers = Ok (write_prefix, write_suffix, w') ->
  w' = w /\ writes_fragments_only write_prefix /\ writes_fragments_only write_suffix.
Proof.
  unfold function_type_expr_to_cpp_prefix_suffix. intros H. bind_step H.
  injection H as <- <- <-.
  apply (prefix_suffix_keeps _ IH) in Hr as (H1 & H2 & H3).
  split; [exact H1|]. split.
  - intros p strs wb Hc. bind_step Hc. injection Hc as <-.
    apply H2 in Hr as (strs1 & ->). destruct has_modifiers; simpl; eauto.
  - intros p strs wb Hc. cbv zeta in Hc. bind_step Hc.
    destruct has_modifiers; simpl in Hr;
      apply write_function_args_fragments in Hr as (strs1 & ->);
      simpl in Hc; apply H3 in Hc; exact Hc.
Qed.

Lemma leaf_keeps (r : Result PyError (string * Writer)) w write_prefix write_suffix w' :
  (forall s w1, r = Ok (s, w1) -> w1 = w) ->
  ('(expr_cpp_code, writer) ← r;
   Ok ((fun writer => Ok (write_expr_fragment writer expr_cpp_code)) : Closure,
       (fun writer => Ok writer) : Closure, writer))
  = Ok (write_prefix, write_suffix, w') ->
  w' = w /\ writes_fragments_only write_prefix /\ writes_fragments_only write_suffix.
Proof.
  intros Hr H. bind_step H. injection H as <- <- <-.
  split; [eapply Hr; eassumption|]. split.
  - intros p strs wb Hc. injection Hc as <-. simpl. eauto.
  - intros p strs wb Hc. injection Hc as <-. eauto.
Qed.

Lemma type_expr_to_cpp_prefix_suffix_def_keeps e w has_modifiers
    write_prefix write_suffix w' :
  type_expr_to_cpp_prefix_suffix_def rec e [] w has_modifiers
  = Ok (write_prefix, write_suffix, w') ->
  w' = w /\ writes_fragments_only write_prefix /\ writes_fragments_only write_suffix.
Proof.
  unfold type_expr_to_cpp_prefix_suffix_def. cbv zeta. intros H.
  match type of H with
  | (match ?x with _ => _ end) = _ => destruct x
  end; try discriminate H;
    first [eapply unary_modifier_keeps; eassumption
          |eapply function_type_keeps; eassumption
          |eapply leaf_keeps; [|exact H]; intros s1 w1 Hs].
  - injection Hs as <- <-. reflexivity.
  - eapply (instantiation_keeps _ IH); eassumption.
  - eapply (member_access_keeps _ IH); eassumption.
  - unfold variadic_type_expansion_to_cpp in Hs. bind_step Hs. injection Hs as <- <-.
    eapply (expr_keeps _ IH); eassumption.
Qed.

End Step.

Lemma emitters_keep_writer_all (depth : nat) : emitters_keep_writer (emitters depth).
Proof.
  induction depth as [|d IH]; simpl.
  - split; intros; discriminate.
  - split; simpl; intros.
    + eapply expr_to_cpp_def_keeps; eassumption.
    + eapply type_expr_to_cpp_prefix_suffix_def_keeps; eassumption.
    + eapply template_instantiation_to_cpp_def_keeps; eassumption.
    + eapply class_member_access_to_cpp_def_keeps; eassumption.
Qed.

(** X19.  Outside of every template (no enclosing template parameter),
    [expr_to_cpp] returns the writer it was given: it writes no toplevel
    element and no template body element, it draws no identifier, and the
    text of the expression is all it gives. *)
Theorem expr_to_cpp_outside_templates (depth : nat) (e : Expr) (w : Writer)
    (s : string) (w' : Writer) :
  expr_to_cpp depth e [] w = Ok (s, w') -> w' = w.
Proof. apply (expr_keeps _ (emitters_keep_writer_all depth)). Qed.

(** [F<5>], flagged as possibly triggering static asserts, is written as it
    is outside of templates. *)
Lemma expr_to_cpp_outside_templates_witness :
  expr_to_cpp 5 ir0_to_cpp_header_properties.flagged_F_of_5 []
    ir0_to_cpp_header_properties.writer_in_use
  = Ok ("F<5LL>", ir0_to_cpp_header_properties.writer_in_use)
  /\ ir0_to_cpp_header_properties.writer_in_use
     = ir0_to_cpp_header_properties.writer_in_use.
Proof.
  split; [reflexivity|].
  apply (expr_to_cpp_outside_templates 5 ir0_to_cpp_header_properties.flagged_F_of_5
           ir0_to_cpp_header_properties.writer_in_use "F<5LL>"
           ir0_to_cpp_header_properties.writer_in_use).
  reflexivity.
Defined.

End ir0_to_cpp_toplevel.
